(** * Allergy Alert: intake validation, restaurant lookup and HTTP client

    A shallow embedding of the logic of the allergy-alert web application:
    the intake form (allergyForm/page.tsx and components/AllergyForm.js),
    the lookup function getSafeFoodsByRestaurantName (aiFunctions), the
    lookup page (menuInput/page.tsx) and the generic client
    (modules/client.ts); further the profile provider
    (contexts/AllergyContext.tsx), the dashboard (dashboard/page.tsx), the
    options page of the earlier form and the utilities of the client.

    JavaScript strings are sequences of UTF-16 code units, so they are
    modelled as lists of numbers; [length], the regular expressions and
    [trim] all work on code units, as they do in the source. *)

From Stdlib Require Import List NArith ZArith Bool String Ascii Lia Arith.
From Stdlib Require Import DecimalString DecimalNat FinFun.
Import ListNotations.

Set Implicit Arguments.
Set Warnings "-register-all".

(* ================================================================== *)
(** ** JavaScript strings *)
(* ================================================================== *)

Module JS.

Definition jsstring := list N.

(** A string literal of the source, as code units. *)
Definition js (s : string) : jsstring :=
  map N_of_ascii (list_ascii_of_string s).

(** A literal that contains double quotes, written with an apostrophe for
    each of them. *)
Definition jsq (s : string) : jsstring :=
  map (fun c => if N.eqb c 39 then 34%N else c) (js s).

Definition str_eqb (a b : jsstring) : bool :=
  if list_eq_dec N.eq_dec a b then true else false.

(** Truthiness of a string: every string but the empty one. *)
Definition truthy_str (s : jsstring) : bool :=
  match s with [] => false | _ :: _ => true end.

Open Scope N_scope.

(** WhiteSpace and LineTerminator of ECMAScript: what [String.prototype.trim]
    strips and what the class [\s] of a regular expression accepts. *)
Definition isWhiteSpace (c : N) : bool :=
  (c =? 9) || (c =? 10) || (c =? 11) || (c =? 12) || (c =? 13) || (c =? 32)
  || (c =? 160) || (c =? 5760)
  || ((8192 <=? c) && (c <=? 8202))
  || (c =? 8232) || (c =? 8233) || (c =? 8239) || (c =? 8287)
  || (c =? 12288) || (c =? 65279).

(** [a-zA-Z] *)
Definition isAsciiLetter (c : N) : bool :=
  ((97 <=? c) && (c <=? 122)) || ((65 <=? c) && (c <=? 90)).

(** [0-9] *)
Definition isDigit (c : N) : bool := (48 <=? c) && (c <=? 57).

Close Scope N_scope.

Fixpoint trimStart (s : jsstring) : jsstring :=
  match s with
  | [] => []
  | c :: r => if isWhiteSpace c then trimStart r else s
  end.

Definition trimEnd (s : jsstring) : jsstring := rev (trimStart (rev s)).

Definition trim (s : jsstring) : jsstring := trimEnd (trimStart s).

(** [Array.prototype.join] on an array of strings. *)
Fixpoint join (sep : jsstring) (l : list jsstring) : jsstring :=
  match l with
  | [] => []
  | [x] => x
  | x :: r => x ++ sep ++ join sep r
  end.

(** [a || b] on strings that may be undefined. *)
Definition or_else (a b : option jsstring) : option jsstring :=
  match a with
  | Some s => if truthy_str s then a else b
  | None => b
  end.

Definition falsy_opt (a : option jsstring) : bool :=
  match a with
  | Some s => negb (truthy_str s)
  | None => true
  end.

(** [[a-zA-Z\s]]: a letter or white space (the space among it). *)
Definition isLetterOrSpace (c : N) : bool := isAsciiLetter c || isWhiteSpace c.

(** Any other character: a digit, a symbol, a letter outside a-z and A-Z. *)
Definition isDigitOrSymbol (c : N) : bool := negb (isLetterOrSpace c).

End JS.

Import JS.

(* ================================================================== *)
(** ** Regular expressions *)
(* ================================================================== *)

(** The validation patterns of the forms are anchored at both ends and
    use only classes, concatenation and [+]; [test] decides a match of the
    whole string by derivatives. *)
Module Regex.

Inductive regex : Type :=
| Void
| Eps
| Class (p : N -> bool)
| Cat (r1 r2 : regex)
| Alt (r1 r2 : regex)
| Star (r : regex).

(** [r+] *)
Definition Plus (r : regex) : regex := Cat r (Star r).

(** A literal character. *)
Definition Chr (c : N) : regex := Class (N.eqb c).

Fixpoint nullable (r : regex) : bool :=
  match r with
  | Void => false
  | Eps => true
  | Class _ => false
  | Cat r1 r2 => nullable r1 && nullable r2
  | Alt r1 r2 => nullable r1 || nullable r2
  | Star _ => true
  end.

Fixpoint deriv (c : N) (r : regex) : regex :=
  match r with
  | Void => Void
  | Eps => Void
  | Class p => if p c then Eps else Void
  | Cat r1 r2 =>
      if nullable r1 then Alt (Cat (deriv c r1) r2) (deriv c r2)
      else Cat (deriv c r1) r2
  | Alt r1 r2 => Alt (deriv c r1) (deriv c r2)
  | Star r1 => Cat (deriv c r1) (Star r1)
  end.

(** [/^r$/.test(s)] *)
Fixpoint test (r : regex) (s : jsstring) : bool :=
  match s with
  | [] => nullable r
  | c :: s' => test (deriv c r) s'
  end.

(** The language of a pattern, to reason about [test]. *)
Inductive matches : regex -> jsstring -> Prop :=
| MEps : matches Eps []
| MClass p c : p c = true -> matches (Class p) [c]
| MCat r1 r2 s1 s2 :
    matches r1 s1 -> matches r2 s2 -> matches (Cat r1 r2) (s1 ++ s2)
| MAltL r1 r2 s : matches r1 s -> matches (Alt r1 r2) s
| MAltR r1 r2 s : matches r2 s -> matches (Alt r1 r2) s
| MStar0 r : matches (Star r) []
| MStarS r s1 s2 :
    matches r s1 -> matches (Star r) s2 -> matches (Star r) (s1 ++ s2).

End Regex.

Import Regex.

(* ================================================================== *)
(** ** Intake form, allergyForm/page.tsx *)
(* ================================================================== *)

Module AllergyFormPage.

(** [/^[a-zA-Z\s]+$/] *)
Definition lettersAndSpacesOnly : regex :=
  Plus (Class (fun c => isAsciiLetter c || isWhiteSpace c)).


(** [/^[^\s@]+@[^\s@]+\.[^\s@]+$/] *)
Definition emailRegex : regex :=
  let part := Plus (Class (fun c => negb (isWhiteSpace c || N.eqb c 64))) in
  Cat part (Cat (Chr 64) (Cat part (Cat (Chr 46) part))).

Definition validateAllergyInput (value : jsstring) : jsstring :=
  if negb (truthy_str (trim value)) then js "This field is required"
  else if negb (test lettersAndSpacesOnly value)
       then js "Only letters and spaces are allowed"
  else if (List.length value <? 2)%nat
       then js "Allergy name must be at least 2 characters long"
  else js "".

Definition validateName (value : jsstring) : jsstring :=
  if negb (truthy_str (trim value)) then js "Name is required"
  else if negb (test lettersAndSpacesOnly value)
       then js "Only letters and spaces are allowed"
  else js "".

Definition validateEmail (value : jsstring) : jsstring :=
  if negb (truthy_str (trim value)) then js "Email is required"
  else if negb (test emailRegex value)
       then js "Please enter a valid email address"
  else js "".

Record AllergyField : Type := mkField {
  id : jsstring;
  value : jsstring;
  error : jsstring
}.

Record FormData : Type := mkFormData {
  fd_name : jsstring;
  fd_email : jsstring;
  fd_emergencyContact : jsstring
}.

Record FormErrors : Type := mkFormErrors {
  fe_name : jsstring;
  fe_email : jsstring;
  fe_emergencyContact : jsstring;
  fe_allergies : jsstring
}.

(** UserProfile of contexts/AllergyContext.tsx. *)
Record UserProfile : Type := mkProfile {
  up_name : jsstring;
  up_email : jsstring;
  up_emergencyContact : jsstring;
  up_allergies : list jsstring;
  up_submittedAt : option jsstring
}.

(** The state the component reads and writes: its own [useState] cells,
    the profile held by the context and the routes pushed so far. *)
Record Page : Type := mkPage {
  formData : FormData;
  allergyFields : list AllergyField;
  formErrors : FormErrors;
  isSubmitting : bool;
  userProfile : option UserProfile;
  pushed : list jsstring
}.

Definition set_allergyFields (fs : list AllergyField) (st : Page) : Page :=
  mkPage (formData st) fs (formErrors st) (isSubmitting st)
         (userProfile st) (pushed st).

Definition set_formErrors (e : FormErrors) (st : Page) : Page :=
  mkPage (formData st) (allergyFields st) e (isSubmitting st)
         (userProfile st) (pushed st).

Definition set_isSubmitting (b : bool) (st : Page) : Page :=
  mkPage (formData st) (allergyFields st) (formErrors st) b
         (userProfile st) (pushed st).

Definition setUserProfile (p : UserProfile) (st : Page) : Page :=
  mkPage (formData st) (allergyFields st) (formErrors st) (isSubmitting st)
         (Some p) (pushed st).

Definition router_push (path : jsstring) (st : Page) : Page :=
  mkPage (formData st) (allergyFields st) (formErrors st) (isSubmitting st)
         (userProfile st) (pushed st ++ [path]).

Definition handleAllergyChange (i v : jsstring) (st : Page) : Page :=
  let error := validateAllergyInput v in
  set_allergyFields
    (map (fun field => if str_eqb (id field) i
                       then mkField (id field) v error
                       else field)
         (allergyFields st))
    st.

(** [newId] is the result of [crypto.randomUUID()]. *)
Definition addAllergyField (newId : jsstring) (st : Page) : Page :=
  set_allergyFields (allergyFields st ++ [mkField newId (js "") (js "")]) st.

Definition removeAllergyField (i : jsstring) (st : Page) : Page :=
  if (1 <? List.length (allergyFields st))%nat
  then set_allergyFields
         (filter (fun field => negb (str_eqb (id field) i)) (allergyFields st))
         st
  else st.

(** [field.value.trim() && !field.error] *)
Definition filledAndClean (field : AllergyField) : bool :=
  truthy_str (trim (value field)) && negb (truthy_str (error field)).

(** Returns [isValid] and the state after its two state updates. *)
Definition validateAllFields (st : Page) : bool * Page :=
  let newFormErrors0 :=
    mkFormErrors (validateName (fd_name (formData st)))
                 (validateEmail (fd_email (formData st)))
                 (js "") (js "") in
  let updatedAllergyFields :=
    map (fun field =>
           mkField (id field) (value field) (validateAllergyInput (value field)))
        (allergyFields st) in
  let isValid1 :=
    negb (existsb (fun field => truthy_str (error field)) updatedAllergyFields) in
  let hasValidAllergy := existsb filledAndClean updatedAllergyFields in
  let newFormErrors :=
    if hasValidAllergy then newFormErrors0
    else mkFormErrors (fe_name newFormErrors0) (fe_email newFormErrors0)
                      (fe_emergencyContact newFormErrors0)
                      (js "At least one allergy must be provided") in
  let isValid2 := isValid1 && hasValidAllergy in
  let st' := set_formErrors newFormErrors (set_allergyFields updatedAllergyFields st) in
  let isValid3 :=
    isValid2 && negb (truthy_str (fe_name newFormErrors)
                      || truthy_str (fe_email newFormErrors)) in
  (isValid3, st').

(** The state once the handler has run to its end; [now] is
    [new Date().toISOString()].  The submission is assembled from the
    [allergyFields] and [formData] of the render the handler was created
    in, that is from [st] and not from the fields [validateAllFields] has
    just stored. *)
Definition handleSubmit (now : jsstring) (st : Page) : Page :=
  let st1 := set_isSubmitting true st in
  let '(isValid, st2) := validateAllFields st1 in
  if negb isValid then set_isSubmitting false st2
  else
    let validAllergies :=
      map (fun field => trim (value field))
          (filter filledAndClean (allergyFields st)) in
    let submissionData :=
      mkProfile (trim (fd_name (formData st)))
                (trim (fd_email (formData st)))
                (trim (fd_emergencyContact (formData st)))
                validAllergies
                (Some now) in
    let st3 := setUserProfile submissionData st2 in
    let st4 := router_push (js "/menuInput") st3 in
    set_isSubmitting false st4.

(** The editing operations on the list of entries. *)
Inductive edit : Type :=
| Add (newId : jsstring)
| Remove (i : jsstring)
| Change (i v : jsstring).

Definition apply_edit (op : edit) (st : Page) : Page :=
  match op with
  | Add newId => addAllergyField newId st
  | Remove i => removeAllergyField i st
  | Change i v => handleAllergyChange i v st
  end.

Definition ids (st : Page) : list jsstring := map id (allergyFields st).

Definition run_edits (ops : list edit) (st : Page) : Page :=
  fold_left (fun s op => apply_edit op s) ops st.

(** Every identifier handed out by [crypto.randomUUID()] is new to the
    list at the moment it is added. *)
Fixpoint fresh_ids (ops : list edit) (st : Page) : bool :=
  match ops with
  | [] => true
  | op :: rest =>
      match op with
      | Add newId => negb (existsb (str_eqb newId) (ids st))
      | _ => true
      end && fresh_ids rest (apply_edit op st)
  end.

(** What the edits keep true: there is an entry, and no two entries share
    an identifier. *)
Definition entries_ok (st : Page) : Prop :=
  1 <= List.length (allergyFields st) /\ NoDup (ids st).

(** The error of every entry is empty or is the verdict on its value. *)
Definition errors_in_step (st : Page) : Prop :=
  forall f, In f (allergyFields st) ->
            error f = js "" \/ error f = validateAllergyInput (value f).

(** [`${index + 1}`] *)
Definition index_id (index : nat) : jsstring :=
  js (NilEmpty.string_of_uint (Nat.to_uint (index + 1))).

Fixpoint fields_from (index : nat) (l : list jsstring) : list AllergyField :=
  match l with
  | [] => []
  | allergy :: r => mkField (index_id index) allergy (js "") :: fields_from (S index) r
  end.

(** The initializer of the [allergyFields] cell. *)
Definition initialFields (profile : option UserProfile) : list AllergyField :=
  match profile with
  | Some p =>
      match up_allergies p with
      | _ :: _ => fields_from 0 (up_allergies p)
      | [] => [mkField (js "1") (js "") (js "")]
      end
  | None => [mkField (js "1") (js "") (js "")]
  end.

Definition initialPage (profile : option UserProfile) : Page :=
  let field (f : UserProfile -> jsstring) :=
    match profile with
    | Some p => if truthy_str (f p) then f p else js ""
    | None => js ""
    end in
  mkPage (mkFormData (field up_name) (field up_email) (field up_emergencyContact))
         (initialFields profile)
         (mkFormErrors (js "") (js "") (js "") (js ""))
         false profile [].

(** A form with a valid name and email, the entry Peanuts and a second,
    blank entry. *)
Definition peanuts_and_blank : Page :=
  mkPage (mkFormData (js "Al") (js "a@b.com") (js ""))
         [ mkField (js "1") (js "Peanuts") (js "");
           mkField (js "2") (js "") (js "") ]
         (mkFormErrors (js "") (js "") (js "") (js ""))
         false None [].

End AllergyFormPage.

(* ================================================================== *)
(** ** Intake form, components/AllergyForm.js *)
(* ================================================================== *)

Module AllergyFormJs.

(** The two [useState] arrays, the entry stored under [userAllergies] in
    localStorage (the array itself stands for its JSON text) and the
    routes navigated to. *)
Record Form : Type := mkForm {
  allergies : list jsstring;
  errors : list jsstring;
  stored : option (list jsstring);
  navigated : list jsstring;
  alerts : list jsstring
}.

(** [l.filter((_, i) => i !== index)] *)
Fixpoint remove_at {A : Type} (index : nat) (l : list A) : list A :=
  match l with
  | [] => []
  | x :: r =>
      match index with
      | O => r
      | S k => x :: remove_at k r
      end
  end.

Definition addAllergyField (st : Form) : Form :=
  mkForm (allergies st ++ [js ""]) (errors st ++ [js ""])
         (stored st) (navigated st) (alerts st).

Definition removeAllergyField (index : nat) (st : Form) : Form :=
  if (1 <? List.length (allergies st))%nat
  then mkForm (remove_at index (allergies st)) (remove_at index (errors st))
              (stored st) (navigated st) (alerts st)
  else st.

Definition handleSubmit (st : Form) : Form :=
  let validAllergies :=
    filter (fun allergy => negb (str_eqb (trim allergy) (js ""))) (allergies st) in
  match validAllergies with
  | [] => mkForm (allergies st) (errors st) (stored st) (navigated st)
                 (alerts st ++ [js "Please enter at least one food allergy."])
  | _ :: _ =>
      if existsb (fun error => negb (str_eqb error (js ""))) (errors st)
      then mkForm (allergies st) (errors st) (stored st) (navigated st)
                  (alerts st ++
                   [js "Please fix the validation errors before continuing."])
      else mkForm (allergies st) (errors st) (Some validAllergies)
                  (navigated st ++ [js "/options"]) (alerts st)
  end.

Inductive edit : Type :=
| Add
| Remove (index : nat).

Definition apply_edit (op : edit) (st : Form) : Form :=
  match op with
  | Add => addAllergyField st
  | Remove index => removeAllergyField index st
  end.

End AllergyFormJs.

(* ================================================================== *)
(** ** JSON values and [JSON.parse] *)
(* ================================================================== *)

Module Json.

(** What [JSON.parse] can return.  A number literal denotes the decimal
    [m * 10^e] (negated when [neg]); an object keeps its members in source
    order, duplicates included. *)
Inductive value : Type :=
| VNull
| VBool (b : bool)
| VNumber (neg : bool) (m : N) (e : Z)
| VString (s : jsstring)
| VArray (items : list value)
| VObject (members : list (jsstring * value)).

(** Exceptions: an Error object carrying its name and message, or an error
    raised by the engine itself. *)
Inductive exn : Type :=
| ErrorObj (name message : jsstring)
| EngineTypeError
| EngineSyntaxError.

(** A number literal rounds to the double zero when it is zero or lies at
    most half the smallest subnormal away from it. *)
Definition rounds_to_zero (m : N) (e : Z) : bool :=
  (m =? 0)%N ||
  ((e <? 0)%Z && (Z.of_N m * 2 ^ 1075 <=? 10 ^ (- e))%Z).

(** ToBoolean *)
Definition truthy (v : value) : bool :=
  match v with
  | VNull => false
  | VBool b => b
  | VNumber _ m e => negb (rounds_to_zero m e)
  | VString s => truthy_str s
  | VArray _ => true
  | VObject _ => true
  end.

(** The value of the last member named [k]: a later duplicate overwrites
    an earlier one. *)
Fixpoint lookup (k : jsstring) (ms : list (jsstring * value)) : option value :=
  match ms with
  | [] => None
  | (k', v) :: r =>
      match lookup k r with
      | Some w => Some w
      | None => if str_eqb k k' then Some v else None
      end
  end.

(** [v.k] for a property name [k] that no prototype defines and that is
    neither [length] nor an index ([foods], [safetyClassification],
    [catch], ...): [None] is [undefined]; reading a property of [null]
    throws. *)
Definition getProp (v : value) (k : jsstring) : exn + option value :=
  match v with
  | VNull => inl EngineTypeError
  | VObject ms => inr (lookup k ms)
  | _ => inr None
  end.

(** [x === lit] for a string literal [lit]. *)
Definition strictEqStr (x : option value) (lit : jsstring) : bool :=
  match x with
  | Some (VString s) => str_eqb s lit
  | _ => false
  end.

Open Scope N_scope.

Definition isJsonWs (c : N) : bool :=
  (c =? 9) || (c =? 10) || (c =? 13) || (c =? 32).

Fixpoint skip_ws (s : jsstring) : jsstring :=
  match s with
  | [] => []
  | c :: r => if isJsonWs c then skip_ws r else s
  end.

Definition hexval (c : N) : option N :=
  if isDigit c then Some (c - 48)
  else if (97 <=? c) && (c <=? 102) then Some (c - 87)
  else if (65 <=? c) && (c <=? 70) then Some (c - 55)
  else None.

(** The character a one-letter escape stands for. *)
Definition escape_char (c : N) : option N :=
  if c =? 34 then Some 34          (* quotation mark *)
  else if c =? 92 then Some 92     (* reverse solidus *)
  else if c =? 47 then Some 47     (* solidus *)
  else if c =? 98 then Some 8      (* b: backspace *)
  else if c =? 102 then Some 12    (* f: form feed *)
  else if c =? 110 then Some 10    (* n: line feed *)
  else if c =? 114 then Some 13    (* r: carriage return *)
  else if c =? 116 then Some 9     (* t: tab *)
  else None.

(** The characters of a string literal after its opening quote, up to and
    including the closing quote; [acc] holds the decoded part, reversed. *)
Fixpoint parse_chars (s acc : jsstring) : option (jsstring * jsstring) :=
  match s with
  | [] => None
  | c :: r =>
      if c =? 34 then Some (rev acc, r)
      else if c =? 92 then
        match r with
        | [] => None
        | x :: r1 =>
            match escape_char x with
            | Some d => parse_chars r1 (d :: acc)
            | None =>
                if x =? 117 then
                  match r1 with
                  | h1 :: h2 :: h3 :: h4 :: r2 =>
                      match hexval h1, hexval h2, hexval h3, hexval h4 with
                      | Some a, Some b, Some c', Some d =>
                          parse_chars r2 ((((a * 16 + b) * 16 + c') * 16 + d) :: acc)
                      | _, _, _, _ => None
                      end
                  | _ => None
                  end
                else None
            end
        end
      else if c <? 32 then None
      else parse_chars r (c :: acc)
  end.

(** A maximal run of decimal digits, folded into [acc]; also its length. *)
Fixpoint digits (s : jsstring) (acc : N) (n : nat) : N * nat * jsstring :=
  match s with
  | [] => (acc, n, [])
  | c :: r => if isDigit c then digits r (acc * 10 + (c - 48)) (S n) else (acc, n, s)
  end.

(** A JSON number: an optional minus sign, an integer part (a single 0,
    or a digit from 1 to 9 followed by digits), an optional fraction (a dot
    and one digit or more) and an optional exponent (e or E, an optional
    sign, one digit or more). *)
Definition parse_number (s : jsstring) : option (value * jsstring) :=
  let '(neg, s1) := match s with
                    | c :: r => if c =? 45 then (true, r) else (false, s)
                    | [] => (false, s)
                    end in
  match s1 with
  | [] => None
  | d :: r =>
      if negb (isDigit d) then None
      else
        let '(ip, _, r1) := if d =? 48 then (0, O, r) else digits r (d - 48) O in
        let frac :=
          match r1 with
          | c :: r2 =>
              if c =? 46 then
                let '(m, n, r3) := digits r2 ip O in
                match n with O => None | _ => Some (m, n, r3) end
              else Some (ip, O, r1)
          | [] => Some (ip, O, r1)
          end in
        match frac with
        | None => None
        | Some (m, n, r3) =>
            let scale := (- Z.of_nat n)%Z in
            match r3 with
            | c :: r4 =>
                if (c =? 101) || (c =? 69) then
                  let '(eneg, r5) :=
                    match r4 with
                    | g :: r' => if g =? 45 then (true, r')
                                 else if g =? 43 then (false, r') else (false, r4)
                    | [] => (false, r4)
                    end in
                  let '(x, k, r6) := digits r5 0 O in
                  match k with
                  | O => None
                  | _ => Some (VNumber neg m
                                 (scale + (if eneg then - Z.of_N x else Z.of_N x))%Z, r6)
                  end
                else Some (VNumber neg m scale, r3)
            | [] => Some (VNumber neg m scale, r3)
            end
        end
  end.

Fixpoint strip_prefix (p s : jsstring) : option jsstring :=
  match p with
  | [] => Some s
  | a :: p' =>
      match s with
      | [] => None
      | b :: s' => if a =? b then strip_prefix p' s' else None
      end
  end.

Close Scope N_scope.

Inductive presult (A : Type) : Type :=
| POk (a : A) (rest : jsstring)
| PSyntax
| PFuel.
Arguments PSyntax {A}.
Arguments PFuel {A}.

(** Recursive descent; every nested value and every further element or
    member takes one unit of fuel. *)
Fixpoint parse_value (fuel : nat) (s : jsstring) : presult value :=
  match fuel with
  | O => PFuel
  | S f =>
      match skip_ws s with
      | [] => PSyntax
      | c :: r =>
          if (c =? 34)%N then
            match parse_chars r [] with
            | Some (str, r') => POk (VString str) r'
            | None => PSyntax
            end
          else if (c =? 91)%N then
            match skip_ws r with
            | [] => PSyntax
            | c1 :: r1 =>
                if (c1 =? 93)%N then POk (VArray []) r1
                else parse_elements f (c1 :: r1) []
            end
          else if (c =? 123)%N then
            match skip_ws r with
            | [] => PSyntax
            | c1 :: r1 =>
                if (c1 =? 125)%N then POk (VObject []) r1
                else parse_members f (c1 :: r1) []
            end
          else
            match strip_prefix (js "true") (c :: r) with
            | Some r' => POk (VBool true) r'
            | None =>
            match strip_prefix (js "false") (c :: r) with
            | Some r' => POk (VBool false) r'
            | None =>
            match strip_prefix (js "null") (c :: r) with
            | Some r' => POk VNull r'
            | None =>
            match parse_number (c :: r) with
            | Some (v, r') => POk v r'
            | None => PSyntax
            end end end end
      end
  end

with parse_elements (fuel : nat) (s : jsstring) (acc : list value)
  : presult value :=
  match fuel with
  | O => PFuel
  | S f =>
      match parse_value f s with
      | POk v r =>
          match skip_ws r with
          | [] => PSyntax
          | c :: r1 =>
              if (c =? 44)%N then parse_elements f r1 (v :: acc)
              else if (c =? 93)%N then POk (VArray (rev (v :: acc))) r1
              else PSyntax
          end
      | PSyntax => PSyntax
      | PFuel => PFuel
      end
  end

with parse_members (fuel : nat) (s : jsstring) (acc : list (jsstring * value))
  : presult value :=
  match fuel with
  | O => PFuel
  | S f =>
      match skip_ws s with
      | [] => PSyntax
      | q :: r =>
          if negb (q =? 34)%N then PSyntax
          else
            match parse_chars r [] with
            | None => PSyntax
            | Some (key, r1) =>
                match skip_ws r1 with
                | [] => PSyntax
                | c :: r2 =>
                    if negb (c =? 58)%N then PSyntax
                    else
                      match parse_value f r2 with
                      | POk v r3 =>
                          match skip_ws r3 with
                          | [] => PSyntax
                          | d :: r4 =>
                              if (d =? 44)%N then parse_members f r4 ((key, v) :: acc)
                              else if (d =? 125)%N
                                   then POk (VObject (rev ((key, v) :: acc))) r4
                              else PSyntax
                          end
                      | PSyntax => PSyntax
                      | PFuel => PFuel
                      end
                end
            end
      end
  end.

(** Fuel that no text exhausts (lemma [parse_value_fuel]). *)
Definition fuel_for (text : jsstring) : nat := 2 * List.length text + 2.

(** [JSON.parse(text)]: the value, or a SyntaxError.  An object literal
    that repeats a key keeps both members in the value returned here, where
    the engine keeps one property holding the later value: [lookup], and so
    [getProp], reads the later member, which is what every property read of
    the pages sees. *)
Definition JSON_parse (text : jsstring) : exn + value :=
  match parse_value (fuel_for text) text with
  | POk v r =>
      match skip_ws r with
      | [] => inr v
      | _ :: _ => inl EngineSyntaxError
      end
  | _ => inl EngineSyntaxError
  end.

End Json.

Import Json.

(* ================================================================== *)
(** ** Exceptions and effects *)
(* ================================================================== *)

(** Code that may throw a value of type [X] while it updates a state of
    type [S] (here: the log of the calls sent out).  What was done before a
    throw stays done. *)
Module Eff.

Definition M (X S A : Type) : Type := S -> (X + A) * S.

Definition ret {X S A : Type} (a : A) : M X S A := fun s => (inr a, s).

Definition throw {X S A : Type} (x : X) : M X S A := fun s => (inl x, s).

Definition bind {X S A B : Type} (m : M X S A) (k : A -> M X S B) : M X S B :=
  fun s =>
    match m s with
    | (inr a, s') => k a s'
    | (inl x, s') => (inl x, s')
    end.

(** [try { body } catch (e) { handler(e) }] *)
Definition try_catch {X S A : Type} (body : M X S A) (handler : X -> M X S A)
  : M X S A :=
  fun s =>
    match body s with
    | (inr a, s') => (inr a, s')
    | (inl x, s') => handler x s'
    end.

(** Appends a call to the log. *)
Definition emit {X C : Type} (c : C) : M X (list C) unit :=
  fun s => (inr tt, s ++ [c]).

(** Lifts a pure computation that may throw. *)
Definition lift {X S A : Type} (r : X + A) : M X S A := fun s => (r, s).

End Eff.

Import Eff.

Declare Scope eff_scope.
Delimit Scope eff_scope with eff.
Notation "x <- m ;; k" := (bind m (fun x => k))
  (at level 61, m at next level, right associativity) : eff_scope.
Notation "m ;;; k" := (bind m (fun _ => k))
  (at level 61, right associativity) : eff_scope.
Open Scope eff_scope.

(* ================================================================== *)
(** ** The lookup function, modules/aiFunctions *)
(* ================================================================== *)

Module Ai.

(** The part of a zod schema the module declares. *)
Inductive schema : Type :=
| ZString
| ZEnum (tags : list jsstring)
| ZArray (item : schema)
| ZObject (shape : list (jsstring * schema)).

Definition FoodItemSchema : schema :=
  ZObject
    [ (js "name", ZString);
      (js "safetyClassification",
       ZEnum [js "More Safe"; js "Questionable"; js "Avoid"]);
      (js "reasoning", ZString);
      (js "questions", ZString) ].

Definition MenuSchema : schema :=
  ZObject
    [ (js "restaurantName", ZString);
      (js "restaurantInfo", ZString);
      (js "foods", ZArray FoodItemSchema) ].

(** Whether a value has the shape a schema declares: every declared
    member present with a value of its declared shape. *)
Fixpoint conforms (sc : schema) (v : value) {struct sc} : bool :=
  match sc with
  | ZString => match v with VString _ => true | _ => false end
  | ZEnum tags =>
      match v with
      | VString s => existsb (str_eqb s) tags
      | _ => false
      end
  | ZArray item =>
      match v with
      | VArray l => forallb (conforms item) l
      | _ => false
      end
  | ZObject shape =>
      match v with
      | VObject ms =>
          (fix all (sh : list (jsstring * schema)) : bool :=
             match sh with
             | [] => true
             | (k, sc') :: r =>
                 match lookup k ms with
                 | Some w => conforms sc' w && all r
                 | None => false
                 end
             end) shape
      | _ => false
      end
  end.

(** [process.env]: a variable is a string or undefined. *)
Record Env : Type := mkEnv {
  AZURE_OPENAI_API_KEY : option jsstring;
  AZURE_OPENAI_API_VERSION : option jsstring;
  AZURE_OPENAI_ENDPOINT : option jsstring;
  AZURE_OPENAI_MODEL_NAME : option jsstring;
  AZURE_OPENAI_DEPLOYMENT : option jsstring;
  NEXT_PUBLIC_AZURE_OPENAI_API_KEY : option jsstring;
  NEXT_PUBLIC_AZURE_OPENAI_API_VERSION : option jsstring;
  NEXT_PUBLIC_AZURE_OPENAI_ENDPOINT : option jsstring;
  NEXT_PUBLIC_AZURE_OPENAI_MODEL_NAME : option jsstring;
  NEXT_PUBLIC_AZURE_OPENAI_DEPLOYMENT : option jsstring
}.

Record ClientOptions : Type := mkOptions {
  endpoint : jsstring;
  apiKey : jsstring;
  deployment : option jsstring;
  apiVersion : option jsstring;
  dangerouslyAllowBrowser : bool
}.

Record Message : Type := mkMessage {
  role : jsstring;
  content : jsstring
}.

(** One call of [client.chat.completions.create]: the options the client
    was built with and the body of the call. *)
Record Request : Type := mkRequest {
  options : ClientOptions;
  messages : list Message;
  max_tokens : N;
  temperature : N;
  top_p : N;
  model : option jsstring;
  response_format : schema * jsstring
}.

(** What the hosted service answers: the [message.content] of each choice
    (a string or null), or a rejection. *)
Definition Service : Type := Request -> exn + list (option jsstring).

Definition systemPrompt : jsstring :=
  js "You are a helpful assistant who is helping users figure out which food from restaurants are safe to eat or not based on their allergies. Since this is a safety issue, please be thorough in your analysis and include every single food item from the restaurant.".

Definition userPrompt (allergiesList restaurantName : jsstring) : jsstring :=
  js "I have allergies to: " ++ allergiesList ++
  js ". I am planning to eat at " ++ restaurantName ++
  js ". Can you help me identify menu items that would be safe for me to eat and which ones I should avoid? If there is an official allergen menu, please use that. Organize the different foods into three categories: 1. More Safe, 2. Questionable, 3. Avoid. For every food item, please include one or more questions that I could ask the restaurant staff that would help clarify its safety. Include every food item on the menu in your response. Please include at least 50 objects in the json response. Make sure you include every food item from the restaurant's menu.".

(** [allergies && allergies.length > 0 ? allergies.join(', ') : '...'] *)
Definition allergiesList (allergies : option (list jsstring)) : jsstring :=
  match allergies with
  | Some ((_ :: _) as l) => join (js ", ") l
  | _ => js "no specific allergies mentioned"
  end.

(** [await client.chat.completions.create(...)] *)
Definition create (service : Service) (req : Request)
  : M exn (list Request) (list (option jsstring)) :=
  emit req ;;; lift (service req).

(** The function from the construction of the client on; the two
    versions of the module share it word for word. *)
Definition complete (service : Service) (opts : ClientOptions)
    (modelName : option jsstring) (restaurantName : jsstring)
    (allergies : option (list jsstring))
  : M exn (list Request) (option jsstring) :=
  let allergiesList := allergiesList allergies in
  choices <- create service
    (mkRequest opts
       [ mkMessage (js "system") systemPrompt;
         mkMessage (js "user") (userPrompt allergiesList restaurantName) ]
       16384 1 1 modelName (MenuSchema, js "menuSchema")) ;;
  (* response.choices[0].message.content *)
  match choices with
  | [] => throw EngineTypeError
  | responseText :: _ => ret responseText
  end.

(** The one request [complete] sends. *)
Definition request_of (opts : ClientOptions) (modelName : option jsstring)
    (restaurantName : jsstring) (allergies : option (list jsstring)) : Request :=
  mkRequest opts
    [ mkMessage (js "system") systemPrompt;
      mkMessage (js "user") (userPrompt (allergiesList allergies) restaurantName) ]
    16384 1 1 modelName (MenuSchema, js "menuSchema").

(** The messages of a request do not depend on the client options. *)
Definition request_of_any (allergies : option (list jsstring))
    (restaurantName : jsstring) : Request :=
  request_of (mkOptions [] [] None None true) None restaurantName allergies.

(** [if (!x) throw new Error(message)]; afterwards [x] is a non-empty
    string. *)
Definition required {S : Type} (x : option jsstring) (message : jsstring)
  : M exn S jsstring :=
  match x with
  | Some v => if truthy_str v then ret v
              else throw (ErrorObj (js "Error") message)
  | None => throw (ErrorObj (js "Error") message)
  end.

End Ai.

(** The version that reads the server-side variables only. *)
Module AiFunctionsEnvOnly.
Import Ai.

Definition getSafeFoodsByRestaurantName (env : Env) (service : Service)
    (restaurantName : jsstring) (allergies : option (list jsstring))
  : M exn (list Request) (option jsstring) :=
  let apiKey := AZURE_OPENAI_API_KEY env in
  let apiVersion :=
    or_else (AZURE_OPENAI_API_VERSION env) (Some (js "2024-08-01-preview")) in
  let endpoint := AZURE_OPENAI_ENDPOINT env in
  let modelName := or_else (AZURE_OPENAI_MODEL_NAME env) (Some (js "gpt-4o")) in
  let deployment := or_else (AZURE_OPENAI_DEPLOYMENT env) (Some (js "gpt-4o")) in
  let dangerouslyAllowBrowser := true in
  apiKey <- required apiKey
    (js "AZURE_OPENAI_API_KEY environment variable is required") ;;
  endpoint <- required endpoint
    (js "AZURE_OPENAI_ENDPOINT environment variable is required") ;;
  let options :=
    mkOptions endpoint apiKey deployment apiVersion dangerouslyAllowBrowser in
  complete service options modelName restaurantName allergies.

End AiFunctionsEnvOnly.

(** The version that falls back on the [NEXT_PUBLIC_] variables. *)
Module AiFunctions.
Import Ai.

Definition getSafeFoodsByRestaurantName (env : Env) (service : Service)
    (restaurantName : jsstring) (allergies : option (list jsstring))
  : M exn (list Request) (option jsstring) :=
  let apiKey :=
    or_else (AZURE_OPENAI_API_KEY env) (NEXT_PUBLIC_AZURE_OPENAI_API_KEY env) in
  let apiVersion :=
    or_else (or_else (AZURE_OPENAI_API_VERSION env)
                     (NEXT_PUBLIC_AZURE_OPENAI_API_VERSION env))
            (Some (js "2024-08-01-preview")) in
  let endpoint :=
    or_else (AZURE_OPENAI_ENDPOINT env) (NEXT_PUBLIC_AZURE_OPENAI_ENDPOINT env) in
  let modelName :=
    or_else (or_else (AZURE_OPENAI_MODEL_NAME env)
                     (NEXT_PUBLIC_AZURE_OPENAI_MODEL_NAME env))
            (Some (js "gpt-4o")) in
  let deployment :=
    or_else (or_else (AZURE_OPENAI_DEPLOYMENT env)
                     (NEXT_PUBLIC_AZURE_OPENAI_DEPLOYMENT env))
            (Some (js "gpt-4o")) in
  let dangerouslyAllowBrowser := true in
  apiKey <- required apiKey
    (js "Missing required environment variable: AZURE_OPENAI_API_KEY") ;;
  endpoint <- required endpoint
    (js "Missing required environment variable: AZURE_OPENAI_ENDPOINT") ;;
  let options :=
    mkOptions endpoint apiKey deployment apiVersion dangerouslyAllowBrowser in
  complete service options modelName restaurantName allergies.

End AiFunctions.

(* ================================================================== *)
(** ** What React draws *)
(* ================================================================== *)

Module React.

(** What React accepts as a child: a string or a number is drawn as
    text, a boolean or null as nothing, an array child by child; an object
    is refused ("Objects are not valid as a React child"). *)
Fixpoint renderable (v : value) : bool :=
  match v with
  | VObject _ => false
  | VArray children => forallb renderable children
  | _ => true
  end.

(** A render that fails: the component function throws, or React refuses
    a child. *)
Inductive failure : Type :=
| Thrown (e : exn)
| ObjectAsChild.

End React.

(* ================================================================== *)
(** ** Lookup page, menuInput/page.tsx *)
(* ================================================================== *)

Module MenuInput.
Import Ai React.

Record File : Type := mkFile {
  file_name : jsstring;
  file_size : N;
  file_type : jsstring
}.

(** The [useState] cells of the component. *)
Record State : Type := mkState {
  selectedOption : jsstring;
  restaurantName : jsstring;
  foodName : jsstring;
  selectedFile : option File;
  isProcessing : bool;
  error : jsstring;
  menuData : option value;
  showResults : bool
}.

Definition setIsProcessing (b : bool) (st : State) : State :=
  mkState (selectedOption st) (restaurantName st) (foodName st)
          (selectedFile st) b (error st) (menuData st) (showResults st).

Definition setError (e : jsstring) (st : State) : State :=
  mkState (selectedOption st) (restaurantName st) (foodName st)
          (selectedFile st) (isProcessing st) e (menuData st) (showResults st).

Definition setMenuData (d : option value) (st : State) : State :=
  mkState (selectedOption st) (restaurantName st) (foodName st)
          (selectedFile st) (isProcessing st) (error st) d (showResults st).

Definition setShowResults (b : bool) (st : State) : State :=
  mkState (selectedOption st) (restaurantName st) (foodName st)
          (selectedFile st) (isProcessing st) (error st) (menuData st) b.

(** The text put in place of an empty or null answer. *)
Definition fallbackResponse : jsstring :=
  jsq "{'restaurantName': '', 'foods': []}".

(** The state once the handler has run to its end, with the requests it
    sent.  [userAllergies] is [userProfile?.allergies || []]. *)
Definition validateAndProceed (env : Env) (service : Service)
    (userAllergies : list jsstring) (st : State) : State * list Request :=
  let st0 :=
    setShowResults false (setMenuData None (setError (js "")
      (setIsProcessing true st))) in
  let '(st1, sent) :=
    if str_eqb (selectedOption st) (js "text") then
      if negb (truthy_str (trim (restaurantName st))) then
        (setIsProcessing false
           (setError (js "Please enter a restaurant name to check for allergens")
                     st0), [])
      else
        match AiFunctions.getSafeFoodsByRestaurantName env service
                (trim (restaurantName st)) (Some userAllergies) [] with
        | (inr aiResponse, sent) =>
            let aiResponse :=
              match aiResponse with
              | Some text => if truthy_str text then text else fallbackResponse
              | None => fallbackResponse
              end in
            match JSON_parse aiResponse with
            | inr parsedData =>
                (setShowResults true (setMenuData (Some parsedData) st0), sent)
            | inl parseError =>
                (setError
                   (js "Unable to parse response from AI service. Please try again.")
                   st0, sent)
            end
        | (inl error, sent) =>
            (setError
               (js "An error occurred while analyzing the menu. Please try again.")
               st0, sent)
        end
    else if str_eqb (selectedOption st) (js "picture") then
      match selectedFile st with
      | None =>
          (setIsProcessing false
             (setError (js "Please select or capture an image") st0), [])
      | Some _ =>
          (setIsProcessing false
             (setError
                (js "Picture analysis is coming soon. Please use the text input option for now.")
                st0), [])
      end
    else (st0, []) in
  (setIsProcessing false st1, sent).

(** The three headings, in the order the page maps over them. *)
Definition categories : list jsstring :=
  [js "More Safe"; js "Questionable"; js "Avoid"].

(** [foods.filter(food => food.safetyClassification === category)] *)
Fixpoint categoryFoods (category : jsstring) (foods : list value)
  : exn + list value :=
  match foods with
  | [] => inr []
  | food :: rest =>
      match getProp food (js "safetyClassification") with
      | inl e => inl e
      | inr c =>
          match categoryFoods category rest with
          | inl e => inl e
          | inr kept =>
              inr (if strictEqStr c category then food :: kept else kept)
          end
      end
  end.

(** One rendered section: its heading and the items listed under it. *)
Record Section : Type := mkSection {
  heading : jsstring;
  items : list value
}.

Fixpoint sections_of (cats : list jsstring) (foods : list value)
  : exn + list Section :=
  match cats with
  | [] => inr []
  | category :: rest =>
      match categoryFoods category foods with
      | inl e => inl e
      | inr [] => sections_of rest foods
      | inr (f :: fs) =>
          match sections_of rest foods with
          | inl e => inl e
          | inr more => inr (mkSection category (f :: fs) :: more)
          end
      end
  end.

(** The sections drawn for [menuData]: [menuData.foods.filter] needs
    [foods] to be an array; a category without items draws nothing. *)
Definition categorySections (menuData : value) : exn + list Section :=
  match getProp menuData (js "foods") with
  | inl e => inl e
  | inr (Some (VArray foods)) => sections_of categories foods
  | inr _ => inl EngineTypeError
  end.

(** [{x.k}] as a child, for [x] that is not null: an undefined member
    draws nothing. *)
Definition child_ok (x : value) (k : jsstring) : bool :=
  match getProp x k with
  | inr (Some child) => renderable child
  | _ => true
  end.

(** The truthiness of [expandedCategories[category]]. *)
Definition Expanded : Type := jsstring -> bool.

(** The initial value of the cell: only More Safe is open. *)
Definition initiallyExpanded : Expanded :=
  fun category => str_eqb category (js "More Safe").

(** [{ ...prev, [category]: !prev[category] }] *)
Definition toggleCategory (category : jsstring) (prev : Expanded) : Expanded :=
  fun c => if str_eqb c category then negb (prev category) else prev c.

(** The row of a food: [food.name], [food.reasoning] (when it is truthy;
    a falsy value is drawn as it is) and [food.questions] are children. *)
Definition food_ok (food : value) : bool :=
  child_ok food (js "name") && child_ok food (js "reasoning") &&
  child_ok food (js "questions").

(** The rows of a section are drawn only while its category is open. *)
Definition section_ok (expandedCategories : Expanded) (sec : Section) : bool :=
  if expandedCategories (heading sec) then forallb food_ok (items sec)
  else true.

(** [showResults && menuData && (...)]: the panel is not drawn unless both
    hold ([None]; a stored number zero is then the value of the expression
    and is drawn as the text 0 in place of the panel).  When both hold the
    component function reads the members of
    [menuData] and filters its foods, which may throw; React then draws
    the children, [menuData.restaurantName], [menuData.restaurantInfo]
    (when it is truthy) and the rows of the open sections, and refuses an
    object among them.  The result is the sections drawn, or the failure
    of the render. *)
Definition resultsPanel (expandedCategories : Expanded) (st : State)
  : option (failure + list Section) :=
  if showResults st then
    match menuData st with
    | Some v =>
        if truthy v then
          Some (match categorySections v with
                | inl e => inl (Thrown e)
                | inr sections =>
                    if child_ok v (js "restaurantName") &&
                       child_ok v (js "restaurantInfo") &&
                       forallb (section_ok expandedCategories) sections
                    then inr sections
                    else inl ObjectAsChild
                end)
        else None
    | None => None
    end
  else None.

(** The panel stands inside the block [selectedOption && (...)]: nothing
    of it is evaluated while no option is selected. *)
Definition resultsDrawn (expandedCategories : Expanded) (st : State)
  : option (failure + list Section) :=
  if truthy_str (selectedOption st) then resultsPanel expandedCategories st
  else None.

(** [food.safetyClassification] of an item that is not null. *)
Definition safetyClassification (food : value) : option value :=
  match getProp food (js "safetyClassification") with
  | inr c => c
  | inl _ => None
  end.

(** The items whose classification is the tag [category], in order. *)
Definition tagged (category : jsstring) (foods : list value) : list value :=
  filter (fun food => strictEqStr (safetyClassification food) category) foods.

(** A section for each of the three tags that has items, in the order of
    the tags. *)
Definition tagged_sections (foods : list value) : list Section :=
  flat_map (fun category =>
              match tagged category foods with
              | [] => []
              | f :: fs => [mkSection category (f :: fs)]
              end)
           categories.

End MenuInput.

(* ================================================================== *)
(** ** Sample surroundings *)
(* ================================================================== *)

Module Samples.
Import Ai MenuInput.

(** An environment with the two required values set. *)
Definition env : Env :=
  mkEnv (Some (js "key")) None (Some (js "https://example.test/"))
        None None None None None None None.

(** A service that answers every request with the text [answer]. *)
Definition answering (answer : option jsstring) : Service :=
  fun _ => inr [answer].

(** The page with the text option chosen and a restaurant typed in. *)
Definition asking : State :=
  mkState (js "text") (js "Olive Garden") (js "") None false (js "") None false.

(** A menu whose first item carries a tag outside the three. *)
Definition menu_with_unknown_tag : jsstring :=
  jsq "{'restaurantName': 'Olive Garden', 'restaurantInfo': 'Shellfish is served.', 'foods': [{'name': 'Minestrone', 'safetyClassification': 'Probably Fine', 'reasoning': 'No shellfish listed.', 'questions': 'Is the stock shared?'}, {'name': 'Shrimp Scampi', 'safetyClassification': 'Avoid', 'reasoning': 'Shrimp.', 'questions': 'None.'}]}".

Definition minestrone : value :=
  VObject [ (js "name", VString (js "Minestrone"));
            (js "safetyClassification", VString (js "Probably Fine"));
            (js "reasoning", VString (js "No shellfish listed."));
            (js "questions", VString (js "Is the stock shared?")) ].

Definition shrimp_scampi : value :=
  VObject [ (js "name", VString (js "Shrimp Scampi"));
            (js "safetyClassification", VString (js "Avoid"));
            (js "reasoning", VString (js "Shrimp."));
            (js "questions", VString (js "None.")) ].

(** Well-formed JSON that lacks the [foods] of the declared shape. *)
Definition menu_without_foods : jsstring :=
  jsq "{'restaurantName': 'Olive Garden'}".

End Samples.

(* ================================================================== *)
(** ** Generic client, modules/client.ts *)
(* ================================================================== *)

Module Client.

(** An Error object as the platform rejects with. *)
Record JsError : Type := mkJsError {
  errName : jsstring;
  errMessage : jsstring
}.

Inductive Details : Type :=
| NoDetails
| DetailsValue (v : value)
| DetailsError (e : JsError)
| DetailsExn (e : exn).

Record ApiError : Type := mkApiError {
  error : jsstring;
  message : jsstring;
  code : option N;
  details : Details
}.

Inductive ApiResponse (T : Type) : Type :=
| Success (data : T)
| Failure (error : ApiError).
Arguments Failure {T} error.

Record Env : Type := mkEnv { NEXT_PUBLIC_API_URL : option jsstring }.

Definition API_BASE_URL (env : Env) : jsstring :=
  match or_else (NEXT_PUBLIC_API_URL env) (Some (js "/api")) with
  | Some u => u
  | None => js "/api"
  end.

(** Milliseconds. *)
Definition DEFAULT_TIMEOUT : N := 30000.

Record ApiClient : Type := mkApiClient {
  baseUrl : jsstring;
  timeout : N
}.

(** The constructor with its default parameters. *)
Definition new_ApiClient (env : Env) (baseUrl : option jsstring)
    (timeout : option N) : ApiClient :=
  mkApiClient
    (match baseUrl with Some b => b | None => API_BASE_URL env end)
    (match timeout with Some t => t | None => DEFAULT_TIMEOUT end).

Record RequestInit : Type := mkInit {
  method : option jsstring;
  body : option jsstring;
  headers : list (jsstring * jsstring)
}.

Record FetchCall : Type := mkFetchCall {
  url : jsstring;
  init : RequestInit
}.

Record HttpResponse : Type := mkResponse {
  status : N;
  json : JsError + value        (* what [response.json()] settles to *)
}.

Definition ok (r : HttpResponse) : bool :=
  (200 <=? status r)%N && (status r <=? 299)%N.

(** How the network treats a call: after [latency] milliseconds [fetch]
    would settle to [outcome]; [abortMessage] is the message of the
    AbortError the platform rejects with when the signal is aborted first. *)
Record Exchange : Type := mkExchange {
  latency : N;
  outcome : JsError + HttpResponse;
  abortMessage : jsstring
}.

Definition Network : Type := FetchCall -> Exchange.

(** [fetch(url, { ..., signal })] with the timer of [setTimeout(() =>
    controller.abort(), timeout)] running: the call settles on its own if
    it does so before the timer fires, and is aborted otherwise. *)
Definition fetch (net : Network) (timeout : N) (call : FetchCall)
  : M JsError (list FetchCall) HttpResponse :=
  emit call ;;;
  let x := net call in
  if (latency x <? timeout)%N then lift (outcome x)
  else throw (mkJsError (js "AbortError") (abortMessage x)).

Definition toString (n : N) : jsstring :=
  js (NilEmpty.string_of_uint (N.to_uint n)).

Definition request (client : ApiClient) (net : Network)
    (endpoint : jsstring) (options : RequestInit)
  : M JsError (list FetchCall) (ApiResponse value) :=
  try_catch
    (let url := baseUrl client ++ endpoint in
     response <- fetch net (timeout client)
       (mkFetchCall url
          (mkInit (method options) (body options)
             ((js "Content-Type", js "application/json") :: headers options))) ;;
     if negb (ok response) then
       errorData <- try_catch (lift (json response))
                              (fun _ => ret (VObject [])) ;;
       ret (Failure
              (mkApiError (js "HTTP_ERROR")
                 (js "Request failed with status " ++ toString (status response))
                 (Some (status response))
                 (DetailsValue errorData)))
     else
       data <- lift (json response) ;;
       ret (Success data))
    (fun error =>
       if str_eqb (errName error) (js "AbortError") then
         ret (Failure
                (mkApiError (js "TIMEOUT") (js "Request timed out") None NoDetails))
       else
         ret (Failure
                (mkApiError (js "NETWORK_ERROR")
                   (if truthy_str (errMessage error) then errMessage error
                    else js "Network request failed")
                   None (DetailsError error)))).

(** The call [request] hands to [fetch]. *)
Definition call_of (client : ApiClient) (endpoint : jsstring)
    (options : RequestInit) : FetchCall :=
  mkFetchCall (baseUrl client ++ endpoint)
    (mkInit (method options) (body options)
       ((js "Content-Type", js "application/json") :: headers options)).


Definition delete (client : ApiClient) (net : Network) (endpoint : jsstring) :=
  request client net endpoint (mkInit (Some (js "DELETE")) None []).

(** What happens to the XMLHttpRequest of an upload. *)
Inductive XhrEvent : Type :=
| Loaded (status : N) (responseText : jsstring)
| NetworkError
| TimedOut.

(** Calling a property read from a parsed JSON value: neither [undefined]
    nor any JSON value is a function, so the call throws. *)
Definition call_property (f : option value) : exn + value :=
  inl EngineTypeError.

(** [x.catch(handler)] *)
Definition call_catch (x : value) : exn + value :=
  match getProp x (js "catch") with
  | inl e => inl e
  | inr f => call_property f
  end.

(** The listener of the [load] event; the value passed to [resolve], or
    the exception that escapes the listener. *)
Definition onLoad (status : N) (responseText : jsstring)
  : M exn unit (ApiResponse value) :=
  try_catch
    (if (200 <=? status)%N && (status <? 300)%N then
       data <- lift (JSON_parse responseText) ;;
       ret (Success data)
     else
       parsed <- lift (JSON_parse responseText) ;;
       errorData <- lift (call_catch parsed) ;;
       ret (Failure
              (mkApiError (js "UPLOAD_ERROR")
                 (js "Upload failed with status " ++ toString status)
                 (Some status) (DetailsValue errorData))))
    (fun error =>
       ret (Failure
              (mkApiError (js "PARSE_ERROR") (js "Failed to parse response")
                 None (DetailsExn error)))).

(** What the promise returned by [uploadFile] settles to when the request
    ends with [event]: [inr] is a resolution, [inl] a rejection.  The form
    data and the progress events play no part in it. *)
Definition uploadFile (event : XhrEvent) : exn + ApiResponse value :=
  match event with
  | Loaded status responseText => fst (onLoad status responseText tt)
  | NetworkError =>
      inr (Failure
             (mkApiError (js "NETWORK_ERROR")
                (js "Upload failed due to network error") None NoDetails))
  | TimedOut =>
      inr (Failure
             (mkApiError (js "TIMEOUT") (js "Upload timed out") None NoDetails))
  end.

End Client.

(* ================================================================== *)
(** ** [JSON.stringify] *)
(* ================================================================== *)

Module Stringify.

Open Scope N_scope.

(** A hexadecimal digit, in lower case. *)
Definition hexchar (d : N) : N := if d <? 10 then 48 + d else 87 + d.

(** The six characters of a unicode escape for the code unit [c]. *)
Definition unicode_escape (c : N) : jsstring :=
  [ 92; 117; hexchar (c / 4096); hexchar ((c / 256) mod 16);
    hexchar ((c / 16) mod 16); hexchar (c mod 16) ].

Definition isHighSurrogate (c : N) : bool := (55296 <=? c) && (c <=? 56319).
Definition isLowSurrogate (c : N) : bool := (56320 <=? c) && (c <=? 57343).

(** The letter of the two-character escape of [c], if it has one. *)
Definition short_escape (c : N) : option N :=
  if c =? 8 then Some 98
  else if c =? 9 then Some 116
  else if c =? 10 then Some 110
  else if c =? 12 then Some 102
  else if c =? 13 then Some 114
  else if c =? 34 then Some 34
  else if c =? 92 then Some 92
  else None.

(** QuoteJSONString without its quotes.  A surrogate is copied when it is
    half of a pair and escaped when it stands alone; [after_high] tells
    that the unit before was the first half of a pair. *)
Fixpoint quote_body (after_high : bool) (s : jsstring) : jsstring :=
  match s with
  | [] => []
  | c :: r =>
      match short_escape c with
      | Some e => 92 :: e :: quote_body false r
      | None =>
          if c <? 32 then unicode_escape c ++ quote_body false r
          else if isHighSurrogate c then
            match r with
            | d :: _ =>
                if isLowSurrogate d then c :: quote_body true r
                else unicode_escape c ++ quote_body false r
            | [] => unicode_escape c ++ quote_body false r
            end
          else if isLowSurrogate c then
            if after_high then c :: quote_body false r
            else unicode_escape c ++ quote_body false r
          else c :: quote_body false r
      end
  end.

Definition quote (s : jsstring) : jsstring :=
  34 :: quote_body false s ++ [34].

Close Scope N_scope.

Section WithNumbers.

(** The text of a number ([Number::toString]) is taken as given. *)
Variable show_number : bool -> N -> Z -> jsstring.

(** [JSON.stringify(v)], without indentation.  An object is written member
    by member in the order of its list; that is the order of its own
    properties when no key is an array index and no key occurs twice, as
    in the objects written here (a profile, the data of a call). *)
Fixpoint stringify (v : value) : jsstring :=
  match v with
  | VNull => js "null"
  | VBool true => js "true"
  | VBool false => js "false"
  | VNumber neg m e => show_number neg m e
  | VString s => quote s
  | VArray items =>
      91%N ::
      (fix elements (l : list value) : jsstring :=
         match l with
         | [] => [93%N]
         | x :: r =>
             stringify x ++
             match r with
             | [] => [93%N]
             | _ :: _ => 44%N :: elements r
             end
         end) items
  | VObject members =>
      123%N ::
      (fix entries (l : list (jsstring * value)) : jsstring :=
         match l with
         | [] => [125%N]
         | (k, x) :: r =>
             quote k ++ 58%N :: stringify x ++
             match r with
             | [] => [125%N]
             | _ :: _ => 44%N :: entries r
             end
         end) members
  end.

(** The text after the opening bracket of an array, the closing one
    included. *)
Fixpoint elements_text (l : list value) : jsstring :=
  match l with
  | [] => [93%N]
  | x :: r =>
      stringify x ++
      match r with
      | [] => [93%N]
      | _ :: _ => 44%N :: elements_text r
      end
  end.

(** The text after the opening brace of an object, the closing one
    included. *)
Fixpoint entries_text (l : list (jsstring * value)) : jsstring :=
  match l with
  | [] => [125%N]
  | (k, x) :: r =>
      quote k ++ 58%N :: stringify x ++
      match r with
      | [] => [125%N]
      | _ :: _ => 44%N :: entries_text r
      end
  end.

End WithNumbers.

(** Values without a number in them. *)
Fixpoint number_free (v : value) : bool :=
  match v with
  | VNumber _ _ _ => false
  | VArray items => forallb number_free items
  | VObject members => forallb (fun kv => number_free (snd kv)) members
  | _ => true
  end.

(** The characters a value's text can open with. *)
Definition opens (c : N) : Prop :=
  c = 110%N \/ c = 116%N \/ c = 102%N \/ c = 34%N \/ c = 91%N \/ c = 123%N.

End Stringify.

(* ================================================================== *)
(** ** The profile provider, contexts/AllergyContext.tsx *)
(* ================================================================== *)

Module AllergyContext.
Import Stringify.

Definition STORAGE_KEY : jsstring := js "allergy-alert-profile".

(** The entry of localStorage under [STORAGE_KEY], and the room left for
    it: [setItem] throws when the text does not fit. *)
Record Storage : Type := mkStorage {
  entry : option jsstring;
  quota : nat
}.

Definition getItem (st : Storage) : option jsstring := entry st.

Definition setItem (text : jsstring) (st : Storage) : exn + Storage :=
  if (List.length text <=? quota st)%nat
  then inr (mkStorage (Some text) (quota st))
  else inl (ErrorObj (js "QuotaExceededError") (js "")).

Definition removeItem (st : Storage) : Storage := mkStorage None (quota st).

(** The object a profile is: the members in the order the form and
    [updateAllergies] write them, [submittedAt] only when it is set. *)
Definition profile_value (p : AllergyFormPage.UserProfile) : value :=
  VObject
    ([ (js "name", VString (AllergyFormPage.up_name p));
       (js "email", VString (AllergyFormPage.up_email p));
       (js "emergencyContact", VString (AllergyFormPage.up_emergencyContact p));
       (js "allergies", VArray (map VString (AllergyFormPage.up_allergies p))) ]
     ++ match AllergyFormPage.up_submittedAt p with
        | Some t => [(js "submittedAt", VString t)]
        | None => []
        end).

Section Effects.

Variable show_number : bool -> N -> Z -> jsstring.

(** The effect that loads the profile when the provider mounts: the value
    handed to [setUserProfileState], if it is called. *)
Definition loadEffect (st : Storage) : option value :=
  match getItem st with
  | Some stored =>
      if truthy_str stored then
        match JSON_parse stored with
        | inr profile => Some profile
        | inl _ => None
        end
      else None
  | None => None
  end.

(** The effect that runs whenever [userProfile] changes; null is [VNull]. *)
Definition saveEffect (userProfile : value) (st : Storage) : Storage :=
  if truthy userProfile then
    match setItem (stringify show_number userProfile) st with
    | inr st' => st'
    | inl _ => st
    end
  else removeItem st.

(** Mounting the provider: both effects run with the null profile of the
    first render; when the first has set another profile the provider
    renders again and the second effect runs for it. *)
Definition mount (st : Storage) : value * Storage :=
  let loaded := loadEffect st in
  let st1 := saveEffect VNull st in
  match loaded with
  | Some VNull => (VNull, st1)
  | Some profile => (profile, saveEffect profile st1)
  | None => (VNull, st1)
  end.

End Effects.

(** The operations of the context, on the typed profile. *)
Definition setUserProfile (profile : AllergyFormPage.UserProfile)
    (userProfile : option AllergyFormPage.UserProfile) : option AllergyFormPage.UserProfile :=
  Some profile.

Definition updateAllergies (allergies : list jsstring) (now : jsstring)
    (userProfile : option AllergyFormPage.UserProfile) : option AllergyFormPage.UserProfile :=
  match userProfile with
  | Some p =>
      Some (AllergyFormPage.mkProfile (AllergyFormPage.up_name p) (AllergyFormPage.up_email p) (AllergyFormPage.up_emergencyContact p)
                      allergies (Some now))
  | None => None
  end.

Definition clearProfile (userProfile : option AllergyFormPage.UserProfile)
  : option AllergyFormPage.UserProfile := None.

Definition isProfileComplete (userProfile : option AllergyFormPage.UserProfile) : bool :=
  match userProfile with
  | Some p =>
      truthy_str (AllergyFormPage.up_name p) && truthy_str (AllergyFormPage.up_email p) &&
      (0 <? List.length (AllergyFormPage.up_allergies p))%nat
  | None => false
  end.

End AllergyContext.

(* ================================================================== *)
(** ** The options page of the earlier form *)
(* ================================================================== *)

Module OptionsPage.

(** What the page does when it mounts, given the entry [userAllergies] of
    localStorage: it shows the parsed value, or navigates to the form. *)
Inductive Mounted : Type :=
| Shows (allergies : value)
| NavigatesTo (path : jsstring).

Definition mount (storedAllergies : option jsstring) : exn + Mounted :=
  match storedAllergies with
  | Some text =>
      if truthy_str text then
        match JSON_parse text with
        | inr allergies => inr (Shows allergies)
        | inl e => inl e
        end
      else inr (NavigatesTo (js "/"))
  | None => inr (NavigatesTo (js "/"))
  end.

(** The text [AllergyForm] stores: [JSON.stringify(validAllergies)]. *)
Definition stored_text (show_number : bool -> N -> Z -> jsstring)
    (validAllergies : list jsstring) : jsstring :=
  Stringify.stringify show_number (VArray (map VString validAllergies)).

(** [allergies.length > 0 && (... allergies.map(...) ...)] for an array
    in state, which is what the form stores: each entry is drawn as the
    child of its own row, and React refuses an object among them.  (A
    value that is not an array is not modelled here.) *)
Definition listed (allergies : list value) : React.failure + list value :=
  if (0 <? List.length allergies)%nat then
    if forallb React.renderable allergies then inr allergies
    else inl React.ObjectAsChild
  else inr [].

End OptionsPage.

(* ================================================================== *)
(** ** The text fields of the intake form, allergyForm/page.tsx *)
(* ================================================================== *)

Module AllergyFormFields.
Import AllergyFormPage.

(** The [name] attributes of the three inputs bound to
    [handleFormDataChange]. *)
Inductive input : Type :=
| NameInput
| EmailInput
| EmergencyContactInput.

Definition name_of (i : input) : jsstring :=
  match i with
  | NameInput => js "name"
  | EmailInput => js "email"
  | EmergencyContactInput => js "emergencyContact"
  end.

Definition set_formData (d : FormData) (st : Page) : Page :=
  mkPage d (allergyFields st) (formErrors st) (isSubmitting st)
         (userProfile st) (pushed st).

(** [{ ...prev, [name]: value }] *)
Definition with_data (i : input) (v : jsstring) (prev : FormData) : FormData :=
  match i with
  | NameInput => mkFormData v (fd_email prev) (fd_emergencyContact prev)
  | EmailInput => mkFormData (fd_name prev) v (fd_emergencyContact prev)
  | EmergencyContactInput => mkFormData (fd_name prev) (fd_email prev) v
  end.

Definition with_error (i : input) (e : jsstring) (prev : FormErrors) : FormErrors :=
  match i with
  | NameInput =>
      mkFormErrors e (fe_email prev) (fe_emergencyContact prev) (fe_allergies prev)
  | EmailInput =>
      mkFormErrors (fe_name prev) e (fe_emergencyContact prev) (fe_allergies prev)
  | EmergencyContactInput =>
      mkFormErrors (fe_name prev) (fe_email prev) e (fe_allergies prev)
  end.

Definition handleFormDataChange (i : input) (v : jsstring) (st : Page) : Page :=
  let name := name_of i in
  let st1 := set_formData (with_data i v (formData st)) st in
  let error :=
    if str_eqb name (js "name") then validateName v
    else if str_eqb name (js "email") then validateEmail v
    else js "" in
  set_formErrors (with_error i error (formErrors st1)) st1.

(** What the user can do to the form before submitting it. *)
Inductive event : Type :=
| Typed (i : input) (v : jsstring)
| Edited (op : edit)
| Submitted (now : jsstring).

Definition handle (ev : event) (st : Page) : Page :=
  match ev with
  | Typed i v => handleFormDataChange i v st
  | Edited op => apply_edit op st
  | Submitted now => handleSubmit now st
  end.

Definition run (evs : list event) (st : Page) : Page :=
  fold_left (fun s ev => handle ev s) evs st.

(** No field shows an error that its present content does not earn: the
    error drawn under a field is empty or is the verdict on what the field
    holds. *)
Definition errors_current (st : Page) : Prop :=
  (fe_name (formErrors st) = js "" \/
   fe_name (formErrors st) = validateName (fd_name (formData st))) /\
  (fe_email (formErrors st) = js "" \/
   fe_email (formErrors st) = validateEmail (fd_email (formData st))) /\
  fe_emergencyContact (formErrors st) = js "" /\
  errors_in_step st.

(** A character of the three parts of an address. *)
Definition isAddressChar (c : N) : bool := negb (isWhiteSpace c || N.eqb c 64).

End AllergyFormFields.

(* ================================================================== *)
(** ** Typing into the earlier form, components/AllergyForm.js *)
(* ================================================================== *)

Module AllergyFormJsInput.
Import AllergyFormJs.

(** The pattern of [handleAllergyChange]: letters and white space, none
    included. *)
Definition lettersOnlyRegex : regex :=
  Star (Class (fun c => isAsciiLetter c || isWhiteSpace c)).

(** [copy[index] = x] on a copy of an array without holes: at an index of
    the array the element is replaced, at its length the array grows by
    one; further out the result would have holes, which a list does not
    represent. *)
Fixpoint set_index {A : Type} (index : nat) (x : A) (l : list A)
  : option (list A) :=
  match l, index with
  | [], O => Some [x]
  | [], S _ => None
  | _ :: r, O => Some (x :: r)
  | y :: r, S k =>
      match set_index k x r with
      | Some r' => Some (y :: r')
      | None => None
      end
  end.

Definition handleAllergyChange (index : nat) (value : jsstring) (st : Form)
  : option Form :=
  if test lettersOnlyRegex value then
    match set_index index value (allergies st),
          set_index index (js "") (errors st) with
    | Some newAllergies, Some newErrors =>
        Some (mkForm newAllergies newErrors (stored st) (navigated st) (alerts st))
    | _, _ => None
    end
  else
    match set_index index (js "Only letters and spaces are allowed") (errors st) with
    | Some newErrors =>
        Some (mkForm (allergies st) newErrors (stored st) (navigated st) (alerts st))
    | None => None
    end.

(** The state of the first render. *)
Definition initialForm : Form := mkForm [js ""] [] None [] [].

(** What the rendered form lets the user do: type into an entry that is
    drawn, add an entry, remove an entry that is drawn. *)
Inductive event : Type :=
| Typed (index : nat) (value : jsstring)
| Added
| Removed (index : nat).

Definition drawn (ev : event) (st : Form) : bool :=
  match ev with
  | Typed index _ => (index <? List.length (allergies st))%nat
  | Added => true
  | Removed index => (index <? List.length (allergies st))%nat
  end.

Definition handle (ev : event) (st : Form) : option Form :=
  match ev with
  | Typed index value => handleAllergyChange index value st
  | Added => Some (addAllergyField st)
  | Removed index => Some (removeAllergyField index st)
  end.

(** A run of events; [None] when an assignment would leave a hole. *)
Fixpoint run (evs : list event) (st : Form) : option Form :=
  match evs with
  | [] => Some st
  | ev :: rest =>
      match handle ev st with
      | Some st' => run rest st'
      | None => None
      end
  end.

(** Every event of the run is on an entry drawn at its time. *)
Fixpoint all_drawn (evs : list event) (st : Form) : bool :=
  match evs with
  | [] => true
  | ev :: rest =>
      drawn ev st &&
      match handle ev st with
      | Some st' => all_drawn rest st'
      | None => true
      end
  end.

(** What the handlers keep true of the two arrays. *)
Definition form_ok (st : Form) : Prop :=
  1 <= List.length (allergies st) /\
  List.length (allergies st) - 1 <= List.length (errors st) /\
  List.length (errors st) <= List.length (allergies st) /\
  Forall (fun a => forallb isLetterOrSpace a = true) (allergies st).

End AllergyFormJsInput.

(* ================================================================== *)
(** ** Files and object URLs *)
(* ================================================================== *)

Module Files.

(** [s.startsWith(prefix)] *)
Fixpoint startsWith (prefix s : jsstring) : bool :=
  match prefix, s with
  | [], _ => true
  | _ :: _, [] => false
  | a :: p, b :: r => N.eqb a b && startsWith p r
  end.

(** [10 * 1024 * 1024] *)
Definition maxSize : N := 10 * 1024 * 1024.

(** The object URLs that are alive: created and not revoked since. *)
Definition Registry : Type := list jsstring.

(** [URL.createObjectURL(file)] when the platform hands out [url]. *)
Definition createObjectURL (url : jsstring) (live : Registry) : Registry :=
  live ++ [url].

Definition revokeObjectURL (url : jsstring) (live : Registry) : Registry :=
  filter (fun u => negb (str_eqb u url)) live.

(** [if (previewUrl) URL.revokeObjectURL(previewUrl)] *)
Definition revokePreview (previewUrl : jsstring) (live : Registry) : Registry :=
  if truthy_str previewUrl then revokeObjectURL previewUrl live else live.

(** Only the URL of the preview drawn is alive, if one is drawn. *)
Definition only_preview (previewUrl : jsstring) (live : Registry) : Prop :=
  live = if truthy_str previewUrl then [previewUrl] else [].

End Files.

(* ================================================================== *)
(** ** The other handlers of the lookup page, menuInput/page.tsx *)
(* ================================================================== *)

Module MenuInputEvents.
Import Ai MenuInput Files.

(** The cells of [MenuInput.State] with the preview URL, and the object
    URLs alive. *)
Record Page : Type := mkPage {
  state : State;
  previewUrl : jsstring;
  live : Registry
}.

Definition userAllergies (userProfile : option AllergyFormPage.UserProfile)
  : list jsstring :=
  match userProfile with
  | Some p => AllergyFormPage.up_allergies p
  | None => []
  end.

(** The effect that sends a visitor without allergies to the form: the
    route pushed, if any. *)
Definition redirectEffect (userProfile : option AllergyFormPage.UserProfile)
  : option jsstring :=
  if (List.length (userAllergies userProfile) =? 0)%nat
  then Some (js "/allergyForm") else None.

Definition handleOptionSelect (option : jsstring) (p : Page) : Page :=
  let st := state p in
  mkPage
    (mkState option (js "") (js "") None (isProcessing st) (js "")
             (menuData st) (showResults st))
    (js "")
    (revokePreview (previewUrl p) (live p)).

(** [file] is [event.target.files?.[0]]; [url] is what
    [URL.createObjectURL] returns if it is called. *)
Definition handleFileSelect (file : option File) (url : jsstring) (p : Page)
  : Page :=
  match file with
  | None => p
  | Some f =>
      if negb (startsWith (js "image/") (file_type f)) then
        mkPage (setError (js "Please select a valid image file") (state p))
               (previewUrl p) (live p)
      else if (maxSize <? file_size f)%N then
        mkPage (setError (js "File size must be less than 10MB") (state p))
               (previewUrl p) (live p)
      else
        let st := state p in
        mkPage
          (mkState (selectedOption st) (restaurantName st) (foodName st)
                   (Some f) (isProcessing st) (js "") (menuData st)
                   (showResults st))
          url
          (createObjectURL url (revokePreview (previewUrl p) (live p)))
  end.

Definition handleTextInputChange (field value : jsstring) (p : Page) : Page :=
  let st := state p in
  mkPage
    (if str_eqb field (js "restaurant")
     then mkState (selectedOption st) value (foodName st) (selectedFile st)
                  (isProcessing st) (js "") (menuData st) (showResults st)
     else mkState (selectedOption st) (restaurantName st) value (selectedFile st)
                  (isProcessing st) (js "") (menuData st) (showResults st))
    (previewUrl p) (live p).

(** The button drawn over the preview. *)
Definition removePreview (p : Page) : Page :=
  let st := state p in
  mkPage
    (mkState (selectedOption st) (restaurantName st) (foodName st) None
             (isProcessing st) (error st) (menuData st) (showResults st))
    (js "")
    (revokePreview (previewUrl p) (live p)).

Inductive event : Type :=
| OptionSelect (option : jsstring)
| FileSelect (file : option File) (url : jsstring)
| TextInputChange (field value : jsstring)
| RemovePreview
| Proceed (env : Env) (service : Service) (userAllergies : list jsstring).

Definition handle (ev : event) (p : Page) : Page :=
  match ev with
  | OptionSelect option => handleOptionSelect option p
  | FileSelect file url => handleFileSelect file url p
  | TextInputChange field value => handleTextInputChange field value p
  | RemovePreview => removePreview p
  | Proceed env service userAllergies =>
      mkPage (fst (validateAndProceed env service userAllergies (state p)))
             (previewUrl p) (live p)
  end.

(** A handler and the render after it: when [previewUrl] has changed the
    cleanup of the effect runs, with the URL of the render before. *)
Definition step (ev : event) (p : Page) : Page :=
  let p' := handle ev p in
  if str_eqb (previewUrl p) (previewUrl p') then p'
  else mkPage (state p') (previewUrl p') (revokePreview (previewUrl p) (live p')).

Definition run (evs : list event) (p : Page) : Page :=
  fold_left (fun q ev => step ev q) evs p.

(** The cleanup at unmount: the object URLs left alive. *)
Definition unmount (p : Page) : Registry :=
  revokePreview (previewUrl p) (live p).

Definition initialPage : Page :=
  mkPage (mkState (js "") (js "") (js "") None false (js "") None false)
         (js "") [].

(** The URLs handed out by the platform are not empty. *)
Definition named_urls (evs : list event) : bool :=
  forallb (fun ev => match ev with
                     | FileSelect _ url => truthy_str url
                     | _ => true
                     end) evs.

(** What the handlers keep true of the preview. *)
Definition page_ok (p : Page) : Prop :=
  only_preview (previewUrl p) (live p) /\
  (selectedFile (state p) = None <-> previewUrl p = js "").

End MenuInputEvents.

(* ================================================================== *)
(** ** The dashboard, dashboard/page.tsx *)
(* ================================================================== *)

Module Dashboard.
Import Ai Files.

Record DashboardCard : Type := mkCard {
  card_id : jsstring;
  href : option jsstring
}.

Definition dashboardCards : list DashboardCard :=
  [ mkCard (js "update-allergies") (Some (js "/allergyForm"));
    mkCard (js "take-upload-picture") (Some (js "/take-upload-picture"));
    mkCard (js "restaurant-lookup") (Some (js "/restaurant-lookup"));
    mkCard (js "how-to-use") (Some (js "/how-to-use")) ].

(** The [useState] cells, the object URLs alive and the addresses
    assigned to [window.location.href]. *)
Record State : Type := mkState {
  showRestaurantLookup : bool;
  restaurantName : jsstring;
  foodName : jsstring;
  isProcessing : bool;
  error : jsstring;
  menuData : option value;
  showResults : bool;
  showPictureUpload : bool;
  selectedFile : option MenuInput.File;
  previewUrl : jsstring;
  live : Registry;
  location : list jsstring
}.

Definition initialState : State :=
  mkState false (js "") (js "") false (js "") None false false None (js "") [] [].

Definition handleFileSelect (file : option MenuInput.File) (url : jsstring)
    (st : State) : State :=
  match file with
  | None => st
  | Some f =>
      if negb (startsWith (js "image/") (MenuInput.file_type f)) then
        mkState (showRestaurantLookup st) (restaurantName st) (foodName st)
                (isProcessing st) (js "Please select a valid image file")
                (menuData st) (showResults st) (showPictureUpload st)
                (selectedFile st) (previewUrl st) (live st) (location st)
      else if (maxSize <? MenuInput.file_size f)%N then
        mkState (showRestaurantLookup st) (restaurantName st) (foodName st)
                (isProcessing st) (js "File size must be less than 10MB")
                (menuData st) (showResults st) (showPictureUpload st)
                (selectedFile st) (previewUrl st) (live st) (location st)
      else
        mkState (showRestaurantLookup st) (restaurantName st) (foodName st)
                (isProcessing st) (js "")
                (menuData st) (showResults st) (showPictureUpload st)
                (Some f) url
                (createObjectURL url (revokePreview (previewUrl st) (live st)))
                (location st)
  end.

Definition handleCardClick (userAllergies : list jsstring)
    (card : DashboardCard) (st : State) : State :=
  if str_eqb (card_id card) (js "restaurant-lookup") then
    if (List.length userAllergies =? 0)%nat then
      mkState (showRestaurantLookup st) (restaurantName st) (foodName st)
              (isProcessing st) (error st) (menuData st) (showResults st)
              (showPictureUpload st) (selectedFile st) (previewUrl st)
              (live st) (location st ++ [js "/allergyForm"])
    else
      (* the picture panel is closed if it is open *)
      let closing := showPictureUpload st in
      mkState (negb (showRestaurantLookup st))
              (if negb (showRestaurantLookup st) then js "" else restaurantName st)
              (if negb (showRestaurantLookup st) then js "" else foodName st)
              (isProcessing st) (js "") None false
              (if closing then false else showPictureUpload st)
              (if closing then None else selectedFile st)
              (if closing then js "" else previewUrl st)
              (if closing then revokePreview (previewUrl st) (live st) else live st)
              (location st)
  else if str_eqb (card_id card) (js "take-upload-picture") then
    if (List.length userAllergies =? 0)%nat then
      mkState (showRestaurantLookup st) (restaurantName st) (foodName st)
              (isProcessing st) (error st) (menuData st) (showResults st)
              (showPictureUpload st) (selectedFile st) (previewUrl st)
              (live st) (location st ++ [js "/allergyForm"])
    else
      (* the lookup panel is closed if it is open *)
      let closing := showRestaurantLookup st in
      let opening := negb (showPictureUpload st) in
      mkState (if closing then false else showRestaurantLookup st)
              (if closing then js "" else restaurantName st)
              (if closing then js "" else foodName st)
              (isProcessing st) (js "")
              (if closing then None else menuData st)
              (if closing then false else showResults st)
              (negb (showPictureUpload st))
              (if opening then None else selectedFile st)
              (if opening then js "" else previewUrl st)
              (if opening then revokePreview (previewUrl st) (live st) else live st)
              (location st)
  else
    match href card with
    | Some h =>
        if truthy_str h then
          mkState (showRestaurantLookup st) (restaurantName st) (foodName st)
                  (isProcessing st) (error st) (menuData st) (showResults st)
                  (showPictureUpload st) (selectedFile st) (previewUrl st)
                  (live st) (location st ++ [h])
        else st
    | None => st
    end.

Definition handleTextInputChange (field value : jsstring) (st : State) : State :=
  mkState (showRestaurantLookup st)
          (if str_eqb field (js "restaurant") then value else restaurantName st)
          (if str_eqb field (js "restaurant") then foodName st else value)
          (isProcessing st) (js "") (menuData st) (showResults st)
          (showPictureUpload st) (selectedFile st) (previewUrl st)
          (live st) (location st).

(** The state once the handler has run to its end, with the requests it
    sent. *)
Definition validateAndProceed (env : Env) (service : Service)
    (userAllergies : list jsstring) (st : State) : State * list Request :=
  let finish (error : jsstring) (menuData : option value) (showResults : bool) :=
    mkState (showRestaurantLookup st) (restaurantName st) (foodName st)
            false error menuData showResults
            (showPictureUpload st) (selectedFile st) (previewUrl st)
            (live st) (location st) in
  if negb (truthy_str (trim (restaurantName st))) then
    (finish (js "Please enter a restaurant name to check for allergens")
            None false, [])
  else
    match AiFunctions.getSafeFoodsByRestaurantName env service
            (trim (restaurantName st)) (Some userAllergies) [] with
    | (inr aiResponse, sent) =>
        let aiResponse :=
          match aiResponse with
          | Some text =>
              if truthy_str text then text else MenuInput.fallbackResponse
          | None => MenuInput.fallbackResponse
          end in
        match JSON_parse aiResponse with
        | inr parsedData => (finish (js "") (Some parsedData) true, sent)
        | inl parseError =>
            (finish
               (js "Unable to parse response from AI service. Please try again.")
               None false, sent)
        end
    | (inl error, sent) =>
        (finish
           (js "An error occurred while analyzing the menu. Please try again.")
           None false, sent)
    end.

Definition goBackToDashboard (st : State) : State :=
  mkState false (js "") (js "") (isProcessing st) (js "") None false
          (showPictureUpload st) (selectedFile st) (previewUrl st)
          (live st) (location st).

Definition goBackFromPictureUpload (st : State) : State :=
  mkState (showRestaurantLookup st) (restaurantName st) (foodName st)
          (isProcessing st) (js "") (menuData st) (showResults st)
          false None (js "")
          (revokePreview (previewUrl st) (live st)) (location st).

(** The button drawn over the preview. *)
Definition removePreview (st : State) : State :=
  mkState (showRestaurantLookup st) (restaurantName st) (foodName st)
          (isProcessing st) (error st) (menuData st) (showResults st)
          (showPictureUpload st) None (js "")
          (revokePreview (previewUrl st) (live st)) (location st).

(** The button under the picture panel. *)
Definition analyzePicture (st : State) : State :=
  mkState (showRestaurantLookup st) (restaurantName st) (foodName st)
          (isProcessing st)
          (match selectedFile st with
           | None => js "Please select or capture an image"
           | Some _ =>
               js "Picture analysis is coming soon. Please use the Restaurant Lookup for now."
           end)
          (menuData st) (showResults st)
          (showPictureUpload st) (selectedFile st) (previewUrl st)
          (live st) (location st).

Inductive event : Type :=
| CardClick (card : DashboardCard)
| FileSelect (file : option MenuInput.File) (url : jsstring)
| TextInputChange (field value : jsstring)
| Proceed (env : Env) (service : Service)
| GoBackToDashboard
| GoBackFromPictureUpload
| RemovePreview
| AnalyzePicture.

Definition handle (userAllergies : list jsstring) (ev : event) (st : State)
  : State :=
  match ev with
  | CardClick card => handleCardClick userAllergies card st
  | FileSelect file url => handleFileSelect file url st
  | TextInputChange field value => handleTextInputChange field value st
  | Proceed env service => fst (validateAndProceed env service userAllergies st)
  | GoBackToDashboard => goBackToDashboard st
  | GoBackFromPictureUpload => goBackFromPictureUpload st
  | RemovePreview => removePreview st
  | AnalyzePicture => analyzePicture st
  end.

(** A handler and the render after it: when [previewUrl] has changed the
    cleanup of the effect runs, with the URL of the render before. *)
Definition step (userAllergies : list jsstring) (ev : event) (st : State)
  : State :=
  let st' := handle userAllergies ev st in
  if str_eqb (previewUrl st) (previewUrl st') then st'
  else
    mkState (showRestaurantLookup st') (restaurantName st') (foodName st')
            (isProcessing st') (error st') (menuData st') (showResults st')
            (showPictureUpload st') (selectedFile st') (previewUrl st')
            (revokePreview (previewUrl st) (live st')) (location st').

Definition run (userAllergies : list jsstring) (evs : list event) (st : State)
  : State :=
  fold_left (fun s ev => step userAllergies ev s) evs st.

Definition unmount (st : State) : Registry :=
  revokePreview (previewUrl st) (live st).

(** The URLs handed out by the platform are not empty. *)
Definition named_urls (evs : list event) : bool :=
  forallb (fun ev => match ev with
                     | FileSelect _ url => truthy_str url
                     | _ => true
                     end) evs.

(** The preview is drawn inside the picture panel:
    [showPictureUpload && (... previewUrl ? <img src={previewUrl} /> ...)]. *)
Definition previewDrawn (st : State) : bool :=
  showPictureUpload st && truthy_str (previewUrl st).

(** What the handlers keep true of the two panels and the preview. *)
Definition state_ok (st : State) : Prop :=
  showRestaurantLookup st && showPictureUpload st = false /\
  only_preview (previewUrl st) (live st) /\
  (selectedFile st = None <-> previewUrl st = js "").

End Dashboard.

(* ================================================================== *)
(** ** The calls with a body and the named endpoints, modules/client.ts *)
(* ================================================================== *)

Module ClientApi.
Import Client Stringify.

Section WithNumbers.

Variable show_number : bool -> N -> Z -> jsstring.











End WithNumbers.

End ClientApi.

(* ================================================================== *)
(** ** [apiUtils], modules/client.ts *)
(* ================================================================== *)

Module ApiUtils.
Import Client.

Definition allowedTypes : list jsstring :=
  [js "image/jpeg"; js "image/png"; js "image/gif"; js "image/webp"].

Record Validation : Type := mkValidation {
  isValid : bool;
  validation_error : option jsstring
}.

Definition validateImageFile (file : MenuInput.File) : Validation :=
  if negb (existsb (str_eqb (MenuInput.file_type file)) allowedTypes) then
    mkValidation false
      (Some (js "Invalid file type. Please upload a JPEG, PNG, GIF, or WebP image."))
  else if (Files.maxSize <? MenuInput.file_size file)%N then
    mkValidation false
      (Some (js "File size too large. Please upload an image smaller than 10MB."))
  else mkValidation true None.

(** [error.code === n] *)
Definition code_is (e : ApiError) (n : N) : bool :=
  match code e with
  | Some c => (c =? n)%N
  | None => false
  end.

Definition formatErrorMessage (e : ApiError) : jsstring :=
  if str_eqb (error e) (js "NETWORK_ERROR") then
    js "Unable to connect to the server. Please check your internet connection."
  else if str_eqb (error e) (js "TIMEOUT") then
    js "Request timed out. Please try again."
  else if str_eqb (error e) (js "HTTP_ERROR") then
    if code_is e 404 then js "The requested resource was not found."
    else if code_is e 500 then js "Server error. Please try again later."
    else if code_is e 429 then js "Too many requests. Please wait and try again."
    else if truthy_str (message e) then message e
    else js "An error occurred while processing your request."
  else
    if truthy_str (message e) then message e
    else js "An unexpected error occurred.".

(** [s.split(',')] *)
Fixpoint split_comma (s : jsstring) : list jsstring :=
  match s with
  | [] => [[]]
  | c :: r =>
      if (c =? 44)%N then [] :: split_comma r
      else
        match split_comma r with
        | h :: t => (c :: h) :: t
        | [] => [[c]]
        end
  end.

(** What the promise of [fileToBase64] settles to, given how the read
    ends: with [reader.result], or with the event of the error.  [None] is
    [undefined]. *)
Definition fileToBase64 {E : Type} (read : E + jsstring) : E + option jsstring :=
  match read with
  | inr result => inr (nth_error (split_comma result) 1)
  | inl event => inl event
  end.

(** The characters of base64 text. *)
Definition isBase64 (c : N) : bool :=
  isAsciiLetter c || isDigit c || (c =? 43)%N || (c =? 47)%N || (c =? 61)%N.

End ApiUtils.

(* ================================================================== *)
(** * Properties *)
(* ================================================================== *)

(** ** Strings *)

Lemma str_eqb_eq (a b : jsstring) : str_eqb a b = true <-> a = b.
Proof.
  unfold str_eqb. destruct (list_eq_dec N.eq_dec a b); split; congruence.
Qed.

Lemma str_eqb_refl (a : jsstring) : str_eqb a a = true.
Proof. now apply str_eqb_eq. Qed.

Lemma str_eqb_neq (a b : jsstring) : str_eqb a b = false <-> a <> b.
Proof.
  unfold str_eqb. destruct (list_eq_dec N.eq_dec a b); split; congruence.
Qed.

Lemma truthy_str_nil (s : jsstring) : truthy_str s = false <-> s = [].
Proof. destruct s; simpl; split; congruence. Qed.

Lemma trimStart_nil (s : jsstring) :
  trimStart s = [] <-> forallb isWhiteSpace s = true.
Proof.
  induction s as [|c r IH]; simpl.
  - tauto.
  - destruct (isWhiteSpace c); simpl.
    + exact IH.
    + split; discriminate.
Qed.

Lemma trimStart_head (s : jsstring) (c : N) (r : jsstring) :
  trimStart s = c :: r -> isWhiteSpace c = false.
Proof.
  induction s as [|a t IH]; simpl; [discriminate|].
  destruct (isWhiteSpace a) eqn:E; [exact IH|].
  intros H. injection H as -> _. exact E.
Qed.

(** [trim] leaves nothing exactly when the string is all white space. *)
Lemma trim_nil (s : jsstring) :
  trim s = [] <-> forallb isWhiteSpace s = true.
Proof.
  unfold trim, trimEnd. split.
  - intros H.
    assert (H1 : trimStart (rev (trimStart s)) = []).
    { rewrite <- (rev_involutive (trimStart (rev (trimStart s)))), H.
      reflexivity. }
    apply trimStart_nil in H1.
    destruct (trimStart s) as [|c r] eqn:E.
    + now apply trimStart_nil.
    + apply trimStart_head in E.
      rewrite forallb_forall in H1.
      specialize (H1 c). rewrite <- in_rev in H1.
      rewrite H1 in E; [discriminate | now left].
  - intros H. apply trimStart_nil in H. rewrite H. reflexivity.
Qed.

Lemma truthy_trim (s : jsstring) :
  truthy_str (trim s) = existsb (fun c => negb (isWhiteSpace c)) s.
Proof.
  destruct (existsb (fun c => negb (isWhiteSpace c)) s) eqn:E.
  - destruct (truthy_str (trim s)) eqn:T; [reflexivity|].
    apply truthy_str_nil, trim_nil in T.
    apply existsb_exists in E. destruct E as (c & Hc & Hw).
    rewrite forallb_forall in T. rewrite (T c Hc) in Hw. discriminate.
  - apply truthy_str_nil, trim_nil, forallb_forall.
    intros c Hc. destruct (isWhiteSpace c) eqn:W; [reflexivity|].
    assert (existsb (fun c => negb (isWhiteSpace c)) s = true).
    { apply existsb_exists. exists c. now rewrite W. }
    congruence.
Qed.

(** ** Regular expressions: [test] decides the language *)

Section RegexFacts.

Create HintDb re.
Local Hint Constructors matches : re.

Lemma matches_cat_inv (r1 r2 : regex) (s : jsstring) :
  matches (Cat r1 r2) s ->
  exists s1 s2, s = s1 ++ s2 /\ matches r1 s1 /\ matches r2 s2.
Proof. inversion 1; subst; eauto. Qed.

Lemma matches_alt_inv (r1 r2 : regex) (s : jsstring) :
  matches (Alt r1 r2) s -> matches r1 s \/ matches r2 s.
Proof. inversion 1; subst; eauto. Qed.

Lemma matches_class_inv (p : N -> bool) (s : jsstring) :
  matches (Class p) s -> exists c, s = [c] /\ p c = true.
Proof. inversion 1; subst; eauto. Qed.

Lemma matches_cat_cons (r1 r2 : regex) (c : N) (s1 s2 : jsstring) :
  matches r1 (c :: s1) -> matches r2 s2 -> matches (Cat r1 r2) (c :: s1 ++ s2).
Proof. intros. change (c :: s1 ++ s2) with ((c :: s1) ++ s2). auto with re. Qed.

Lemma matches_cat_nil (r1 r2 : regex) (s : jsstring) :
  matches r1 [] -> matches r2 s -> matches (Cat r1 r2) s.
Proof. intros. change s with ([] ++ s). auto with re. Qed.

Lemma nullable_matches (r : regex) : nullable r = true <-> matches r [].
Proof.
  induction r; simpl.
  - split; [discriminate | inversion 1].
  - split; auto with re.
  - split; [discriminate | inversion 1].
  - rewrite andb_true_iff, IHr1, IHr2. split.
    + intros [H1 H2]. now apply matches_cat_nil.
    + intros H. apply matches_cat_inv in H.
      destruct H as (s1 & s2 & E & H1 & H2).
      symmetry in E. apply app_eq_nil in E. destruct E; subst. auto.
  - rewrite orb_true_iff, IHr1, IHr2. split.
    + intros [H|H]; auto with re.
    + apply matches_alt_inv.
  - split; auto with re.
Qed.

Lemma matches_star_cons (r : regex) (c : N) (s : jsstring) :
  matches (Star r) (c :: s) ->
  exists s1 s2, s = s1 ++ s2 /\ matches r (c :: s1) /\ matches (Star r) s2.
Proof.
  intros H. remember (Star r) as r' eqn:Er. remember (c :: s) as w eqn:Ew.
  revert s Ew.
  induction H as [| | | | | |r0 s1 s2 H1 _ H2 IH2]; try discriminate.
  injection Er as ->. intros s Ew.
  destruct s1 as [|a s1'].
  - simpl in Ew. now apply IH2.
  - simpl in Ew. injection Ew as -> <-.
    exists s1', s2. auto.
Qed.

Lemma deriv_matches (r : regex) :
  forall c s, matches (deriv c r) s <-> matches r (c :: s).
Proof.
  induction r as [| |p|r1 IH1 r2 IH2|r1 IH1 r2 IH2|r IH]; intros c s; simpl.
  - split; inversion 1.
  - split; inversion 1.
  - destruct (p c) eqn:E; split.
    + inversion 1; subst. now constructor.
    + inversion 1; subst. constructor.
    + inversion 1.
    + inversion 1; subst. congruence.
  - assert (Hcat : matches (Cat (deriv c r1) r2) s ->
                   matches (Cat r1 r2) (c :: s)).
    { intros H. apply matches_cat_inv in H.
      destruct H as (s1 & s2 & -> & H1 & H2).
      apply IH1 in H1. now apply matches_cat_cons. }
    assert (Hback : matches (Cat r1 r2) (c :: s) ->
                    matches (Cat (deriv c r1) r2) s \/
                    (matches r1 [] /\ matches r2 (c :: s))).
    { intros H. apply matches_cat_inv in H.
      destruct H as (s1 & s2 & E & H1 & H2).
      destruct s1 as [|a s1'].
      - simpl in E. subst. right. auto.
      - simpl in E. injection E as <- ->. left.
        apply IH1 in H1. auto with re. }
    destruct (nullable r1) eqn:N1; split.
    + intros H. apply matches_alt_inv in H. destruct H as [H|H]; auto.
      apply IH2 in H. apply nullable_matches in N1.
      now apply matches_cat_nil.
    + intros H. destruct (Hback H) as [H1|[_ H2]]; auto with re.
      apply IH2 in H2. auto with re.
    + auto.
    + intros H. destruct (Hback H) as [H1|[H1 _]]; auto.
      apply nullable_matches in H1. congruence.
  - split.
    + intros H. apply matches_alt_inv in H.
      destruct H as [H|H]; [apply IH1 in H | apply IH2 in H]; auto with re.
    + intros H. apply matches_alt_inv in H.
      destruct H as [H|H]; [apply IH1 in H | apply IH2 in H]; auto with re.
  - split.
    + intros H. apply matches_cat_inv in H.
      destruct H as (s1 & s2 & -> & H1 & H2).
      apply IH in H1. change (c :: s1 ++ s2) with ((c :: s1) ++ s2).
      auto with re.
    + intros H. apply matches_star_cons in H.
      destruct H as (s1 & s2 & -> & H1 & H2).
      apply IH in H1. auto with re.
Qed.

Lemma test_matches (s : jsstring) :
  forall r, test r s = true <-> matches r s.
Proof.
  induction s as [|c s IH]; intros r; simpl.
  - apply nullable_matches.
  - rewrite IH. apply deriv_matches.
Qed.

Lemma matches_star_class (p : N -> bool) (s : jsstring) :
  matches (Star (Class p)) s <-> forallb p s = true.
Proof.
  split.
  - intros H. remember (Star (Class p)) as r eqn:Er.
    induction H as [| | | | | |r0 s1 s2 H1 _ H2 IH2]; try discriminate.
    + reflexivity.
    + injection Er as ->. apply matches_class_inv in H1.
      destruct H1 as (c & -> & Hc). simpl.
      rewrite IH2 by reflexivity. now rewrite Hc.
  - induction s as [|c s IH]; simpl; intros H.
    + constructor.
    + apply andb_true_iff in H. destruct H as [Hc Hs].
      change (c :: s) with ([c] ++ s). constructor; auto. now constructor.
Qed.

(** [/^[class]+$/] accepts the non-empty strings made of the class. *)
Lemma test_plus_class (p : N -> bool) (s : jsstring) :
  test (Plus (Class p)) s = truthy_str s && forallb p s.
Proof.
  destruct (truthy_str s && forallb p s) eqn:E.
  - apply test_matches. apply andb_true_iff in E. destruct E as [Hs Hp].
    destruct s as [|c s]; [discriminate|]. simpl in Hp.
    apply andb_true_iff in Hp. destruct Hp as [Hc Hp].
    unfold Plus. change (c :: s) with ([c] ++ s).
    constructor; [now constructor | now apply matches_star_class].
  - destruct (test (Plus (Class p)) s) eqn:T; [|reflexivity].
    apply test_matches in T. unfold Plus in T.
    apply matches_cat_inv in T. destruct T as (s1 & s2 & -> & H1 & H2).
    apply matches_class_inv in H1. destruct H1 as (c & -> & Hc).
    apply matches_star_class in H2.
    simpl in E. rewrite Hc, H2 in E. discriminate.
Qed.

End RegexFacts.

(** ** [JSON.parse]: the parser consumes its input and has fuel enough *)

Section JsonFuel.

Lemma skip_ws_length (s : jsstring) :
  List.length (skip_ws s) <= List.length s.
Proof.
  induction s as [|c r IH]; simpl; [lia|].
  destruct (isJsonWs c); simpl; lia.
Qed.

Lemma parse_chars_length (n : nat) :
  forall s acc str r,
    List.length s <= n ->
    parse_chars s acc = Some (str, r) -> List.length r < List.length s.
Proof.
  induction n as [|n IH]; intros s acc str r Hn H.
  - destruct s; [discriminate | simpl in Hn; lia].
  - destruct s as [|c s1]; [discriminate|]. simpl in H, Hn.
    destruct (c =? 34)%N.
    { injection H as _ <-. simpl. lia. }
    destruct (c =? 92)%N.
    + destruct s1 as [|x s2]; [discriminate|].
      destruct (escape_char x).
      * apply IH in H; simpl in *; lia.
      * destruct (x =? 117)%N; [|discriminate].
        destruct s2 as [|h1 [|h2 [|h3 [|h4 s3]]]]; try discriminate.
        destruct (hexval h1), (hexval h2), (hexval h3), (hexval h4);
          try discriminate.
        apply IH in H; simpl in *; lia.
    + destruct (c <? 32)%N; [discriminate|].
      apply IH in H; simpl in *; lia.
Qed.

Lemma digits_length (s : jsstring) :
  forall acc n m k r,
    digits s acc n = (m, k, r) -> List.length r <= List.length s.
Proof.
  induction s as [|c s IH]; simpl; intros acc n m k r H.
  - injection H as _ _ <-. simpl. lia.
  - destruct (isDigit c).
    + apply IH in H. lia.
    + injection H as _ _ <-. simpl. lia.
Qed.

Lemma strip_prefix_length (p : jsstring) :
  forall s r, strip_prefix p s = Some r ->
              List.length s = List.length p + List.length r.
Proof.
  induction p as [|a p IH]; simpl; intros s r H.
  - now injection H as ->.
  - destruct s as [|b s]; [discriminate|].
    destruct (a =? b)%N; [|discriminate].
    apply IH in H. simpl. lia.
Qed.

Ltac break_matches :=
  repeat match goal with
         | H : context [match ?x with _ => _ end] |- _ =>
             destruct x eqn:?; try discriminate
         | H : (_, _) = (_, _) |- _ => inversion H; clear H; subst
         | H : Some _ = Some _ |- _ => inversion H; clear H; subst
         | H : POk _ _ = POk _ _ |- _ => inversion H; clear H; subst
         end.

Lemma parse_number_length (s : jsstring) (v : value) (r : jsstring) :
  parse_number s = Some (v, r) -> List.length r < List.length s.
Proof.
  unfold parse_number. intros H. break_matches.
  all: repeat match goal with
         | E : digits _ _ _ = _ |- _ => apply digits_length in E
         end; simpl in *; try lia.
Qed.

Lemma skip_ws_cons (s : jsstring) (c : N) (r : jsstring) :
  skip_ws s = c :: r -> S (List.length r) <= List.length s.
Proof.
  intros H. pose proof (skip_ws_length s) as L. rewrite H in L. exact L.
Qed.

Lemma parse_chars_shorter (s acc str r : jsstring) :
  parse_chars s acc = Some (str, r) -> List.length r < List.length s.
Proof. apply (parse_chars_length (n := List.length s)). lia. Qed.

Ltac length_facts :=
  repeat match goal with
         | E : skip_ws _ = _ :: _ |- _ => apply skip_ws_cons in E
         | E : parse_chars _ _ = Some _ |- _ => apply parse_chars_shorter in E
         | E : strip_prefix _ _ = Some _ |- _ => apply strip_prefix_length in E
         | E : parse_number _ = Some _ |- _ => apply parse_number_length in E
         end.

Local Arguments strip_prefix : simpl never.
Local Arguments parse_number : simpl never.
Local Arguments parse_chars : simpl never.
Local Arguments skip_ws : simpl never.
Local Arguments js : simpl never.

(** What a successful parse leaves is shorter than what it was given. *)
Lemma parse_consumes (fuel : nat) :
  forall s,
    (forall v r, parse_value fuel s = POk v r ->
                 List.length r < List.length s) /\
    (forall acc v r, parse_elements fuel s acc = POk v r ->
                     List.length r < List.length s) /\
    (forall acc v r, parse_members fuel s acc = POk v r ->
                     List.length r < List.length s).
Proof.
  induction fuel as [|f IH]; intros s.
  - repeat split; intros; discriminate.
  - assert (IHv : forall s v r, parse_value f s = POk v r ->
                                List.length r < List.length s)
      by (intros s'; apply (IH s')).
    assert (IHe : forall s acc v r, parse_elements f s acc = POk v r ->
                                    List.length r < List.length s)
      by (intros s'; apply (IH s')).
    assert (IHm : forall s acc v r, parse_members f s acc = POk v r ->
                                    List.length r < List.length s)
      by (intros s'; apply (IH s')).
    clear IH. repeat split.
    + intros v r H. simpl in H. break_matches; length_facts;
        try (apply IHe in H); try (apply IHm in H); simpl in *; try lia.

    + intros acc v r H. simpl in H. break_matches; length_facts.
      all: repeat match goal with
             | E : parse_value _ _ = POk _ _ |- _ => apply IHv in E
             end; try (apply IHe in H); simpl in *; lia.
    + intros acc v r H. simpl in H. break_matches; length_facts.
      all: repeat match goal with
             | E : parse_value _ _ = POk _ _ |- _ => apply IHv in E
             end; try (apply IHm in H); simpl in *; lia.
Qed.

Lemma parse_value_consumes (fuel : nat) (s : jsstring) (v : value)
    (r : jsstring) :
  parse_value fuel s = POk v r -> List.length r < List.length s.
Proof. apply parse_consumes. Qed.

(** Twice the length of the text, and a little more, is fuel enough. *)
Lemma parse_fuel_enough (fuel : nat) :
  forall s,
    (2 * List.length s + 2 <= fuel -> parse_value fuel s <> PFuel) /\
    (forall acc, 2 * List.length s + 3 <= fuel ->
                 parse_elements fuel s acc <> PFuel) /\
    (forall acc, 2 * List.length s + 3 <= fuel ->
                 parse_members fuel s acc <> PFuel).
Proof.
  induction fuel as [|f IH]; intros s.
  - repeat split; intros; lia.
  - assert (IHv : forall s, 2 * List.length s + 2 <= f ->
                            parse_value f s <> PFuel)
      by (intros s'; apply (IH s')).
    assert (IHe : forall s acc, 2 * List.length s + 3 <= f ->
                                parse_elements f s acc <> PFuel)
      by (intros s'; apply (IH s')).
    assert (IHm : forall s acc, 2 * List.length s + 3 <= f ->
                                parse_members f s acc <> PFuel)
      by (intros s'; apply (IH s')).
    clear IH. repeat split.
    + intros Hf H. simpl in H. break_matches; length_facts.
      * apply IHe in H; [exact H | simpl in *; lia].
      * apply IHm in H; [exact H | simpl in *; lia].
    + intros acc Hf H. simpl in H. break_matches; length_facts.
      * match goal with
        | E : parse_value _ _ = POk _ _ |- _ => apply parse_value_consumes in E
        end.
        apply IHe in H; [exact H | simpl in *; lia].
      * match goal with
        | E : parse_value _ _ = PFuel |- _ =>
            apply IHv in E; [exact E | simpl in *; lia]
        end.
    + intros acc Hf H. simpl in H. break_matches; length_facts.
      * match goal with
        | E : parse_value _ _ = POk _ _ |- _ => apply parse_value_consumes in E
        end.
        apply IHm in H; [exact H | simpl in *; lia].
      * match goal with
        | E : parse_value _ _ = PFuel |- _ =>
            apply IHv in E; [exact E | simpl in *; lia]
        end.
Qed.

(** [JSON_parse] never runs out of fuel: it answers with a value or finds
    the text ill-formed. *)
Lemma parse_value_fuel (text : jsstring) :
  parse_value (fuel_for text) text <> PFuel.
Proof.
  apply parse_fuel_enough. unfold fuel_for. lia.
Qed.

End JsonFuel.

Example JSON_parse_fallback :
  JSON_parse MenuInput.fallbackResponse =
    inr (VObject [(js "restaurantName", VString []); (js "foods", VArray [])]).
Proof. vm_compute. reflexivity. Qed.

Example JSON_parse_rejects :
  JSON_parse (js "[1,]") = inl EngineSyntaxError /\
  JSON_parse (js "01") = inl EngineSyntaxError /\
  JSON_parse (js "") = inl EngineSyntaxError /\
  JSON_parse (js " [[], -2.50e-3, true, null] ") =
    inr (VArray [VArray []; VNumber true 250 (-5); VBool true; VNull]).
Proof. vm_compute. repeat split. Qed.

(** ** Validation of an allergy entry *)

Example validateEmail_examples :
  AllergyFormPage.validateEmail (js "a@b.com") = js "" /\
  AllergyFormPage.validateEmail (js "abc") =
    js "Please enter a valid email address" /\
  AllergyFormPage.validateEmail (js "a@b") =
    js "Please enter a valid email address".
Proof. vm_compute. repeat split. Qed.

Ltac n_cases :=
  repeat match goal with
         | |- context [(?a =? ?b)%N] => destruct (N.eqb_spec a b); try lia
         | |- context [(?a <=? ?b)%N] => destruct (N.leb_spec a b); try lia
         end.

Lemma digit_is_not_letter_or_space (c : N) :
  isDigit c = true -> isDigitOrSymbol c = true.
Proof.
  unfold isDigit, isDigitOrSymbol, isLetterOrSpace, isAsciiLetter, isWhiteSpace.
  intros H. apply andb_true_iff in H. destruct H as [H1 H2].
  apply N.leb_le in H1, H2. n_cases; reflexivity.
Qed.

Lemma letter_is_not_space (c : N) :
  isAsciiLetter c = true -> isWhiteSpace c = false.
Proof.
  unfold isAsciiLetter, isWhiteSpace. intros H.
  apply orb_true_iff in H.
  destruct H as [H|H]; apply andb_true_iff in H; destruct H as [H1 H2];
    apply N.leb_le in H1, H2; n_cases; reflexivity.
Qed.

(** The three tests of [validateAllergyInput], in the order it makes them. *)
Lemma validateAllergyInput_cases (s : jsstring) :
  AllergyFormPage.validateAllergyInput s =
    if negb (existsb (fun c => negb (isWhiteSpace c)) s)
    then js "This field is required"
    else if negb (forallb isLetterOrSpace s)
    then js "Only letters and spaces are allowed"
    else if (List.length s <? 2)%nat
    then js "Allergy name must be at least 2 characters long"
    else js "".
Proof.
  unfold AllergyFormPage.validateAllergyInput,
    AllergyFormPage.lettersAndSpacesOnly.
  rewrite truthy_trim, test_plus_class.
  destruct (existsb (fun c => negb (isWhiteSpace c)) s) eqn:E; simpl;
    [|reflexivity].
  destruct s as [|c s]; [discriminate|]. reflexivity.
Qed.

Lemma validateAllergyInput_ok_iff (s : jsstring) :
  AllergyFormPage.validateAllergyInput s = js "" <->
  existsb (fun c => negb (isWhiteSpace c)) s = true /\
  forallb isLetterOrSpace s = true /\
  2 <= List.length s.
Proof.
  rewrite validateAllergyInput_cases.
  destruct (existsb (fun c => negb (isWhiteSpace c)) s); simpl.
  2:{ split; [discriminate | intros (H & _); discriminate]. }
  destruct (forallb isLetterOrSpace s); simpl.
  2:{ split; [discriminate | intros (_ & H & _); discriminate]. }
  destruct (Nat.ltb_spec (List.length s) 2).
  - split; [discriminate | intros (_ & _ & H'); lia].
  - split; auto.
Qed.

Lemma trimStart_length (s : jsstring) :
  List.length (trimStart s) <= List.length s.
Proof.
  induction s as [|c r IH]; simpl; [lia|].
  destruct (isWhiteSpace c); simpl; lia.
Qed.

Lemma trim_length (s : jsstring) : List.length (trim s) <= List.length s.
Proof.
  unfold trim, trimEnd. rewrite length_rev.
  pose proof (trimStart_length (rev (trimStart s))) as H1.
  rewrite length_rev in H1.
  pose proof (trimStart_length s). lia.
Qed.

(** C4, as the code has it: no error for a string of letters and white
    space only that keeps at least 2 characters once trimmed; an error for
    every string that holds a digit or a symbol; an error for every string
    that is empty or blank once trimmed, and for every string shorter than
    2 characters. *)
Theorem C4_validateAllergyInput_amended :
  (forall s : jsstring,
      forallb isLetterOrSpace s = true ->
      2 <= List.length (trim s) ->
      AllergyFormPage.validateAllergyInput s = js "") /\
  (forall s : jsstring,
      existsb isDigitOrSymbol s = true ->
      AllergyFormPage.validateAllergyInput s <> js "") /\
  (forall s : jsstring,
      trim s = [] \/ List.length s < 2 ->
      AllergyFormPage.validateAllergyInput s <> js "").
Proof.
  split; [|split].
  - intros s Hall Hlen. apply validateAllergyInput_ok_iff.
    pose proof (trim_length s).
    repeat split; auto; [|lia].
    rewrite <- truthy_trim.
    destruct (trim s); [simpl in Hlen; lia | reflexivity].
  - intros s Hbad Hok. apply validateAllergyInput_ok_iff in Hok.
    destruct Hok as (_ & Hall & _).
    apply existsb_exists in Hbad. destruct Hbad as (c & Hc & Hb).
    rewrite forallb_forall in Hall. unfold isDigitOrSymbol in Hb.
    rewrite (Hall c Hc) in Hb. discriminate.
  - intros s [Hblank|Hshort] Hok; apply validateAllergyInput_ok_iff in Hok;
      destruct Hok as (Hex & _ & Hlen).
    + rewrite <- truthy_trim, Hblank in Hex. discriminate.
    + lia.
Qed.

Lemma C4_validateAllergyInput_amended_witness :
  AllergyFormPage.validateAllergyInput (js "Tree nuts") = js "" /\
  AllergyFormPage.validateAllergyInput (js "Peanuts2") <> js "" /\
  AllergyFormPage.validateAllergyInput (js "a") <> js "".
Proof.
  destruct C4_validateAllergyInput_amended as (A & B & C).
  split; [|split].
  - apply A; [reflexivity | vm_compute; lia].
  - apply B. reflexivity.
  - apply C. right. simpl. lia.
Defined.

(** C4 as stated fails.  Two spaces are a string of letters and spaces
    only, of length 2, and they are refused.  (The length the code tests is
    the one before trimming: a space followed by one letter, a single
    character once trimmed, is accepted.) *)
Lemma C4_validateAllergyInput_counterexample :
  (forallb isLetterOrSpace (js "  ") = true /\
   List.length (js "  ") = 2 /\
   AllergyFormPage.validateAllergyInput (js "  ") = js "This field is required") /\
  (List.length (trim (js " a")) = 1 /\
   AllergyFormPage.validateAllergyInput (js " a") = js "").
Proof. vm_compute. repeat split. Qed.

(** ** Submission of the intake form *)

Section Submit.

Import AllergyFormPage.

Let revalidated (st : Page) : list AllergyField :=
  map (fun field =>
         mkField (id field) (value field) (validateAllergyInput (value field)))
      (allergyFields st).

Lemma handleSubmit_rejected (now : jsstring) (st : Page) :
  fst (validateAllFields (set_isSubmitting true st)) = false ->
  handleSubmit now st =
    set_isSubmitting false (snd (validateAllFields (set_isSubmitting true st))).
Proof.
  unfold handleSubmit.
  destruct (validateAllFields (set_isSubmitting true st)) as [isValid st2].
  simpl. intros ->. reflexivity.
Qed.

Lemma validateAllFields_keeps_profile (st : Page) :
  userProfile (snd (validateAllFields st)) = userProfile st /\
  pushed (snd (validateAllFields st)) = pushed st /\
  allergyFields (snd (validateAllFields st)) = revalidated st.
Proof. repeat split. Qed.

(** A rejected submission stores nothing and goes nowhere. *)
Lemma handleSubmit_rejected_effects (now : jsstring) (st : Page) :
  fst (validateAllFields (set_isSubmitting true st)) = false ->
  userProfile (handleSubmit now st) = userProfile st /\
  pushed (handleSubmit now st) = pushed st /\
  isSubmitting (handleSubmit now st) = false /\
  formData (handleSubmit now st) = formData st /\
  allergyFields (handleSubmit now st) = revalidated st.
Proof.
  intros H. rewrite (handleSubmit_rejected now st H). repeat split.
Qed.

Lemma filledAndClean_revalidated (f : AllergyField) :
  filledAndClean
    (mkField (id f) (value f) (validateAllergyInput (value f))) = true <->
  truthy_str (trim (value f)) = true /\ validateAllergyInput (value f) = js "".
Proof.
  unfold filledAndClean. simpl. rewrite andb_true_iff, negb_true_iff.
  now rewrite truthy_str_nil.
Qed.

(** Any entry that [validateAllergyInput] refuses, a blank one included,
    makes [validateAllFields] answer false. *)
Lemma validateAllFields_refused_entry (st : Page) (f : AllergyField) :
  In f (allergyFields st) ->
  validateAllergyInput (value f) <> js "" ->
  fst (validateAllFields st) = false.
Proof.
  intros Hin Hbad. unfold validateAllFields. simpl.
  assert (E : existsb (fun field => truthy_str (error field))
                (map (fun field =>
                        mkField (id field) (value field)
                                (validateAllergyInput (value field)))
                     (allergyFields st)) = true).
  { apply existsb_exists.
    exists (mkField (id f) (value f) (validateAllergyInput (value f))).
    split.
    - apply in_map_iff. now exists f.
    - simpl. destruct (validateAllergyInput (value f)); [|reflexivity].
      now elim Hbad. }
  rewrite E. reflexivity.
Qed.

Lemma blank_entry_refused (v : jsstring) :
  trim v = [] -> validateAllergyInput v = js "This field is required".
Proof.
  intros H. unfold validateAllergyInput. now rewrite H.
Qed.

(** A blank entry among the fields blocks the submission, whatever the
    other fields hold. *)
Lemma handleSubmit_blank_entry_blocks (now : jsstring) (st : Page)
    (f : AllergyField) :
  In f (allergyFields st) ->
  trim (value f) = [] ->
  userProfile (handleSubmit now st) = userProfile st /\
  pushed (handleSubmit now st) = pushed st.
Proof.
  intros Hin Hblank.
  assert (H : fst (validateAllFields (set_isSubmitting true st)) = false).
  { apply (validateAllFields_refused_entry (set_isSubmitting true st) f Hin).
    rewrite (blank_entry_refused _ Hblank). discriminate. }
  destruct (handleSubmit_rejected_effects now st H) as (A & B & _). auto.
Qed.

Lemma valid_entry_is_filled (v : jsstring) :
  validateAllergyInput v = js "" -> truthy_str (trim v) = true.
Proof.
  intros H. apply validateAllergyInput_ok_iff in H.
  rewrite truthy_trim. tauto.
Qed.

(** When every field passes, [validateAllFields] answers true. *)
Lemma validateAllFields_accepts (st : Page) :
  allergyFields st <> [] ->
  validateName (fd_name (formData st)) = js "" ->
  validateEmail (fd_email (formData st)) = js "" ->
  (forall f, In f (allergyFields st) -> validateAllergyInput (value f) = js "") ->
  fst (validateAllFields st) = true.
Proof.
  intros Hne Hname Hemail Hall. unfold validateAllFields. simpl.
  fold (revalidated st).
  assert (E1 : existsb (fun field => truthy_str (error field))
                       (revalidated st) = false).
  { destruct (existsb _ (revalidated st)) eqn:E; [|reflexivity].
    apply existsb_exists in E. destruct E as (g & Hg & Ht).
    apply in_map_iff in Hg. destruct Hg as (f & <- & Hf).
    simpl in Ht. rewrite (Hall f Hf) in Ht. discriminate. }
  assert (E2 : existsb filledAndClean (revalidated st) = true).
  { destruct (allergyFields st) as [|f fs] eqn:Ef; [now elim Hne|].
    apply existsb_exists.
    exists (mkField (id f) (value f) (validateAllergyInput (value f))).
    split.
    - unfold revalidated. rewrite Ef. now left.
    - apply filledAndClean_revalidated.
      assert (Hf : validateAllergyInput (value f) = js "")
        by (apply Hall; now left).
      split; [now apply valid_entry_is_filled | exact Hf]. }
  rewrite E1, E2. simpl. rewrite Hname, Hemail. reflexivity.
Qed.

(** C2, as the code has it: a blank entry is an error of its own.  For
    every form that holds a blank entry, next to whatever valid entries,
    the submission is rejected: the blank entry is marked
    "This field is required", no profile is stored and the page does not
    move on.  The submission succeeds when the name, the email and every
    entry pass; the profile then lists the trimmed values of all entries,
    in order. *)
Theorem C2_blank_entry_is_an_error_amended :
  (forall (now : jsstring) (st : Page) (f : AllergyField),
      In f (allergyFields st) ->
      trim (value f) = [] ->
      userProfile (handleSubmit now st) = userProfile st /\
      pushed (handleSubmit now st) = pushed st /\
      In (mkField (id f) (value f) (js "This field is required"))
         (allergyFields (handleSubmit now st))) /\
  (forall (now : jsstring) (st : Page),
      allergyFields st <> [] ->
      validateName (fd_name (formData st)) = js "" ->
      validateEmail (fd_email (formData st)) = js "" ->
      (forall f, In f (allergyFields st) ->
         validateAllergyInput (value f) = js "" /\
         (error f = js "" \/ error f = validateAllergyInput (value f))) ->
      userProfile (handleSubmit now st) =
        Some (mkProfile (trim (fd_name (formData st)))
                        (trim (fd_email (formData st)))
                        (trim (fd_emergencyContact (formData st)))
                        (map (fun f => trim (value f)) (allergyFields st))
                        (Some now)) /\
      pushed (handleSubmit now st) = pushed st ++ [js "/menuInput"]).
Proof.
  split.
  - intros now st f Hin Hblank.
    assert (H : fst (validateAllFields (set_isSubmitting true st)) = false).
    { apply (validateAllFields_refused_entry (set_isSubmitting true st) f Hin).
      rewrite (blank_entry_refused _ Hblank). discriminate. }
    destruct (handleSubmit_rejected_effects now st H) as (A & B & _ & _ & C).
    repeat split; auto.
    rewrite C. unfold revalidated.
    rewrite <- (blank_entry_refused _ Hblank).
    apply in_map_iff. now exists f.
  - intros now st Hne Hname Hemail Hall.
    assert (V : fst (validateAllFields (set_isSubmitting true st)) = true).
    { apply validateAllFields_accepts; auto. intros f Hf. now apply Hall. }
    assert (F : filter filledAndClean (allergyFields st) = allergyFields st).
    { apply forallb_filter_id. apply forallb_forall. intros f Hf.
      destruct (Hall f Hf) as (Hv & He).
      unfold filledAndClean. rewrite (valid_entry_is_filled _ Hv).
      assert (E : error f = js "") by (destruct He; congruence).
      now rewrite E. }
    unfold handleSubmit.
    destruct (validateAllFields (set_isSubmitting true st)) as [isValid st2] eqn:Ev.
    simpl in V. subst isValid. simpl.
    rewrite F.
    assert (P : pushed st2 = pushed st).
    { change st2 with (snd (true, st2)). rewrite <- Ev. reflexivity. }
    now rewrite P.
Qed.

(** C2 as stated fails: with a valid name and email, the entry Peanuts
    and a blank second entry, the submission is rejected.  The blank entry
    is marked as required, no profile is stored and no route is pushed;
    name, email and the first entry carry no error. *)
Lemma C2_spare_blank_entry_counterexample :
  let st' := handleSubmit (js "2025-01-01T00:00:00.000Z") peanuts_and_blank in
  fst (validateAllFields peanuts_and_blank) = false /\
  userProfile st' = None /\
  pushed st' = [] /\
  map error (allergyFields st') = [js ""; js "This field is required"] /\
  formErrors st' = mkFormErrors (js "") (js "") (js "") (js "").
Proof. vm_compute. repeat split. Qed.

(** Without the blank entry the same form is accepted and stores the
    profile with the single allergy. *)
Example submit_peanuts_alone :
  let st := set_allergyFields [mkField (js "1") (js "Peanuts") (js "")]
                              peanuts_and_blank in
  userProfile (handleSubmit (js "2025-01-01T00:00:00.000Z") st) =
    Some (mkProfile (js "Al") (js "a@b.com") (js "") [js "Peanuts"]
                    (Some (js "2025-01-01T00:00:00.000Z"))) /\
  pushed (handleSubmit (js "2025-01-01T00:00:00.000Z") st) = [js "/menuInput"].
Proof. vm_compute. split; reflexivity. Qed.

(** The earlier form, components/AllergyForm.js, accepts the spare blank
    entry and stores the filled one alone. *)
Example AllergyFormJs_accepts_spare_blank :
  let st := AllergyFormJs.mkForm [js "Peanuts"; js ""] [js ""; js ""] None [] [] in
  AllergyFormJs.stored (AllergyFormJs.handleSubmit st) = Some [js "Peanuts"] /\
  AllergyFormJs.navigated (AllergyFormJs.handleSubmit st) = [js "/options"] /\
  AllergyFormJs.alerts (AllergyFormJs.handleSubmit st) = [].
Proof. vm_compute. repeat split. Qed.

(** C8: when no entry is both filled in and accepted by
    [validateAllergyInput], the submission is rejected with the error on
    [allergies]; the handler returns before it assembles a profile: the
    stored profile is as it was and no route is pushed. *)
Theorem C8_no_valid_entry_no_profile (now : jsstring) (st : Page) :
  (forall f, In f (allergyFields st) ->
     ~ (truthy_str (trim (value f)) = true /\
        validateAllergyInput (value f) = js "")) ->
  fst (validateAllFields (set_isSubmitting true st)) = false /\
  fe_allergies (formErrors (handleSubmit now st)) =
    js "At least one allergy must be provided" /\
  userProfile (handleSubmit now st) = userProfile st /\
  pushed (handleSubmit now st) = pushed st /\
  isSubmitting (handleSubmit now st) = false.
Proof.
  intros Hnone.
  assert (E : existsb filledAndClean (revalidated st) = false).
  { destruct (existsb filledAndClean (revalidated st)) eqn:E; [|reflexivity].
    apply existsb_exists in E. destruct E as (g & Hg & Hc).
    apply in_map_iff in Hg. destruct Hg as (f & <- & Hf).
    apply filledAndClean_revalidated in Hc. now elim (Hnone f Hf). }
  assert (V : fst (validateAllFields (set_isSubmitting true st)) = false).
  { unfold validateAllFields. simpl. fold (revalidated st). rewrite E.
    now rewrite andb_false_r. }
  split; [exact V|].
  destruct (handleSubmit_rejected_effects now st V) as (A & B & C & _).
  rewrite (handleSubmit_rejected now st V).
  repeat split; auto.
  unfold validateAllFields. simpl. fold (revalidated st). now rewrite E.
Qed.

End Submit.

Lemma C2_blank_entry_is_an_error_amended_witness :
  let st := AllergyFormPage.peanuts_and_blank in
  let st1 := AllergyFormPage.removeAllergyField (js "2") st in
  AllergyFormPage.userProfile (AllergyFormPage.handleSubmit (js "now") st) = None /\
  AllergyFormPage.userProfile (AllergyFormPage.handleSubmit (js "now") st1) =
    Some (AllergyFormPage.mkProfile (js "Al") (js "a@b.com") (js "")
            [js "Peanuts"] (Some (js "now"))).
Proof.
  intros st st1. destruct C2_blank_entry_is_an_error_amended as (A & B).
  split.
  - apply (A (js "now") st (AllergyFormPage.mkField (js "2") (js "") (js ""))).
    + right. left. reflexivity.
    + reflexivity.
  - apply (B (js "now") st1).
    + discriminate.
    + reflexivity.
    + reflexivity.
    + intros f [<-|[]]. split; [reflexivity | left; reflexivity].
Defined.

Lemma C8_no_valid_entry_no_profile_witness :
  let st := AllergyFormPage.mkPage
              (AllergyFormPage.mkFormData (js "Al") (js "a@b.com") (js ""))
              [AllergyFormPage.mkField (js "1") (js "") (js "");
               AllergyFormPage.mkField (js "2") (js "E621") (js "")]
              (AllergyFormPage.mkFormErrors (js "") (js "") (js "") (js ""))
              false None [] in
  AllergyFormPage.fe_allergies
    (AllergyFormPage.formErrors (AllergyFormPage.handleSubmit (js "now") st)) =
    js "At least one allergy must be provided" /\
  AllergyFormPage.userProfile (AllergyFormPage.handleSubmit (js "now") st) = None.
Proof.
  intros st.
  destruct (C8_no_valid_entry_no_profile (js "now") st) as (_ & A & B & _).
  - intros f [<-|[<-|[]]]; simpl; intros [H1 H2]; discriminate.
  - split; [exact A | exact B].
Defined.

(** ** Adding and removing entries *)

Section Entries.

Import AllergyFormPage.

Lemma filter_other_ids_length (i : jsstring) (fs : list AllergyField) :
  NoDup (map id fs) ->
  List.length fs <=
    S (List.length (filter (fun field => negb (str_eqb (id field) i)) fs)).
Proof.
  induction fs as [|f fs IH]; simpl; intros Hnd; [lia|].
  inversion Hnd as [|? ? Hnotin Hnd']; subst.
  destruct (str_eqb (id f) i) eqn:E; simpl.
  - apply str_eqb_eq in E.
    assert (Hall : filter (fun field => negb (str_eqb (id field) i)) fs = fs).
    { apply forallb_filter_id. apply forallb_forall. intros g Hg.
      apply negb_true_iff, str_eqb_neq. intros Eg.
      apply Hnotin. rewrite E, <- Eg. now apply in_map. }
    rewrite Hall. lia.
  - specialize (IH Hnd'). lia.
Qed.

Lemma filter_ids_NoDup (p : AllergyField -> bool) (fs : list AllergyField) :
  NoDup (map id fs) -> NoDup (map id (filter p fs)).
Proof.
  induction fs as [|f fs IH]; simpl; intros Hnd; [constructor|].
  inversion Hnd as [|? ? Hnotin Hnd']; subst.
  destruct (p f); simpl; auto.
  constructor; auto.
  intros Hin. apply Hnotin.
  apply in_map_iff in Hin. destruct Hin as (g & Eg & Hg).
  apply filter_In in Hg. rewrite <- Eg. apply in_map. tauto.
Qed.

Lemma removeAllergyField_ok (i : jsstring) (st : Page) :
  entries_ok st -> entries_ok (removeAllergyField i st).
Proof.
  intros [Hlen Hnd]. unfold removeAllergyField.
  destruct (Nat.ltb_spec 1 (List.length (allergyFields st))); [|now split].
  split; unfold ids; simpl.
  - pose proof (filter_other_ids_length i (allergyFields st) Hnd). lia.
  - now apply filter_ids_NoDup.
Qed.

Lemma addAllergyField_ok (newId : jsstring) (st : Page) :
  existsb (str_eqb newId) (ids st) = false ->
  entries_ok st -> entries_ok (addAllergyField newId st).
Proof.
  intros Hfresh [Hlen Hnd]. split; unfold ids; simpl.
  - rewrite length_app. simpl. lia.
  - rewrite map_app. simpl.
    apply NoDup_app; auto.
    + constructor; [intros [] | constructor].
    + intros a Ha [E|[]]. subst a.
      assert (existsb (str_eqb newId) (ids st) = true).
      { apply existsb_exists. exists newId.
        split; [exact Ha|apply str_eqb_refl]. }
      congruence.
Qed.

Lemma handleAllergyChange_ok (i v : jsstring) (st : Page) :
  entries_ok st -> entries_ok (handleAllergyChange i v st).
Proof.
  intros [Hlen Hnd].
  assert (E : ids (handleAllergyChange i v st) = ids st).
  { unfold ids. simpl. rewrite map_map. apply map_ext.
    intros f. now destruct (str_eqb (id f) i). }
  split; [|now rewrite E].
  simpl. now rewrite length_map.
Qed.

Lemma run_edits_ok (ops : list edit) :
  forall st, entries_ok st -> fresh_ids ops st = true ->
             entries_ok (run_edits ops st).
Proof.
  induction ops as [|op ops IH]; intros st Hok Hfresh; [exact Hok|].
  simpl in Hfresh. apply andb_true_iff in Hfresh. destruct Hfresh as [Hop Hrest].
  unfold run_edits. simpl. apply IH; [|exact Hrest].
  destruct op as [newId|i|i v]; simpl.
  - apply addAllergyField_ok; [now apply negb_true_iff | exact Hok].
  - now apply removeAllergyField_ok.
  - now apply handleAllergyChange_ok.
Qed.

Lemma js_injective (a b : string) : js a = js b -> a = b.
Proof.
  unfold js. intros H.
  rewrite <- (string_of_list_ascii_of_string a),
          <- (string_of_list_ascii_of_string b).
  f_equal. revert H.
  generalize (list_ascii_of_string a) (list_ascii_of_string b).
  induction l as [|x l IH]; intros [|y l']; simpl; try discriminate; auto.
  intros H. injection H as Hx Hl. f_equal; auto.
  rewrite <- (ascii_N_embedding x), <- (ascii_N_embedding y). now rewrite Hx.
Qed.

Lemma index_id_injective (m n : nat) : index_id m = index_id n -> m = n.
Proof.
  unfold index_id. intros H. apply js_injective in H.
  assert (E : Nat.to_uint (m + 1) = Nat.to_uint (n + 1)).
  { assert (Some (Nat.to_uint (m + 1)) = Some (Nat.to_uint (n + 1))) as E'.
    { rewrite <- !NilEmpty.usu. now rewrite H. }
    now injection E'. }
  apply (f_equal Nat.of_uint) in E. rewrite !DecimalNat.Unsigned.of_to in E.
  lia.
Qed.

Lemma fields_from_ids (l : list jsstring) :
  forall k, map id (fields_from k l) = map index_id (seq k (List.length l)).
Proof.
  induction l as [|a l IH]; intros k; simpl; [reflexivity|].
  now rewrite IH.
Qed.

(** The form opens with at least one entry and distinct identifiers. *)
Lemma initialPage_ok (profile : option UserProfile) :
  entries_ok (initialPage profile).
Proof.
  assert (D : entries_ok
                (mkPage (formData (initialPage profile))
                        [mkField (js "1") (js "") (js "")]
                        (formErrors (initialPage profile)) false profile [])).
  { split; simpl; [lia|]. constructor; [intros [] | constructor]. }
  unfold initialPage, initialFields in *.
  destruct profile as [p|]; [|exact D].
  destruct (up_allergies p) as [|a l] eqn:E; [exact D|].
  split; unfold ids; simpl.
  - lia.
  - change (NoDup (map id (fields_from 0 (a :: l)))).
    rewrite fields_from_ids.
    apply Injective_map_NoDup; [|apply seq_NoDup].
    intros m n. apply index_id_injective.
Qed.

Lemma fields_from_clean (l : list jsstring) :
  forall k f, In f (fields_from k l) -> error f = js "".
Proof.
  induction l as [|a l IH]; simpl; intros k f H; [destruct H|].
  destruct H as [<-|H]; [reflexivity | now apply (IH (S k))].
Qed.

(** Every state the edits reach from the opening form keeps the errors in
    step with the values, as the second part of C2 asks. *)
Lemma run_edits_errors_in_step (ops : list edit) :
  forall st, errors_in_step st -> errors_in_step (run_edits ops st).
Proof.
  induction ops as [|op ops IH]; intros st Hst; [exact Hst|].
  unfold run_edits. simpl. apply IH.
  intros f Hf. destruct op as [newId|i|i v]; simpl in Hf.
  - apply in_app_iff in Hf. destruct Hf as [Hf|[<-|[]]]; [now apply Hst|].
    now left.
  - unfold removeAllergyField in Hf.
    destruct (1 <? List.length (allergyFields st))%nat; [|now apply Hst].
    simpl in Hf. apply filter_In in Hf. now apply Hst.
  - apply in_map_iff in Hf. destruct Hf as (g & Eg & Hg).
    destruct (str_eqb (id g) i); subst f; [now right | now apply Hst].
Qed.

Lemma initialPage_errors_in_step (profile : option UserProfile) :
  errors_in_step (initialPage profile).
Proof.
  intros f Hf. left. unfold initialPage, initialFields in Hf. simpl in Hf.
  destruct profile as [p|]; [|destruct Hf as [<-|[]]; reflexivity].
  destruct (up_allergies p) as [|a l];
    [destruct Hf as [<-|[]]; reflexivity|].
  now apply (fields_from_clean (a :: l) 0).
Qed.

Lemma remove_at_length {A : Type} (index : nat) (l : list A) :
  List.length l <= S (List.length (AllergyFormJs.remove_at index l)).
Proof.
  revert index. induction l as [|x l IH]; intros [|k]; simpl; try lia.
  specialize (IH k). lia.
Qed.

Lemma AllergyFormJs_apply_edit_ok (op : AllergyFormJs.edit)
    (st : AllergyFormJs.Form) :
  1 <= List.length (AllergyFormJs.allergies st) ->
  1 <= List.length (AllergyFormJs.allergies (AllergyFormJs.apply_edit op st)).
Proof.
  intros Hlen. destruct op as [|index]; simpl.
  - rewrite length_app. simpl. lia.
  - unfold AllergyFormJs.removeAllergyField.
    destruct (Nat.ltb_spec 1 (List.length (AllergyFormJs.allergies st)));
      [|exact Hlen].
    simpl. pose proof (remove_at_length index (AllergyFormJs.allergies st)). lia.
Qed.

(** C7: on a list of exactly one entry [removeAllergyField] changes
    nothing, whatever identifier (or index) it is given; and every sequence
    of additions, removals and changes leaves at least one entry: in the
    page, from any list of distinct identifiers and so from the form as it
    opens (each new identifier comes from [crypto.randomUUID()] and is new
    to the list), and in the earlier form of components/AllergyForm.js,
    which removes by index. *)
Theorem C7_remove_keeps_one_entry :
  (forall (i : jsstring) (st : Page),
      List.length (allergyFields st) = 1 -> removeAllergyField i st = st) /\
  (forall (ops : list edit) (st : Page),
      1 <= List.length (allergyFields st) ->
      NoDup (ids st) ->
      fresh_ids ops st = true ->
      1 <= List.length (allergyFields (run_edits ops st))) /\
  (forall (profile : option UserProfile) (ops : list edit),
      fresh_ids ops (initialPage profile) = true ->
      1 <= List.length (allergyFields (run_edits ops (initialPage profile)))) /\
  (forall (index : nat) (st : AllergyFormJs.Form),
      List.length (AllergyFormJs.allergies st) = 1 ->
      AllergyFormJs.removeAllergyField index st = st) /\
  (forall (ops : list AllergyFormJs.edit) (st : AllergyFormJs.Form),
      1 <= List.length (AllergyFormJs.allergies st) ->
      1 <= List.length
             (AllergyFormJs.allergies
                (fold_left (fun s op => AllergyFormJs.apply_edit op s) ops st))).
Proof.
  repeat split.
  - intros i st H. unfold removeAllergyField. now rewrite H.
  - intros ops st Hlen Hnd Hfresh.
    now destruct (run_edits_ok ops (conj Hlen Hnd) Hfresh).
  - intros profile ops Hfresh.
    now destruct (run_edits_ok ops (initialPage_ok profile) Hfresh).
  - intros index st H. unfold AllergyFormJs.removeAllergyField. now rewrite H.
  - intros ops. induction ops as [|op ops IH]; intros st Hlen; [exact Hlen|].
    simpl. apply IH. now apply AllergyFormJs_apply_edit_ok.
Qed.

End Entries.

Lemma C7_remove_keeps_one_entry_witness :
  let st := AllergyFormPage.initialPage None in
  AllergyFormPage.removeAllergyField (js "1") st = st /\
  1 <= List.length
         (AllergyFormPage.allergyFields
            (AllergyFormPage.run_edits
               [AllergyFormPage.Add (js "u1"); AllergyFormPage.Remove (js "1");
                AllergyFormPage.Remove (js "u1");
                AllergyFormPage.Change (js "u1") (js "Soy")] st)) /\
  AllergyFormJs.removeAllergyField 0
    (AllergyFormJs.mkForm [js ""] [] None [] []) =
    AllergyFormJs.mkForm [js ""] [] None [] [] /\
  1 <= List.length
         (AllergyFormJs.allergies
            (fold_left (fun s op => AllergyFormJs.apply_edit op s)
               [AllergyFormJs.Add; AllergyFormJs.Remove 0; AllergyFormJs.Remove 0]
               (AllergyFormJs.mkForm [js ""] [] None [] []))).
Proof.
  intros st. destruct C7_remove_keeps_one_entry as (A & B & _ & C & D).
  split; [|split; [|split]].
  - apply A. reflexivity.
  - apply B.
    + simpl. lia.
    + simpl. constructor; [intros [] | constructor].
    + reflexivity.
  - apply C. reflexivity.
  - apply D. simpl. lia.
Defined.

(** ** The lookup function *)

Section Lookup.

Import Ai.

Local Arguments js : simpl never.

Lemma required_missing {S : Type} (x : option jsstring) (message : jsstring)
    (s : S) :
  falsy_opt x = true ->
  required x message s = (inl (ErrorObj (js "Error") message), s).
Proof.
  destruct x as [[|c v]|]; simpl; intros H; try discriminate; reflexivity.
Qed.

Lemma required_present {S : Type} (x : option jsstring) (message : jsstring)
    (s : S) :
  falsy_opt x = false ->
  exists v, x = Some v /\ required x message s = (inr v, s).
Proof.
  destruct x as [[|c v]|]; simpl; intros H; try discriminate.
  now exists (c :: v).
Qed.

Lemma complete_sends_one (service : Service) (opts : ClientOptions)
    (modelName : option jsstring) (restaurantName : jsstring)
    (allergies : option (list jsstring)) (sent : list Request) :
  snd (complete service opts modelName restaurantName allergies sent) =
    sent ++ [request_of opts modelName restaurantName allergies].
Proof.
  unfold complete, create, bind, emit, lift, request_of. simpl.
  destruct (service _) as [e|[|c cs]]; reflexivity.
Qed.

Lemma complete_result (service : Service) (opts : ClientOptions)
    (modelName : option jsstring) (restaurantName : jsstring)
    (allergies : option (list jsstring)) (sent : list Request) :
  fst (complete service opts modelName restaurantName allergies sent) =
    match service (request_of opts modelName restaurantName allergies) with
    | inl e => inl e
    | inr [] => inl EngineTypeError
    | inr (responseText :: _) => inr responseText
    end.
Proof.
  unfold complete, create, bind, emit, lift, request_of. simpl.
  destruct (service _) as [e|[|c cs]]; reflexivity.
Qed.

Lemma AiFunctions_missing_config
    (env : Env) (service : Service) (restaurantName : jsstring)
    (allergies : option (list jsstring)) (sent : list Request) :
  falsy_opt (or_else (AZURE_OPENAI_API_KEY env)
                     (NEXT_PUBLIC_AZURE_OPENAI_API_KEY env)) = true \/
  falsy_opt (or_else (AZURE_OPENAI_ENDPOINT env)
                     (NEXT_PUBLIC_AZURE_OPENAI_ENDPOINT env)) = true ->
  exists message,
    AiFunctions.getSafeFoodsByRestaurantName
      env service restaurantName allergies sent =
      (inl (ErrorObj (js "Error") message), sent) /\
    (message = js "Missing required environment variable: AZURE_OPENAI_API_KEY" \/
     message = js "Missing required environment variable: AZURE_OPENAI_ENDPOINT").
Proof.
  unfold AiFunctions.getSafeFoodsByRestaurantName.
  set (key := or_else (AZURE_OPENAI_API_KEY env) _).
  set (ep := or_else (AZURE_OPENAI_ENDPOINT env) _).
  intros H. unfold bind at 1.
  destruct (falsy_opt key) eqn:K.
  - rewrite (required_missing _ _ _ K). eauto.
  - destruct (required_present key
        (js "Missing required environment variable: AZURE_OPENAI_API_KEY")
        sent K) as (k & _ & ->).
    destruct H as [H|H]; [discriminate|].
    unfold bind at 1. rewrite (required_missing _ _ _ H). eauto.
Qed.

Lemma AiFunctionsEnvOnly_missing_config
    (env : Env) (service : Service) (restaurantName : jsstring)
    (allergies : option (list jsstring)) (sent : list Request) :
  falsy_opt (AZURE_OPENAI_API_KEY env) = true \/
  falsy_opt (AZURE_OPENAI_ENDPOINT env) = true ->
  exists message,
    AiFunctionsEnvOnly.getSafeFoodsByRestaurantName
      env service restaurantName allergies sent =
      (inl (ErrorObj (js "Error") message), sent) /\
    (message = js "AZURE_OPENAI_API_KEY environment variable is required" \/
     message = js "AZURE_OPENAI_ENDPOINT environment variable is required").
Proof.
  unfold AiFunctionsEnvOnly.getSafeFoodsByRestaurantName.
  intros H. unfold bind at 1.
  destruct (falsy_opt (AZURE_OPENAI_API_KEY env)) eqn:K.
  - rewrite (required_missing _ _ _ K). eauto.
  - destruct (required_present (AZURE_OPENAI_API_KEY env)
        (js "AZURE_OPENAI_API_KEY environment variable is required")
        sent K) as (k & _ & ->).
    destruct H as [H|H]; [discriminate|].
    unfold bind at 1. rewrite (required_missing _ _ _ H). eauto.
Qed.

(** C3: when the API key or the endpoint is missing (undefined or empty),
    both versions of getSafeFoodsByRestaurantName throw an Error whose
    message names the missing variable, and the log of requests is as it
    was: nothing has been sent.  (The code has no error kinds; this Error
    is what the specification calls MISSING_CONFIG.) *)
Theorem C3_missing_config_fails_before_any_call
    (env : Env) (service : Service) (restaurantName : jsstring)
    (allergies : option (list jsstring)) (sent : list Request) :
  (falsy_opt (or_else (AZURE_OPENAI_API_KEY env)
                      (NEXT_PUBLIC_AZURE_OPENAI_API_KEY env)) = true \/
   falsy_opt (or_else (AZURE_OPENAI_ENDPOINT env)
                      (NEXT_PUBLIC_AZURE_OPENAI_ENDPOINT env)) = true ->
   exists message,
     AiFunctions.getSafeFoodsByRestaurantName
       env service restaurantName allergies sent =
       (inl (ErrorObj (js "Error") message), sent) /\
     (message = js "Missing required environment variable: AZURE_OPENAI_API_KEY" \/
      message = js "Missing required environment variable: AZURE_OPENAI_ENDPOINT")) /\
  (falsy_opt (AZURE_OPENAI_API_KEY env) = true \/
   falsy_opt (AZURE_OPENAI_ENDPOINT env) = true ->
   exists message,
     AiFunctionsEnvOnly.getSafeFoodsByRestaurantName
       env service restaurantName allergies sent =
       (inl (ErrorObj (js "Error") message), sent) /\
     (message = js "AZURE_OPENAI_API_KEY environment variable is required" \/
      message = js "AZURE_OPENAI_ENDPOINT environment variable is required")).
Proof.
  split.
  - apply AiFunctions_missing_config.
  - apply AiFunctionsEnvOnly_missing_config.
Qed.

(** With both values present each version sends exactly the request of
    [complete]. *)
Lemma getSafeFoods_sends (env : Env) (service : Service)
    (restaurantName : jsstring) (allergies : option (list jsstring)) :
  falsy_opt (or_else (AZURE_OPENAI_API_KEY env)
                     (NEXT_PUBLIC_AZURE_OPENAI_API_KEY env)) = false ->
  falsy_opt (or_else (AZURE_OPENAI_ENDPOINT env)
                     (NEXT_PUBLIC_AZURE_OPENAI_ENDPOINT env)) = false ->
  exists opts modelName,
    AiFunctions.getSafeFoodsByRestaurantName
      env service restaurantName allergies [] =
      complete service opts modelName restaurantName allergies [].
Proof.
  intros K E. unfold AiFunctions.getSafeFoodsByRestaurantName.
  set (key := or_else (AZURE_OPENAI_API_KEY env) _) in *.
  set (ep := or_else (AZURE_OPENAI_ENDPOINT env) _) in *.
  destruct (required_present key
      (js "Missing required environment variable: AZURE_OPENAI_API_KEY")
      (@nil Request) K) as (k & _ & Hk).
  destruct (required_present ep
      (js "Missing required environment variable: AZURE_OPENAI_ENDPOINT")
      (@nil Request) E) as (e & _ & He).
  unfold bind at 1. rewrite Hk. unfold bind at 1. rewrite He.
  eauto.
Qed.

Lemma getSafeFoods_log (env : Env) (service : Service)
    (restaurantName : jsstring) (allergies : option (list jsstring)) :
  snd (AiFunctions.getSafeFoodsByRestaurantName
         env service restaurantName allergies []) = [] \/
  exists opts modelName,
    AiFunctions.getSafeFoodsByRestaurantName
      env service restaurantName allergies [] =
      complete service opts modelName restaurantName allergies [].
Proof.
  destruct (falsy_opt (or_else (AZURE_OPENAI_API_KEY env)
                     (NEXT_PUBLIC_AZURE_OPENAI_API_KEY env))) eqn:K.
  { left.
    destruct (AiFunctions_missing_config
                env service restaurantName allergies [] (or_introl K))
      as (m & -> & _). reflexivity. }
  destruct (falsy_opt (or_else (AZURE_OPENAI_ENDPOINT env)
                     (NEXT_PUBLIC_AZURE_OPENAI_ENDPOINT env))) eqn:E.
  { left.
    destruct (AiFunctions_missing_config
                env service restaurantName allergies [] (or_intror E))
      as (m & -> & _). reflexivity. }
  right. now apply getSafeFoods_sends.
Qed.

Lemma AiFunctionsEnvOnly_log (env : Env) (service : Service)
    (restaurantName : jsstring) (allergies : option (list jsstring)) :
  (falsy_opt (AZURE_OPENAI_API_KEY env) = true \/
   falsy_opt (AZURE_OPENAI_ENDPOINT env) = true) /\
  snd (AiFunctionsEnvOnly.getSafeFoodsByRestaurantName
         env service restaurantName allergies []) = [] \/
  falsy_opt (AZURE_OPENAI_API_KEY env) = false /\
  falsy_opt (AZURE_OPENAI_ENDPOINT env) = false /\
  exists opts modelName,
    AiFunctionsEnvOnly.getSafeFoodsByRestaurantName
      env service restaurantName allergies [] =
      complete service opts modelName restaurantName allergies [].
Proof.
  destruct (falsy_opt (AZURE_OPENAI_API_KEY env)) eqn:K.
  { left. split; [now left|].
    destruct (AiFunctionsEnvOnly_missing_config
                env service restaurantName allergies [] (or_introl K))
      as (m & -> & _). reflexivity. }
  destruct (falsy_opt (AZURE_OPENAI_ENDPOINT env)) eqn:E.
  { left. split; [now right|].
    destruct (AiFunctionsEnvOnly_missing_config
                env service restaurantName allergies [] (or_intror E))
      as (m & -> & _). reflexivity. }
  right. repeat split.
  unfold AiFunctionsEnvOnly.getSafeFoodsByRestaurantName.
  destruct (required_present (AZURE_OPENAI_API_KEY env)
      (js "AZURE_OPENAI_API_KEY environment variable is required")
      (@nil Request) K) as (k & _ & Hk).
  destruct (required_present (AZURE_OPENAI_ENDPOINT env)
      (js "AZURE_OPENAI_ENDPOINT environment variable is required")
      (@nil Request) E) as (e & _ & He).
  unfold bind at 1. rewrite Hk. unfold bind at 1. rewrite He.
  eauto.
Qed.

Lemma userPrompt_shape :
  exists tail, forall text restaurantName,
    userPrompt text restaurantName =
      js "I have allergies to: " ++ text ++
      js ". I am planning to eat at " ++ restaurantName ++ tail.
Proof. eexists. intros. unfold userPrompt. reflexivity. Qed.

Lemma allergiesList_spec (allergies : option (list jsstring)) :
  allergiesList allergies =
    match allergies with
    | Some (a :: l) => join (js ", ") (a :: l)
    | _ => js "no specific allergies mentioned"
    end.
Proof. destruct allergies as [[|a l]|]; reflexivity. Qed.

(** C5: every request the lookup sends carries, as its user message, the
    prompt with the allergy text in it; with the API key and the endpoint
    set, one such request is sent, by either version.  The allergy text is
    the literal "no specific allergies mentioned" when the list is empty
    (or absent); it is the element itself when the list has one element,
    and for a longer list it is the first element, a comma and a space,
    and the text of the rest: the elements in order with a comma and a
    space between each two.  For the list of shellfish alone the text
    reads shellfish. *)
Theorem C5_allergy_text_in_prompt
    (env : Env) (service : Service) (restaurantName : jsstring)
    (allergies : option (list jsstring)) :
  exists tail,
    let prompt text :=
      js "I have allergies to: " ++ text ++
      js ". I am planning to eat at " ++ restaurantName ++ tail in
    (forall req,
        In req (snd (AiFunctions.getSafeFoodsByRestaurantName
                       env service restaurantName allergies [])) \/
        In req (snd (AiFunctionsEnvOnly.getSafeFoodsByRestaurantName
                       env service restaurantName allergies [])) ->
        messages req = [ mkMessage (js "system") systemPrompt;
                         mkMessage (js "user")
                                   (prompt (allergiesList allergies)) ]) /\
    (falsy_opt (AZURE_OPENAI_API_KEY env) = false ->
     falsy_opt (AZURE_OPENAI_ENDPOINT env) = false ->
     exists req,
       snd (AiFunctionsEnvOnly.getSafeFoodsByRestaurantName
              env service restaurantName allergies []) = [req]) /\
    (falsy_opt (or_else (AZURE_OPENAI_API_KEY env)
                        (NEXT_PUBLIC_AZURE_OPENAI_API_KEY env)) = false ->
     falsy_opt (or_else (AZURE_OPENAI_ENDPOINT env)
                        (NEXT_PUBLIC_AZURE_OPENAI_ENDPOINT env)) = false ->
     exists req,
       snd (AiFunctions.getSafeFoodsByRestaurantName
              env service restaurantName allergies []) = [req]) /\
    allergiesList None = js "no specific allergies mentioned" /\
    allergiesList (Some []) = js "no specific allergies mentioned" /\
    (forall a, allergiesList (Some [a]) = a) /\
    (forall a b l,
        allergiesList (Some (a :: b :: l)) =
          a ++ js ", " ++ allergiesList (Some (b :: l))) /\
    allergiesList (Some [js "shellfish"]) = js "shellfish".
Proof.
  destruct userPrompt_shape as (tail & Htail). exists tail.
  intros prompt.
  assert (Hreq : messages (request_of_any allergies restaurantName) =
                 [ mkMessage (js "system") systemPrompt;
                   mkMessage (js "user") (prompt (allergiesList allergies)) ]).
  { unfold request_of_any, request_of. simpl.
    now rewrite Htail. }
  split; [|split; [|split; [|repeat split]]].
  - intros req [H|H].
    + destruct (getSafeFoods_log env service restaurantName allergies)
        as [E|(opts & m & E)]; rewrite E in H.
      * destruct H.
      * rewrite complete_sends_one in H. destruct H as [<-|[]]. exact Hreq.
    + destruct (AiFunctionsEnvOnly_log env service restaurantName allergies)
        as [(_ & E)|(_ & _ & opts & m & E)]; rewrite E in H.
      * destruct H.
      * rewrite complete_sends_one in H. destruct H as [<-|[]]. exact Hreq.
  - intros K E.
    destruct (AiFunctionsEnvOnly_log env service restaurantName allergies)
      as [([K'|E'] & _)|(_ & _ & opts & m & ->)]; try congruence.
    rewrite complete_sends_one. eexists. reflexivity.
  - intros K E.
    destruct (getSafeFoods_sends env service restaurantName allergies K E)
      as (opts & m & ->).
    rewrite complete_sends_one. eexists. reflexivity.
Qed.

End Lookup.

Lemma C3_missing_config_fails_before_any_call_witness :
  let env := Ai.mkEnv None None (Some (js "https://example.test/"))
                      None None None None None None None in
  exists message,
    AiFunctions.getSafeFoodsByRestaurantName
      env (fun _ => inr [Some (js "{}")]) (js "Olive Garden")
      (Some [js "shellfish"]) [] =
      (inl (ErrorObj (js "Error") message), []).
Proof.
  intros env.
  destruct (proj1 (C3_missing_config_fails_before_any_call
                     env (fun _ => inr [Some (js "{}")]) (js "Olive Garden")
                     (Some [js "shellfish"]) []))
    as (message & H & _).
  - left. reflexivity.
  - exists message. exact H.
Defined.

Lemma C5_allergy_text_in_prompt_witness :
  let env := Ai.mkEnv (Some (js "key")) None (Some (js "https://example.test/"))
                      None None None None None None None in
  exists req tail,
    snd (AiFunctionsEnvOnly.getSafeFoodsByRestaurantName
           env (fun _ => inr [None]) (js "Olive Garden")
           (Some [js "peanuts"; js "tree nuts"; js "shellfish"]) []) = [req] /\
    Ai.messages req =
      [ Ai.mkMessage (js "system") Ai.systemPrompt;
        Ai.mkMessage (js "user")
          (js "I have allergies to: " ++ js "peanuts, tree nuts, shellfish" ++
           js ". I am planning to eat at " ++ js "Olive Garden" ++ tail) ].
Proof.
  intros env.
  destruct (C5_allergy_text_in_prompt env (fun _ => inr [None])
              (js "Olive Garden")
              (Some [js "peanuts"; js "tree nuts"; js "shellfish"]))
    as (tail & Hall & Hone & _ & _ & _ & H1 & H2 & _).
  destruct (Hone eq_refl eq_refl) as (req & Hreq).
  exists req, tail. split; [exact Hreq|].
  assert (Hin : In req
                  (snd (AiFunctionsEnvOnly.getSafeFoodsByRestaurantName
                          env (fun _ => inr [None]) (js "Olive Garden")
                          (Some [js "peanuts"; js "tree nuts"; js "shellfish"])
                          []))) by (rewrite Hreq; now left).
  rewrite (Hall req (or_intror Hin)).
  rewrite (H2 (js "peanuts") (js "tree nuts") [js "shellfish"]).
  rewrite (H2 (js "tree nuts") (js "shellfish") []).
  rewrite (H1 (js "shellfish")).
  reflexivity.
Defined.

(** ** The lookup page *)

Section Page.

Import Ai React MenuInput.

Local Arguments js : simpl never.
Local Arguments JSON_parse : simpl never.

Lemma categoryFoods_tagged (category : jsstring) (foods : list value) :
  Forall (fun food => food <> VNull) foods ->
  categoryFoods category foods = inr (tagged category foods).
Proof.
  induction 1 as [|food rest Hfood _ IH]; [reflexivity|].
  unfold tagged in *. simpl. rewrite IH.
  unfold safetyClassification.
  destruct food; try reflexivity. now elim Hfood.
Qed.

Lemma sections_of_tagged (foods : list value) :
  Forall (fun food => food <> VNull) foods ->
  forall cats,
  sections_of cats foods =
    inr (flat_map (fun category =>
                     match tagged category foods with
                     | [] => []
                     | f :: fs => [mkSection category (f :: fs)]
                     end) cats).
Proof.
  intros Hfoods. induction cats as [|c cats IH]; [reflexivity|].
  simpl. rewrite (categoryFoods_tagged c Hfoods), IH.
  destruct (tagged c foods); reflexivity.
Qed.

(** A parsed answer is stored and shown as it is. *)
Lemma validateAndProceed_parsed (env : Env) (service : Service)
    (userAllergies : list jsstring) (st : State) (text : jsstring)
    (sent : list Request) (v : value) :
  selectedOption st = js "text" ->
  truthy_str (trim (restaurantName st)) = true ->
  AiFunctions.getSafeFoodsByRestaurantName env service
    (trim (restaurantName st)) (Some userAllergies) [] = (inr (Some text), sent) ->
  truthy_str text = true ->
  JSON_parse text = inr v ->
  validateAndProceed env service userAllergies st =
    (mkState (selectedOption st) (restaurantName st) (foodName st)
             (selectedFile st) false (js "") (Some v) true, sent).
Proof.
  intros Hopt Hname Hcall Htext Hparse.
  assert (E : str_eqb (selectedOption st) (js "text") = true)
    by (rewrite Hopt; apply str_eqb_refl).
  unfold validateAndProceed.
  rewrite E, Hname, Hcall, Htext, Hparse. reflexivity.
Qed.

(** C1, as the code has it: an answer that parses is never refused.
    For every answer that parses, whatever its shape, the page reports no
    error, stores the value and shows it.  When its foods are an array of
    objects, the render draws the sections of the three tags that have
    items, each listing in order the foods that carry its tag, provided no
    child drawn is an object (the restaurant name, the restaurant
    information, and the name, the reasoning and the questions of the
    foods in the open sections); if one is, React refuses it and the
    render fails.  A food with any other classification is listed under no
    heading, and no fourth heading is drawn. *)
Theorem C1_unknown_tag_is_dropped_amended
    (env : Env) (service : Service) (userAllergies : list jsstring)
    (st : State) (text : jsstring) (sent : list Request) (v : value) :
  selectedOption st = js "text" ->
  truthy_str (trim (restaurantName st)) = true ->
  AiFunctions.getSafeFoodsByRestaurantName env service
    (trim (restaurantName st)) (Some userAllergies) [] = (inr (Some text), sent) ->
  truthy_str text = true ->
  JSON_parse text = inr v ->
  let st' := fst (validateAndProceed env service userAllergies st) in
  (error st' = js "" /\
   menuData st' = Some v /\
   showResults st' = true /\
   isProcessing st' = false) /\
  (forall (foods : list value) (expandedCategories : Expanded),
     getProp v (js "foods") = inr (Some (VArray foods)) ->
     Forall (fun food => food <> VNull) foods ->
     resultsDrawn expandedCategories st' =
       Some (if child_ok v (js "restaurantName") &&
                child_ok v (js "restaurantInfo") &&
                forallb (section_ok expandedCategories) (tagged_sections foods)
             then inr (tagged_sections foods)
             else inl ObjectAsChild) /\
     (forall sec, In sec (tagged_sections foods) ->
        In (heading sec) categories /\
        items sec = tagged (heading sec) foods) /\
     (forall food,
        (forall category, In category categories ->
           strictEqStr (safetyClassification food) category = false) ->
        forall sec, In sec (tagged_sections foods) -> ~ In food (items sec))).
Proof.
  intros Hopt Hname Hcall Htext Hparse st'.
  assert (Hst : st' = mkState (selectedOption st) (restaurantName st)
                        (foodName st) (selectedFile st) false (js "")
                        (Some v) true).
  { subst st'.
    now rewrite (validateAndProceed_parsed env service userAllergies st
                   Hopt Hname Hcall Htext Hparse). }
  rewrite Hst. split; [repeat split|].
  intros foods expandedCategories Hfoods Hnonnull.
  assert (Hsec : forall sec, In sec (tagged_sections foods) ->
                   In (heading sec) categories /\
                   items sec = tagged (heading sec) foods).
  { intros sec Hin. unfold tagged_sections in Hin.
    apply in_flat_map in Hin. destruct Hin as (c & Hc & Hin).
    destruct (tagged c foods) as [|f fs] eqn:E; [destruct Hin|].
    destruct Hin as [<-|[]]. simpl. now rewrite E. }
  split; [|split; [exact Hsec|]].
  - unfold resultsDrawn, resultsPanel.
    cbn [selectedOption showResults menuData]. rewrite Hopt.
    change (truthy_str (js "text")) with true. cbv iota.
    assert (T : truthy v = true).
    { destruct v; simpl in Hfoods; try discriminate. reflexivity. }
    rewrite T. unfold categorySections. rewrite Hfoods.
    now rewrite (sections_of_tagged Hnonnull).
  - intros food Hnone sec Hin Hfood.
    destruct (Hsec sec Hin) as [Hc Hitems].
    rewrite Hitems in Hfood. unfold tagged in Hfood.
    apply filter_In in Hfood. destruct Hfood as [_ Hfood].
    rewrite (Hnone _ Hc) in Hfood. discriminate.
Qed.

(** C6, as the code has it.  An empty or null answer is replaced by the
    fallback text, so the page stores a result with an empty restaurant
    name and no foods and shows it, with no section and no error.  An
    answer that is not well-formed JSON sets the parse-failure message,
    stores nothing and shows no result.  Well-formed JSON is not checked
    against the declared shape: whatever it parses to, no error is raised
    and the parsed value is stored as the result and shown. *)
Theorem C6_fallback_and_parse_failure_amended
    (env : Env) (service : Service) (userAllergies : list jsstring)
    (st : State) (aiResponse : option jsstring) (sent : list Request) :
  selectedOption st = js "text" ->
  truthy_str (trim (restaurantName st)) = true ->
  AiFunctions.getSafeFoodsByRestaurantName env service
    (trim (restaurantName st)) (Some userAllergies) [] = (inr aiResponse, sent) ->
  let st' := fst (validateAndProceed env service userAllergies st) in
  (aiResponse = None \/ aiResponse = Some [] ->
   error st' = js "" /\
   menuData st' =
     Some (VObject [(js "restaurantName", VString []); (js "foods", VArray [])]) /\
   showResults st' = true /\
   (forall expandedCategories,
      resultsDrawn expandedCategories st' = Some (inr [])) /\
   isProcessing st' = false) /\
  (forall text e,
     aiResponse = Some text -> truthy_str text = true ->
     JSON_parse text = inl e ->
     error st' =
       js "Unable to parse response from AI service. Please try again." /\
     menuData st' = None /\
     showResults st' = false /\
     (forall expandedCategories,
        resultsDrawn expandedCategories st' = None) /\
     isProcessing st' = false) /\
  (forall text v,
     aiResponse = Some text -> truthy_str text = true ->
     JSON_parse text = inr v ->
     error st' = js "" /\
     menuData st' = Some v /\
     showResults st' = true /\
     isProcessing st' = false).
Proof.
  intros Hopt Hname Hcall st'. subst st'.
  assert (E : str_eqb (selectedOption st) (js "text") = true)
    by (rewrite Hopt; apply str_eqb_refl).
  unfold validateAndProceed.
  rewrite E, Hname, Hcall. simpl negb. cbv iota.
  split; [|split].
  - intros [->| ->]; cbn [truthy_str];
      change (JSON_parse fallbackResponse) with
        (@inr exn value
           (VObject [(js "restaurantName", VString []); (js "foods", VArray [])]));
      cbv iota; repeat split;
      intros expandedCategories; unfold resultsDrawn;
      cbn [fst selectedOption setIsProcessing setShowResults setMenuData
           setError]; rewrite Hopt; reflexivity.
  - intros text e -> Htext Hparse. rewrite Htext, Hparse. repeat split.
    intros expandedCategories. unfold resultsDrawn.
    cbn [fst selectedOption setIsProcessing setShowResults setMenuData
         setError]. rewrite Hopt. reflexivity.
  - intros text v -> Htext Hparse. rewrite Htext, Hparse. repeat split.
Qed.

End Page.

Lemma C1_unknown_tag_is_dropped_amended_witness :
  let st' := fst (MenuInput.validateAndProceed Samples.env
                    (Samples.answering (Some Samples.menu_with_unknown_tag))
                    [js "shellfish"] Samples.asking) in
  MenuInput.error st' = js "" /\
  MenuInput.showResults st' = true /\
  MenuInput.resultsDrawn MenuInput.initiallyExpanded st' =
    Some (inr (MenuInput.tagged_sections
                 [Samples.minestrone; Samples.shrimp_scampi])).
Proof.
  intros st'.
  destruct (C1_unknown_tag_is_dropped_amended Samples.env
           (Samples.answering (Some Samples.menu_with_unknown_tag))
           [js "shellfish"] Samples.asking
           (text := Samples.menu_with_unknown_tag)
           (sent := snd (AiFunctions.getSafeFoodsByRestaurantName Samples.env
                      (Samples.answering (Some Samples.menu_with_unknown_tag))
                      (js "Olive Garden") (Some [js "shellfish"]) []))
           (v := VObject
                   [ (js "restaurantName", VString (js "Olive Garden"));
                     (js "restaurantInfo", VString (js "Shellfish is served."));
                     (js "foods",
                      VArray [Samples.minestrone; Samples.shrimp_scampi]) ]))
    as ((H1 & _ & H3 & _) & H).
  - reflexivity.
  - reflexivity.
  - vm_compute. reflexivity.
  - reflexivity.
  - vm_compute. reflexivity.
  - destruct (H [Samples.minestrone; Samples.shrimp_scampi]
                MenuInput.initiallyExpanded) as (E & _).
    + vm_compute. reflexivity.
    + repeat constructor; discriminate.
    + split; [exact H1|]. split; [exact H3|]. exact E.
Defined.

(** C1 as stated fails: the answer below holds an item tagged
    "Probably Fine", which the declared schema does not allow.  The page
    reports no error and shows the result; the item is under no heading,
    the only section drawn being Avoid with the other item. *)
Lemma C1_unknown_tag_counterexample :
  let st' := fst (MenuInput.validateAndProceed Samples.env
                    (Samples.answering (Some Samples.menu_with_unknown_tag))
                    [js "shellfish"] Samples.asking) in
  (exists v, JSON_parse Samples.menu_with_unknown_tag = inr v /\
             Ai.conforms Ai.MenuSchema v = false /\
             MenuInput.menuData st' = Some v) /\
  MenuInput.error st' = js "" /\
  MenuInput.showResults st' = true /\
  MenuInput.resultsDrawn MenuInput.initiallyExpanded st' =
    Some (inr [MenuInput.mkSection (js "Avoid") [Samples.shrimp_scampi]]) /\
  MenuInput.resultsDrawn (fun _ => true) st' =
    Some (inr [MenuInput.mkSection (js "Avoid") [Samples.shrimp_scampi]]).
Proof.
  vm_compute. split; [eexists; repeat split|repeat split].
Qed.

Lemma C6_fallback_and_parse_failure_amended_witness :
  let st' := fst (MenuInput.validateAndProceed Samples.env
                    (Samples.answering (Some (js "Sorry, I cannot help.")))
                    [js "shellfish"] Samples.asking) in
  MenuInput.error st' =
    js "Unable to parse response from AI service. Please try again." /\
  MenuInput.menuData st' = None /\
  MenuInput.showResults st' = false /\
  MenuInput.resultsDrawn MenuInput.initiallyExpanded st' = None /\
  MenuInput.isProcessing st' = false.
Proof.
  intros st'.
  destruct (proj1 (proj2 (C6_fallback_and_parse_failure_amended Samples.env
           (Samples.answering (Some (js "Sorry, I cannot help.")))
           [js "shellfish"] Samples.asking
           (aiResponse := Some (js "Sorry, I cannot help."))
           (sent := snd (AiFunctions.getSafeFoodsByRestaurantName Samples.env
                      (Samples.answering (Some (js "Sorry, I cannot help.")))
                      (js "Olive Garden") (Some [js "shellfish"]) []))
           eq_refl eq_refl eq_refl))
           (js "Sorry, I cannot help.") EngineSyntaxError eq_refl eq_refl eq_refl)
    as (H1 & H2 & H3 & H4 & H5).
  repeat split; auto.
Defined.

(** C6 as stated fails for an answer that is well-formed JSON but not of
    the declared shape: the text below has no [foods].  No error is set,
    the value is stored and shown, and drawing the sections throws a
    TypeError. *)
Lemma C6_malformed_shape_counterexample :
  let st' := fst (MenuInput.validateAndProceed Samples.env
                    (Samples.answering (Some Samples.menu_without_foods))
                    [js "shellfish"] Samples.asking) in
  (exists v, JSON_parse Samples.menu_without_foods = inr v /\
             Ai.conforms Ai.MenuSchema v = false /\
             MenuInput.menuData st' = Some v) /\
  MenuInput.error st' = js "" /\
  MenuInput.showResults st' = true /\
  MenuInput.resultsDrawn MenuInput.initiallyExpanded st' =
    Some (inl (React.Thrown EngineTypeError)).
Proof.
  vm_compute. split; [eexists; repeat split|repeat split].
Qed.

(** An answer whose restaurant name is an object is stored and shown like
    any other; drawing it is refused, an object being no child that can be
    drawn. *)
Example object_child_is_refused :
  let answer :=
    jsq "{'restaurantName': {'en': 'Olive Garden'}, 'foods': []}" in
  let st' := fst (MenuInput.validateAndProceed Samples.env
                    (Samples.answering (Some answer))
                    [js "shellfish"] Samples.asking) in
  MenuInput.error st' = js "" /\
  MenuInput.showResults st' = true /\
  MenuInput.resultsDrawn MenuInput.initiallyExpanded st' =
    Some (inl React.ObjectAsChild).
Proof. vm_compute. repeat split. Qed.

(** ** The generic client *)

Section ClientFacts.

Import Client.

Local Arguments js : simpl never.

(** What the [catch] block of [request] answers for a thrown error. *)
Let caught (e : JsError) : ApiResponse value :=
  if str_eqb (errName e) (js "AbortError")
  then Failure (mkApiError (js "TIMEOUT") (js "Request timed out") None NoDetails)
  else Failure (mkApiError (js "NETWORK_ERROR")
                  (if truthy_str (errMessage e) then errMessage e
                   else js "Network request failed")
                  None (DetailsError e)).

(** [request], case by case: it always answers with a value, after one
    call of [fetch]. *)
Lemma request_outcome (client : ApiClient) (net : Network)
    (endpoint : jsstring) (options : RequestInit) (log : list FetchCall) :
  let call := call_of client endpoint options in
  let x := net call in
  request client net endpoint options log =
    (inr (if (latency x <? timeout client)%N then
            match outcome x with
            | inl e => caught e
            | inr r =>
                if ok r then
                  match json r with
                  | inr data => Success data
                  | inl e => caught e
                  end
                else
                  Failure
                    (mkApiError (js "HTTP_ERROR")
                       (js "Request failed with status " ++ toString (status r))
                       (Some (status r))
                       (DetailsValue
                          (match json r with
                           | inr data => data
                           | inl _ => VObject []
                           end)))
            end
          else
            Failure (mkApiError (js "TIMEOUT") (js "Request timed out")
                                None NoDetails)),
     log ++ [call]).
Proof.
  intros call x. subst x call.
  unfold request, fetch, caught.
  fold (call_of client endpoint options).
  unfold try_catch, bind, emit, lift, throw, ret.
  destruct (latency (net (call_of client endpoint options)) <? timeout client)%N;
    [|reflexivity].
  destruct (outcome (net (call_of client endpoint options))) as [e|r].
  { destruct (str_eqb (errName e) (js "AbortError")); reflexivity. }
  destruct (ok r); simpl; destruct (json r) as [e|data]; try reflexivity.
  destruct (str_eqb (errName e) (js "AbortError")); reflexivity.
Qed.



Lemma call_catch_throws (x : value) :
  exists e, call_catch x = inl e /\ e = EngineTypeError.
Proof.
  unfold call_catch, call_property.
  destruct x; simpl; eauto.
Qed.

(** C10: when the upload completes with a status outside 200..299, the
    promise resolves to the PARSE_ERROR failure and never to the
    UPLOAD_ERROR one: JSON.parse throws a SyntaxError, or the call of
    [.catch] on the parsed value throws a TypeError, and the catch block
    answers.  Whatever the event, the promise resolves. *)
Theorem C10_upload_error_unreachable :
  (forall (status : N) (responseText : jsstring),
      ((200 <=? status) && (status <? 300))%N = false ->
      exists e,
        uploadFile (Loaded status responseText) =
          inr (Failure (mkApiError (js "PARSE_ERROR")
                          (js "Failed to parse response") None (DetailsExn e))) /\
        (e = EngineSyntaxError \/ e = EngineTypeError)) /\
  (forall event : XhrEvent, exists resp, uploadFile event = inr resp).
Proof.
  split.
  - intros status responseText H.
    unfold uploadFile, onLoad, try_catch, bind, lift, ret. rewrite H.
    destruct (JSON_parse responseText) as [e|parsed] eqn:P; simpl.
    + exists e. split; [reflexivity|]. left.
      unfold JSON_parse in P.
      destruct (parse_value _ _); try (now inversion P).
      destruct (skip_ws rest); now inversion P.
    + destruct (call_catch_throws parsed) as (e & -> & ->). simpl.
      eauto.
  - intros [status responseText| |]; simpl; eauto.
    unfold onLoad, try_catch, bind, lift, ret.
    destruct ((200 <=? status) && (status <? 300))%N.
    + destruct (JSON_parse responseText); simpl; eauto.
    + destruct (JSON_parse responseText) as [e|parsed]; simpl; eauto.
      destruct (call_catch_throws parsed) as (e & -> & ->). simpl. eauto.
Qed.

End ClientFacts.


Lemma C10_upload_error_unreachable_witness :
  exists e,
    Client.uploadFile (Client.Loaded 404 (jsq "{'error': 'missing'}")) =
      inr (Client.Failure
             (Client.mkApiError (js "PARSE_ERROR")
                (js "Failed to parse response") None (Client.DetailsExn e))).
Proof.
  destruct (proj1 C10_upload_error_unreachable 404%N
              (jsq "{'error': 'missing'}") eq_refl) as (e & H & _).
  exists e. exact H.
Defined.

(** ** [JSON.parse] reads back what [JSON.stringify] writes *)

Section RoundTrip.

Import Stringify.

Lemma hexchar_decodes (d : N) :
  (d < 16)%N -> hexval (hexchar d) = Some d.
Proof.
  intros H. unfold hexval, hexchar, isDigit.
  destruct (N.ltb_spec d 10).
  - replace ((48 <=? 48 + d) && (48 + d <=? 57))%N with true.
    + f_equal. lia.
    + symmetry. apply andb_true_iff. split; apply N.leb_le; lia.
  - replace ((48 <=? 87 + d) && (87 + d <=? 57))%N with false.
    + replace ((97 <=? 87 + d) && (87 + d <=? 102))%N with true.
      * f_equal. lia.
      * symmetry. apply andb_true_iff. split; apply N.leb_le; lia.
    + symmetry. apply andb_false_iff. right. apply N.leb_gt. lia.
Qed.

Lemma hex_digits (c : N) :
  (c < 65536)%N ->
  (c / 4096 < 16 /\ (c / 256) mod 16 < 16 /\ (c / 16) mod 16 < 16 /\
   c mod 16 < 16 /\
   ((c / 4096 * 16 + (c / 256) mod 16) * 16 + (c / 16) mod 16) * 16 + c mod 16
   = c)%N.
Proof.
  intros H. zify. Z.to_euclidean_division_equations. lia.
Qed.

Lemma parse_chars_raw (c : N) (t acc : jsstring) :
  short_escape c = None -> (c <? 32)%N = false ->
  parse_chars (c :: t) acc = parse_chars t (c :: acc).
Proof.
  intros Hs Hc. unfold short_escape in Hs. simpl.
  destruct (c =? 8)%N; [discriminate|].
  destruct (c =? 9)%N; [discriminate|].
  destruct (c =? 10)%N; [discriminate|].
  destruct (c =? 12)%N; [discriminate|].
  destruct (c =? 13)%N; [discriminate|].
  destruct (c =? 34)%N; [discriminate|].
  destruct (c =? 92)%N; [discriminate|].
  now rewrite Hc.
Qed.

Lemma parse_chars_short (c e : N) (t acc : jsstring) :
  short_escape c = Some e ->
  parse_chars (92%N :: e :: t) acc = parse_chars t (c :: acc).
Proof.
  unfold short_escape. intros H.
  repeat match type of H with
         | (if (?a =? ?b)%N then _ else _) = _ =>
             destruct (N.eqb_spec a b);
             [injection H as <-; subst c; reflexivity|]
         end.
  discriminate.
Qed.

Lemma parse_chars_unicode (c : N) (t acc : jsstring) :
  (c < 65536)%N ->
  parse_chars (unicode_escape c ++ t) acc = parse_chars t (c :: acc).
Proof.
  intros H. destruct (hex_digits H) as (H1 & H2 & H3 & H4 & E).
  unfold unicode_escape.
  change (parse_chars ([92; 117; hexchar (c / 4096); hexchar ((c / 256) mod 16);
                        hexchar ((c / 16) mod 16); hexchar (c mod 16)]%N ++ t) acc)
    with (match hexval (hexchar (c / 4096)), hexval (hexchar ((c / 256) mod 16)),
                hexval (hexchar ((c / 16) mod 16)), hexval (hexchar (c mod 16)) with
          | Some a, Some b, Some c', Some d =>
              parse_chars t ((((a * 16 + b) * 16 + c') * 16 + d)%N :: acc)
          | _, _, _, _ => None
          end).
  rewrite !hexchar_decodes by assumption. now rewrite E.
Qed.

(** A quoted string is read back as it was, whatever follows it. *)
Lemma parse_chars_quote_body (s : jsstring) :
  forall after_high acc rest,
    parse_chars (quote_body after_high s ++ 34%N :: rest) acc =
      Some (rev acc ++ s, rest).
Proof.
  induction s as [|c r IH]; intros after_high acc rest.
  - simpl. now rewrite app_nil_r.
  - assert (Hnext : forall flag,
              parse_chars (quote_body flag r ++ 34%N :: rest) (c :: acc) =
                Some (rev acc ++ c :: r, rest)).
    { intros flag. rewrite IH. simpl. now rewrite <- app_assoc. }
    assert (Hraw : forall flag, short_escape c = None -> (c <? 32)%N = false ->
              parse_chars ((c :: quote_body flag r) ++ 34%N :: rest) acc =
                Some (rev acc ++ c :: r, rest)).
    { intros flag Hs Hc. simpl app. rewrite parse_chars_raw by assumption.
      apply Hnext. }
    assert (Huni : (c < 65536)%N ->
              parse_chars ((unicode_escape c ++ quote_body false r)
                             ++ 34%N :: rest) acc =
                Some (rev acc ++ c :: r, rest)).
    { intros Hc. rewrite <- app_assoc, parse_chars_unicode by assumption.
      apply Hnext. }
    cbn [quote_body].
    destruct (short_escape c) as [e|] eqn:Hs.
    { simpl app. rewrite (@parse_chars_short c e _ _ Hs). apply Hnext. }
    destruct (c <? 32)%N eqn:Hc.
    { apply Huni. apply N.ltb_lt in Hc. lia. }
    destruct (isHighSurrogate c) eqn:Hh.
    { assert (c < 65536)%N.
      { unfold isHighSurrogate in Hh. apply andb_true_iff in Hh.
        destruct Hh as [_ Hh]. apply N.leb_le in Hh. lia. }
      destruct r as [|d r']; [now apply Huni|].
      destruct (isLowSurrogate d); [now apply Hraw | now apply Huni]. }
    destruct (isLowSurrogate c) eqn:Hl.
    { assert (c < 65536)%N.
      { unfold isLowSurrogate in Hl. apply andb_true_iff in Hl.
        destruct Hl as [_ Hl]. apply N.leb_le in Hl. lia. }
      destruct after_high; [now apply Hraw | now apply Huni]. }
    now apply Hraw.
Qed.

Variable show_number : bool -> N -> Z -> jsstring.

Let text := stringify show_number.

Lemma stringify_array (l : list value) :
  text (VArray l) = 91%N :: elements_text show_number l.
Proof.
  unfold text. destruct l; reflexivity.
Qed.

Lemma stringify_object (l : list (jsstring * value)) :
  text (VObject l) = 123%N :: entries_text show_number l.
Proof.
  unfold text. destruct l as [|[k x] r]; reflexivity.
Qed.

Lemma stringify_head (v : value) :
  number_free v = true -> exists c t, text v = c :: t /\ opens c.
Proof.
  unfold opens.
  destruct v as [|[|]| | | |]; intros H; try discriminate.
  - exists 110%N. eexists. split; [reflexivity|]. tauto.
  - exists 116%N. eexists. split; [reflexivity|]. tauto.
  - exists 102%N. eexists. split; [reflexivity|]. tauto.
  - exists 34%N. eexists. split; [reflexivity|]. tauto.
  - rewrite stringify_array. exists 91%N. eexists. split; [reflexivity|]. tauto.
  - rewrite stringify_object. exists 123%N. eexists. split; [reflexivity|]. tauto.
Qed.

Lemma skip_ws_opens (c : N) (t : jsstring) :
  opens c -> skip_ws (c :: t) = c :: t.
Proof.
  unfold opens. intros H.
  repeat (destruct H as [H|H]; [subst c; reflexivity|]). subst c. reflexivity.
Qed.

Lemma skip_ws_text (v : value) (rest : jsstring) :
  number_free v = true -> skip_ws (text v ++ rest) = text v ++ rest.
Proof.
  intros H. destruct (stringify_head v H) as (c & t & -> & Hc).
  now apply skip_ws_opens.
Qed.

Lemma skip_ws_quote (k rest : jsstring) :
  skip_ws (quote k ++ rest) = quote k ++ rest.
Proof. reflexivity. Qed.

Local Arguments parse_chars : simpl never.
Local Arguments skip_ws : simpl never.
Local Arguments strip_prefix : simpl never.
Local Arguments parse_number : simpl never.

Lemma elements_text_cons (x : value) (l : list value) (rest : jsstring) :
  elements_text show_number (x :: l) ++ rest =
    text x ++ match l with
              | [] => 93%N :: rest
              | _ :: _ => 44%N :: elements_text show_number l ++ rest
              end.
Proof.
  cbn [elements_text]. fold text. rewrite <- app_assoc.
  destruct l; reflexivity.
Qed.

Lemma entries_text_cons (k : jsstring) (x : value)
    (l : list (jsstring * value)) (rest : jsstring) :
  entries_text show_number ((k, x) :: l) ++ rest =
    34%N :: quote_body false k ++ 34%N :: 58%N ::
    text x ++ match l with
              | [] => 125%N :: rest
              | _ :: _ => 44%N :: entries_text show_number l ++ rest
              end.
Proof.
  cbn [entries_text]. fold text. unfold quote. simpl app.
  rewrite <- !app_assoc. simpl app. rewrite <- app_assoc.
  destruct l; reflexivity.
Qed.

Lemma opens_not_closing (c : N) :
  opens c -> (c =? 93)%N = false /\ (c =? 125)%N = false.
Proof.
  unfold opens. intros H.
  repeat (destruct H as [H|H]; [subst c; split; reflexivity|]).
  subst c. split; reflexivity.
Qed.

Lemma parse_value_bracket (f : nat) (c : N) (t : jsstring) :
  opens c -> parse_value (S f) (91%N :: c :: t) = parse_elements f (c :: t) [].
Proof.
  intros Hc. cbn [parse_value].
  change (skip_ws (91%N :: c :: t)) with (91%N :: c :: t).
  cbn [N.eqb Pos.eqb]. rewrite (skip_ws_opens t Hc).
  now rewrite (proj1 (opens_not_closing Hc)).
Qed.

Lemma parse_value_brace (f : nat) (t : jsstring) :
  parse_value (S f) (123%N :: 34%N :: t) = parse_members f (34%N :: t) [].
Proof. reflexivity. Qed.

Lemma parse_elements_next (f : nat) (x : value) (l acc : list value)
    (rest : jsstring) :
  parse_value f (elements_text show_number (x :: l) ++ rest) =
    POk x match l with
          | [] => 93%N :: rest
          | _ :: _ => 44%N :: elements_text show_number l ++ rest
          end ->
  parse_elements (S f) (elements_text show_number (x :: l) ++ rest) acc =
    match l with
    | [] => POk (VArray (rev (x :: acc))) rest
    | _ :: _ => parse_elements f (elements_text show_number l ++ rest) (x :: acc)
    end.
Proof.
  intros E. cbn [parse_elements]. rewrite E. destruct l; reflexivity.
Qed.

Lemma parse_members_next (f : nat) (k : jsstring) (x : value)
    (l acc : list (jsstring * value)) (rest : jsstring) :
  parse_value f (text x ++ match l with
                           | [] => 125%N :: rest
                           | _ :: _ => 44%N :: entries_text show_number l ++ rest
                           end) =
    POk x match l with
          | [] => 125%N :: rest
          | _ :: _ => 44%N :: entries_text show_number l ++ rest
          end ->
  parse_members (S f) (entries_text show_number ((k, x) :: l) ++ rest) acc =
    match l with
    | [] => POk (VObject (rev ((k, x) :: acc))) rest
    | _ :: _ =>
        parse_members f (entries_text show_number l ++ rest) ((k, x) :: acc)
    end.
Proof.
  intros E. rewrite entries_text_cons. cbn [parse_members].
  match goal with
  | |- context [skip_ws (34%N :: ?t)] =>
      change (skip_ws (34%N :: t)) with (34%N :: t)
  end.
  cbn [N.eqb Pos.eqb negb]. rewrite parse_chars_quote_body.
  cbn [rev app].
  match goal with
  | |- context [skip_ws (58%N :: ?t)] =>
      change (skip_ws (58%N :: t)) with (58%N :: t)
  end.
  cbn [N.eqb Pos.eqb negb]. rewrite E. destruct l; reflexivity.
Qed.

(** With whatever fuel, parsing the text of a value either runs out of
    fuel or gives the value back and leaves what followed it. *)
Lemma parse_stringify (fuel : nat) :
  (forall v rest,
      number_free v = true ->
      parse_value fuel (text v ++ rest) = PFuel \/
      parse_value fuel (text v ++ rest) = POk v rest) /\
  (forall x l acc rest,
      forallb number_free (x :: l) = true ->
      parse_elements fuel (elements_text show_number (x :: l) ++ rest) acc = PFuel \/
      parse_elements fuel (elements_text show_number (x :: l) ++ rest) acc =
        POk (VArray (rev acc ++ x :: l)) rest) /\
  (forall k x l acc rest,
      forallb (fun kv => number_free (snd kv)) ((k, x) :: l) = true ->
      parse_members fuel (entries_text show_number ((k, x) :: l) ++ rest) acc = PFuel \/
      parse_members fuel (entries_text show_number ((k, x) :: l) ++ rest) acc =
        POk (VObject (rev acc ++ (k, x) :: l)) rest).
Proof.
  induction fuel as [|f (IHv & IHe & IHm)].
  { repeat split; intros; left; reflexivity. }
  split; [|split].
  - intros v rest Hv.
    destruct v as [|[|]| |s|l|l]; try discriminate.
    + right. reflexivity.
    + right. reflexivity.
    + right. reflexivity.
    + right. unfold text. cbn [stringify parse_value]. unfold quote.
      change ((34%N :: quote_body false s ++ [34%N]) ++ rest)
        with (34%N :: ((quote_body false s ++ [34%N]) ++ rest)).
      rewrite <- app_assoc.
      change (skip_ws (34%N :: quote_body false s ++ [34%N] ++ rest))
        with (34%N :: quote_body false s ++ [34%N] ++ rest).
      cbn [N.eqb Pos.eqb]. simpl app.
      now rewrite parse_chars_quote_body.
    + rewrite stringify_array. simpl in Hv.
      destruct l as [|x l'].
      * right. reflexivity.
      * change ((91%N :: elements_text show_number (x :: l')) ++ rest)
          with (91%N :: (elements_text show_number (x :: l') ++ rest)).
        assert (Hx : number_free x = true).
        { simpl in Hv. apply andb_true_iff in Hv. tauto. }
        destruct (stringify_head x Hx) as (c & t & Ec & Hc).
        assert (Eh : exists t', elements_text show_number (x :: l') ++ rest = c :: t').
        { rewrite elements_text_cons, Ec. eexists. reflexivity. }
        destruct Eh as (t' & Eh). rewrite Eh, (parse_value_bracket f t' Hc).
        rewrite <- Eh. apply (IHe x l' [] rest Hv).
    + rewrite stringify_object. simpl in Hv.
      destruct l as [|[k x] l'].
      * right. reflexivity.
      * change ((123%N :: entries_text show_number ((k, x) :: l')) ++ rest)
          with (123%N :: (entries_text show_number ((k, x) :: l') ++ rest)).
        assert (Eh : exists t', entries_text show_number ((k, x) :: l') ++ rest
                                = 34%N :: t').
        { rewrite entries_text_cons. eexists. reflexivity. }
        destruct Eh as (t' & Eh). rewrite Eh, parse_value_brace.
        rewrite <- Eh. apply (IHm k x l' [] rest Hv).
  - intros x l acc rest H.
    assert (Hx : number_free x = true /\ forallb number_free l = true).
    { simpl in H. now apply andb_true_iff in H. }
    destruct Hx as [Hx Hl].
    pose proof (elements_text_cons x l rest) as Ec.
    destruct (IHv x (match l with
                     | [] => 93%N :: rest
                     | _ :: _ => 44%N :: elements_text show_number l ++ rest
                     end) Hx) as [E|E]; rewrite <- Ec in E.
    + left. cbn [parse_elements]. now rewrite E.
    + rewrite (@parse_elements_next f x l acc rest E).
      destruct l as [|y l'].
      * right. simpl. reflexivity.
      * destruct (IHe y l' (x :: acc) rest Hl) as [E'|E']; rewrite E'.
        -- now left.
        -- right. simpl. now rewrite <- app_assoc.
  - intros k x l acc rest H.
    assert (Hx : number_free x = true /\
                 forallb (fun kv => number_free (snd kv)) l = true).
    { simpl in H. now apply andb_true_iff in H. }
    destruct Hx as [Hx Hl].
    destruct (IHv x (match l with
                     | [] => 125%N :: rest
                     | _ :: _ => 44%N :: entries_text show_number l ++ rest
                     end) Hx) as [E|E].
    + left. rewrite entries_text_cons. cbn [parse_members].
      match goal with
      | |- context [skip_ws (34%N :: ?t)] =>
          change (skip_ws (34%N :: t)) with (34%N :: t)
      end.
      cbn [N.eqb Pos.eqb negb]. rewrite parse_chars_quote_body.
      cbn [rev app].
      match goal with
      | |- context [skip_ws (58%N :: ?t)] =>
          change (skip_ws (58%N :: t)) with (58%N :: t)
      end.
      cbn [N.eqb Pos.eqb negb]. now rewrite E.
    + rewrite (@parse_members_next f k x l acc rest E).
      destruct l as [|[k' y] l'].
      * right. simpl. reflexivity.
      * destruct (IHm k' y l' ((k, x) :: acc) rest Hl) as [E'|E']; rewrite E'.
        -- now left.
        -- right. simpl. now rewrite <- app_assoc.
Qed.

(** [JSON.parse(JSON.stringify(v))] is [v], for a value without numbers. *)
Lemma JSON_parse_stringify (v : value) :
  number_free v = true -> JSON_parse (text v) = inr v.
Proof.
  intros Hv. unfold JSON_parse.
  pose proof (parse_value_fuel (text v)) as Hfuel.
  destruct (proj1 (parse_stringify (fuel_for (text v))) v [] Hv) as [E|E];
    rewrite app_nil_r in E; [congruence|].
  rewrite E. reflexivity.
Qed.

End RoundTrip.

(** ** The stored profile *)

Section Persistence.

Import AllergyFormPage Stringify AllergyContext.

Variable show_number : bool -> N -> Z -> jsstring.

Lemma strings_number_free (l : list jsstring) :
  forallb number_free (map VString l) = true.
Proof. induction l as [|a l IH]; simpl; auto. Qed.

Lemma profile_value_number_free (p : UserProfile) :
  number_free (profile_value p) = true.
Proof.
  unfold profile_value. simpl. rewrite strings_number_free.
  destruct (up_submittedAt p); reflexivity.
Qed.

Lemma saveEffect_fits (v : Json.value) (st : Storage) :
  truthy v = true ->
  List.length (stringify show_number v) <= quota st ->
  saveEffect show_number v st =
    mkStorage (Some (stringify show_number v)) (quota st).
Proof.
  intros Hv Hfit. unfold saveEffect, setItem. rewrite Hv.
  apply Nat.leb_le in Hfit. now rewrite Hfit.
Qed.

(** X1: a profile the save effect has written is the profile the load
    effect reads, and mounting the provider again leaves both the profile
    and the entry as they are.  The text has to fit into the storage. *)
Theorem saved_profile_is_loaded (p : UserProfile) (st : Storage) :
  List.length (stringify show_number (profile_value p)) <= quota st ->
  loadEffect (saveEffect show_number (profile_value p) st) =
    Some (profile_value p) /\
  mount show_number (saveEffect show_number (profile_value p) st) =
    (profile_value p, saveEffect show_number (profile_value p) st).
Proof.
  intros Hfit.
  rewrite (saveEffect_fits (profile_value p) st eq_refl Hfit).
  assert (L : loadEffect
                (mkStorage (Some (stringify show_number (profile_value p)))
                           (quota st)) = Some (profile_value p)).
  { unfold loadEffect, getItem. cbn [entry].
    rewrite (JSON_parse_stringify show_number (profile_value p)
               (profile_value_number_free p)).
    reflexivity. }
  split; [exact L|].
  unfold mount. rewrite L.
  change (saveEffect show_number VNull
            (mkStorage (Some (stringify show_number (profile_value p)))
                       (quota st)))
    with (mkStorage None (quota st)).
  change (profile_value p) with (VObject
    ([ (js "name", VString (up_name p));
       (js "email", VString (up_email p));
       (js "emergencyContact", VString (up_emergencyContact p));
       (js "allergies", VArray (map VString (up_allergies p))) ]
     ++ match up_submittedAt p with
        | Some t => [(js "submittedAt", VString t)]
        | None => []
        end)) at 1.
  cbv beta iota.
  fold (profile_value p).
  now rewrite (saveEffect_fits (profile_value p) (mkStorage None (quota st))
                 eq_refl Hfit).
Qed.

(** X2: when the entry is absent, empty, not JSON, or JSON for a falsy
    value, the provider is left without a profile once mounted and the
    entry is gone from the storage: a stored text that cannot be parsed is
    erased, not kept. *)
Theorem mount_without_usable_entry (st : Storage) :
  match entry st with
  | None => True
  | Some text =>
      text = [] \/
      (exists e, JSON_parse text = inl e) \/
      (exists v, JSON_parse text = inr v /\ truthy v = false)
  end ->
  truthy (fst (mount show_number st)) = false /\
  snd (mount show_number st) = mkStorage None (quota st).
Proof.
  unfold mount, loadEffect, getItem.
  destruct (entry st) as [text|] eqn:E.
  2:{ intros _. split; reflexivity. }
  intros [->|[(e & He)|(v & Hv & Hf)]].
  - split; reflexivity.
  - rewrite He. destruct (truthy_str text); split; reflexivity.
  - rewrite Hv. destruct (truthy_str text); [|split; reflexivity].
    destruct v; try discriminate Hf; cbn [fst snd]; split; auto;
      unfold saveEffect; try rewrite Hf; reflexivity.
Qed.

End Persistence.

Lemma saved_profile_is_loaded_witness :
  let show := fun (_ : bool) (_ : N) (_ : Z) => js "0" in
  let p := AllergyFormPage.mkProfile (js "Al") (js "a@b.com") (js "")
             [js "Peanuts"] (Some (js "2025-01-01T00:00:00.000Z")) in
  let st := AllergyContext.mkStorage None 5000 in
  AllergyContext.loadEffect
    (AllergyContext.saveEffect show (AllergyContext.profile_value p) st) =
    Some (AllergyContext.profile_value p) /\
  AllergyContext.mount show
    (AllergyContext.saveEffect show (AllergyContext.profile_value p) st) =
    (AllergyContext.profile_value p,
     AllergyContext.saveEffect show (AllergyContext.profile_value p) st).
Proof.
  intros show p st.
  apply (@saved_profile_is_loaded show p st).
  vm_compute. lia.
Defined.

Lemma mount_without_usable_entry_witness :
  let show := fun (_ : bool) (_ : N) (_ : Z) => js "0" in
  let st := AllergyContext.mkStorage (Some (js "{name:")) 5000 in
  truthy (fst (AllergyContext.mount show st)) = false /\
  snd (AllergyContext.mount show st) = AllergyContext.mkStorage None 5000.
Proof.
  intros show st.
  apply (@mount_without_usable_entry show st).
  right. left. exists EngineSyntaxError. vm_compute. reflexivity.
Defined.

(** ** More on [trim] *)

Section TrimFacts.

Lemma trimStart_app_last (l : jsstring) (c : N) :
  isWhiteSpace c = false -> trimStart (l ++ [c]) = trimStart l ++ [c].
Proof.
  intros Hc. induction l as [|a l IH]; simpl.
  - now rewrite Hc.
  - destruct (isWhiteSpace a); [exact IH | reflexivity].
Qed.

Lemma trimEnd_cons (c : N) (r : jsstring) :
  isWhiteSpace c = false -> trimEnd (c :: r) = c :: trimEnd r.
Proof.
  intros Hc. unfold trimEnd. simpl rev.
  rewrite (@trimStart_app_last _ c Hc), rev_app_distr. reflexivity.
Qed.

Lemma trimStart_idempotent (s : jsstring) :
  trimStart (trimStart s) = trimStart s.
Proof.
  induction s as [|c r IH]; simpl; [reflexivity|].
  destruct (isWhiteSpace c) eqn:E; [exact IH|].
  simpl. now rewrite E.
Qed.

Lemma trimEnd_idempotent (s : jsstring) : trimEnd (trimEnd s) = trimEnd s.
Proof.
  unfold trimEnd. now rewrite rev_involutive, trimStart_idempotent.
Qed.

(** Trimming a trimmed string changes nothing. *)
Lemma trim_idempotent (s : jsstring) : trim (trim s) = trim s.
Proof.
  unfold trim. destruct (trimStart s) as [|c r] eqn:E; [reflexivity|].
  apply trimStart_head in E.
  rewrite (@trimEnd_cons c r E). simpl trimStart. rewrite E.
  rewrite (@trimEnd_cons c (trimEnd r) E). now rewrite trimEnd_idempotent.
Qed.

Lemma trimStart_In (c : N) (s : jsstring) : In c (trimStart s) -> In c s.
Proof.
  induction s as [|a r IH]; simpl; [tauto|].
  destruct (isWhiteSpace a); simpl; tauto.
Qed.

Lemma trim_In (c : N) (s : jsstring) : In c (trim s) -> In c s.
Proof.
  unfold trim, trimEnd. intros H. apply in_rev in H.
  apply trimStart_In in H. apply in_rev in H. now apply trimStart_In.
Qed.

Lemma trim_forallb (p : N -> bool) (s : jsstring) :
  forallb p s = true -> forallb p (trim s) = true.
Proof.
  rewrite !forallb_forall. intros H c Hc. apply H. now apply trim_In.
Qed.

Lemma trimStart_id (s : jsstring) :
  (forall c, In c s -> isWhiteSpace c = false) -> trimStart s = s.
Proof.
  destruct s as [|c r]; simpl; [reflexivity|].
  intros H. now rewrite (H c (or_introl eq_refl)).
Qed.

(** A string without white space is its own trimmed form. *)
Lemma trim_id (s : jsstring) :
  (forall c, In c s -> isWhiteSpace c = false) -> trim s = s.
Proof.
  intros H. unfold trim, trimEnd. rewrite (@trimStart_id s H).
  rewrite trimStart_id; [apply rev_involutive|].
  intros c Hc. apply H. now apply in_rev.
Qed.

Lemma trim_filled (s : jsstring) :
  truthy_str (trim s) = true -> truthy_str (trim (trim s)) = true.
Proof. now rewrite trim_idempotent. Qed.

End TrimFacts.

(** ** The name and the address *)

Section NameAndEmail.

Import AllergyFormPage AllergyFormFields.

Lemma validateName_ok_iff (s : jsstring) :
  validateName s = js "" <->
  existsb (fun c => negb (isWhiteSpace c)) s = true /\
  forallb isLetterOrSpace s = true.
Proof.
  unfold validateName, lettersAndSpacesOnly.
  rewrite truthy_trim, test_plus_class.
  destruct (existsb (fun c => negb (isWhiteSpace c)) s) eqn:E; simpl.
  2:{ split; [discriminate | intros [H _]; discriminate]. }
  destruct s as [|c s]; [discriminate|].
  cbn [truthy_str andb].
  fold (isLetterOrSpace).
  change (fun c0 : N => isAsciiLetter c0 || isWhiteSpace c0) with isLetterOrSpace.
  destruct (forallb isLetterOrSpace (c :: s)); simpl.
  - split; auto.
  - split; [discriminate | intros [_ H]; discriminate].
Qed.

Lemma matches_plus_class (p : N -> bool) (s : jsstring) :
  matches (Plus (Class p)) s <-> s <> [] /\ forallb p s = true.
Proof.
  rewrite <- test_matches, test_plus_class, andb_true_iff.
  destruct s; simpl; split; intros [H1 H2]; split; auto; congruence.
Qed.

Lemma matches_chr (c : N) (s : jsstring) : matches (Chr c) s <-> s = [c].
Proof.
  unfold Chr. split.
  - intros H. apply matches_class_inv in H. destruct H as (d & -> & Hd).
    apply N.eqb_eq in Hd. now subst.
  - intros ->. constructor. apply N.eqb_refl.
Qed.

(** The strings the pattern of [validateEmail] accepts. *)
Lemma emailRegex_matches (s : jsstring) :
  test emailRegex s = true <->
  exists local domain tld,
    s = local ++ 64%N :: domain ++ 46%N :: tld /\
    local <> [] /\ domain <> [] /\ tld <> [] /\
    forallb isAddressChar local = true /\
    forallb isAddressChar domain = true /\
    forallb isAddressChar tld = true.
Proof.
  rewrite test_matches. unfold emailRegex. split.
  - intros H.
    apply matches_cat_inv in H. destruct H as (a & s1 & -> & Ha & H).
    apply matches_cat_inv in H. destruct H as (x & s2 & -> & Hx & H).
    apply matches_cat_inv in H. destruct H as (b & s3 & -> & Hb & H).
    apply matches_cat_inv in H. destruct H as (y & c & -> & Hy & Hc).
    apply matches_chr in Hx, Hy. subst x y.
    apply matches_plus_class in Ha, Hb, Hc.
    exists a, b, c. simpl. tauto.
  - intros (a & b & c & -> & Ha & Hb & Hc & Pa & Pb & Pc).
    constructor; [now apply matches_plus_class|].
    change (64%N :: b ++ 46%N :: c) with ([64%N] ++ b ++ [46%N] ++ c).
    constructor; [now apply matches_chr|].
    constructor; [now apply matches_plus_class|].
    constructor; [now apply matches_chr | now apply matches_plus_class].
Qed.

Lemma address_char_not_space (c : N) :
  isAddressChar c = true -> isWhiteSpace c = false /\ c <> 64%N.
Proof.
  unfold isAddressChar. rewrite negb_true_iff, orb_false_iff, N.eqb_neq. tauto.
Qed.

(** An accepted address matches the pattern. *)
Lemma validateEmail_ok_test (s : jsstring) :
  validateEmail s = js "" -> test emailRegex s = true.
Proof.
  unfold validateEmail.
  destruct (truthy_str (trim s)); cbn [negb]; [|discriminate].
  destruct (test emailRegex s); [reflexivity | discriminate].
Qed.

(** X3: [validateEmail] accepts exactly the strings of the form
    local@domain.tld whose three parts are non-empty and hold neither
    white space nor an at sign (the domain and the last part may hold
    further dots).  Such a string is never blank, so the first test of the
    function decides nothing the pattern would not. *)
Theorem validateEmail_accepts_exactly (s : jsstring) :
  validateEmail s = js "" <->
  exists local domain tld,
    s = local ++ 64%N :: domain ++ 46%N :: tld /\
    local <> [] /\ domain <> [] /\ tld <> [] /\
    forallb isAddressChar local = true /\
    forallb isAddressChar domain = true /\
    forallb isAddressChar tld = true.
Proof.
  rewrite <- emailRegex_matches. unfold validateEmail.
  destruct (test emailRegex s) eqn:T.
  - assert (F : truthy_str (trim s) = true).
    { apply emailRegex_matches in T.
      destruct T as (a & b & c & -> & Ha & _ & _ & Pa & _).
      rewrite truthy_trim. apply existsb_exists.
      destruct a as [|x a]; [now elim Ha|].
      exists x. split; [now left|].
      simpl in Pa. apply andb_true_iff in Pa. destruct Pa as [Px _].
      apply address_char_not_space in Px. now rewrite (proj1 Px). }
    rewrite F. simpl. tauto.
  - destruct (truthy_str (trim s)); simpl; split; discriminate.
Qed.


(** An accepted address holds no white space. *)
Lemma valid_email_no_space (s : jsstring) :
  validateEmail s = js "" -> forall c, In c s -> isWhiteSpace c = false.
Proof.
  intros H. apply validateEmail_ok_test, emailRegex_matches in H.
  destruct H as (a & b & t & -> & _ & _ & _ & Pa & Pb & Pt).
  rewrite forallb_forall in Pa, Pb, Pt.
  intros c Hc. apply in_app_iff in Hc. destruct Hc as [Hc|[<-|Hc]].
  - now apply address_char_not_space, Pa.
  - reflexivity.
  - apply in_app_iff in Hc. destruct Hc as [Hc|[<-|Hc]].
    + now apply address_char_not_space, Pb.
    + reflexivity.
    + now apply address_char_not_space, Pt.
Qed.

Lemma valid_name_trimmed (s : jsstring) :
  validateName s = js "" -> validateName (trim s) = js "".
Proof.
  rewrite !validateName_ok_iff. intros [H1 H2]. split.
  - rewrite <- truthy_trim, trim_idempotent, truthy_trim. exact H1.
  - now apply trim_forallb.
Qed.

End NameAndEmail.

(** ** What a submission stores *)

Section Stored.

Import AllergyFormPage AllergyFormFields AllergyContext.

Lemma validateAllFields_true (st : Page) :
  fst (validateAllFields st) = true ->
  allergyFields st <> [] /\
  validateName (fd_name (formData st)) = js "" /\
  validateEmail (fd_email (formData st)) = js "" /\
  (forall f, In f (allergyFields st) -> validateAllergyInput (value f) = js "").
Proof.
  intros H.
  assert (Hall : forall f, In f (allergyFields st) ->
                           validateAllergyInput (value f) = js "").
  { intros f Hf.
    destruct (list_eq_dec N.eq_dec (validateAllergyInput (value f)) (js ""))
      as [E|E]; [exact E|].
    rewrite (@validateAllFields_refused_entry st f Hf E) in H. discriminate. }
  unfold validateAllFields in H. simpl in H.
  destruct (existsb (fun field => truthy_str (error field)) _);
    simpl in H; [discriminate|].
  destruct (existsb filledAndClean _) eqn:E2; simpl in H; [|discriminate].
  repeat split; auto.
  - intros E. rewrite E in E2. discriminate.
  - destruct (validateName (fd_name (formData st))); [reflexivity|discriminate].
  - destruct (validateName (fd_name (formData st))); [|discriminate].
    destruct (validateEmail (fd_email (formData st))); [reflexivity|discriminate].
Qed.

(** The state an accepted submission ends in. *)
Lemma handleSubmit_accepted (now : jsstring) (st : Page) :
  errors_in_step st ->
  fst (validateAllFields (set_isSubmitting true st)) = true ->
  handleSubmit now st =
    set_isSubmitting false
      (router_push (js "/menuInput")
         (AllergyFormPage.setUserProfile
            (mkProfile (trim (fd_name (formData st)))
                       (trim (fd_email (formData st)))
                       (trim (fd_emergencyContact (formData st)))
                       (map (fun f => trim (value f)) (allergyFields st))
                       (Some now))
            (snd (validateAllFields (set_isSubmitting true st))))).
Proof.
  intros Hstep V.
  destruct (validateAllFields_true _ V) as (_ & _ & _ & Hall).
  assert (F : filter filledAndClean (allergyFields st) = allergyFields st).
  { apply forallb_filter_id. apply forallb_forall. intros f Hf.
    pose proof (Hall f Hf) as Hv. simpl in Hv.
    unfold filledAndClean. rewrite (valid_entry_is_filled _ Hv).
    assert (E : error f = js "") by (destruct (Hstep f Hf); congruence).
    now rewrite E. }
  unfold handleSubmit.
  destruct (validateAllFields (set_isSubmitting true st)) as [isValid st2].
  simpl in V. subst isValid. simpl. now rewrite F.
Qed.

Lemma valid_entry_trimmed (v : jsstring) :
  validateAllergyInput v = js "" ->
  trim v <> [] /\ forallb isLetterOrSpace (trim v) = true /\
  trim (trim v) = trim v.
Proof.
  intros H. pose proof (valid_entry_is_filled _ H) as F.
  apply validateAllergyInput_ok_iff in H. destruct H as (_ & L & _).
  repeat split.
  - intros E. rewrite E in F. discriminate.
  - now apply trim_forallb.
  - apply trim_idempotent.
Qed.

(** X4: an accepted submission leaves a complete profile in the context.
    Its allergies are the trimmed values of all entries, in order; each of
    them is non-empty, made of letters and white space only and without
    white space at its ends; the name is one [validateName] accepts; the
    address is stored as typed; and the lookup page, which sends a visitor
    without allergies back to the form, lets this one stay. *)
Theorem accepted_submission_stores_complete_profile
    (now : jsstring) (st : Page) :
  errors_in_step st ->
  fst (validateAllFields (set_isSubmitting true st)) = true ->
  exists p,
    userProfile (handleSubmit now st) = Some p /\
    isProfileComplete (Some p) = true /\
    up_allergies p = map (fun f => trim (value f)) (allergyFields st) /\
    Forall (fun a => a <> [] /\ forallb isLetterOrSpace a = true /\ trim a = a)
           (up_allergies p) /\
    validateName (up_name p) = js "" /\
    up_email p = fd_email (formData st) /\
    up_submittedAt p = Some now /\
    MenuInputEvents.redirectEffect (Some p) = None.
Proof.
  intros Hstep V.
  rewrite (handleSubmit_accepted now Hstep V).
  destruct (validateAllFields_true _ V) as (Hne & Hname & Hemail & Hall).
  simpl in Hne, Hname, Hemail, Hall.
  eexists. split; [reflexivity|]. cbn [up_allergies up_name up_email up_submittedAt].
  assert (Em : trim (fd_email (formData st)) = fd_email (formData st)).
  { apply trim_id. now apply valid_email_no_space. }
  assert (Tn : truthy_str (trim (fd_name (formData st))) = true).
  { apply validateName_ok_iff in Hname. rewrite truthy_trim. tauto. }
  assert (Te : truthy_str (fd_email (formData st)) = true).
  { apply validateEmail_ok_test, emailRegex_matches in Hemail.
    destruct Hemail as (a & b & c & -> & Ha & _).
    destruct a; [now elim Ha | reflexivity]. }
  assert (Ln : exists f fs, allergyFields st = f :: fs).
  { destruct (allergyFields st) as [|f fs]; [now elim Hne | eauto]. }
  repeat split.
  - unfold isProfileComplete. cbn [up_allergies up_name up_email].
    rewrite Tn, Em, Te. destruct Ln as (f & fs & ->). reflexivity.
  - apply Forall_forall. intros a Ha. apply in_map_iff in Ha.
    destruct Ha as (f & <- & Hf). now apply valid_entry_trimmed, Hall.
  - now apply valid_name_trimmed.
  - exact Em.
  - unfold MenuInputEvents.redirectEffect, MenuInputEvents.userAllergies.
    cbn [up_allergies]. destruct Ln as (f & fs & ->). reflexivity.
Qed.

Lemma handleSubmit_fields (now : jsstring) (st : Page) :
  formData (handleSubmit now st) = formData st /\
  formErrors (handleSubmit now st) =
    formErrors (snd (validateAllFields (set_isSubmitting true st))) /\
  allergyFields (handleSubmit now st) =
    allergyFields (snd (validateAllFields (set_isSubmitting true st))).
Proof.
  unfold handleSubmit.
  destruct (validateAllFields (set_isSubmitting true st)) as [b st2] eqn:E.
  assert (D : formData st2 = formData st).
  { change st2 with (snd (b, st2)). rewrite <- E. reflexivity. }
  destruct b; simpl; auto.
Qed.

Lemma validateAllFields_errors_current (st : Page) :
  errors_current (snd (validateAllFields st)).
Proof.
  unfold errors_current, validateAllFields. cbn [snd].
  destruct (existsb filledAndClean _); cbn; repeat split; auto.
  all: intros f Hf; right; apply in_map_iff in Hf;
    destruct Hf as (g & <- & _); reflexivity.
Qed.

Lemma handle_errors_current (ev : event) (st : Page) :
  errors_current st -> errors_current (handle ev st).
Proof.
  intros (Hn & He & Hc & Hs). destruct ev as [i v|op|now]; cbn [handle].
  - destruct i; unfold handleFormDataChange, errors_current; cbn;
      repeat split; auto.
  - unfold errors_current.
    assert (D : formData (apply_edit op st) = formData st /\
                formErrors (apply_edit op st) = formErrors st).
    { destruct op; cbn; auto. unfold removeAllergyField.
      destruct (1 <? List.length (allergyFields st))%nat; auto. }
    destruct D as [-> ->]. repeat split; auto.
    exact (@run_edits_errors_in_step [op] st Hs).
  - destruct (handleSubmit_fields now st) as (D & E & F).
    pose proof (validateAllFields_errors_current (set_isSubmitting true st))
      as (Hn' & He' & Hc' & Hs').
    unfold errors_current. rewrite D, E.
    repeat split; auto.
    intros f Hf. rewrite F in Hf. now apply Hs'.
Qed.

(** X5: whatever the user types, adds, removes or submits, starting from
    the form as it opens (with or without a stored profile), no field ever
    shows an error its present content does not earn: the error under the
    name, under the address and under each allergy entry is empty or is
    the verdict of the validator on what the field holds now, and the
    emergency contact never shows one. *)
Theorem shown_errors_are_current
    (profile : option UserProfile) (evs : list event) :
  errors_current (run evs (initialPage profile)).
Proof.
  assert (I : errors_current (initialPage profile)).
  { unfold errors_current. cbn. repeat split; auto.
    apply initialPage_errors_in_step. }
  revert I. generalize (initialPage profile).
  induction evs as [|ev evs IH]; intros st I; [exact I|].
  unfold run. cbn [fold_left]. apply IH. now apply handle_errors_current.
Qed.

Lemma or_empty (s : jsstring) : (if truthy_str s then s else js "") = s.
Proof. now destruct s. Qed.

Lemma fields_from_values (l : list jsstring) :
  forall k, map value (fields_from k l) = l.
Proof.
  induction l as [|a l IH]; intros k; simpl; [reflexivity|]. now rewrite IH.
Qed.

Lemma initialPage_reopened (p : UserProfile) :
  up_allergies p <> [] ->
  formData (initialPage (Some p)) =
    mkFormData (up_name p) (up_email p) (up_emergencyContact p) /\
  allergyFields (initialPage (Some p)) = fields_from 0 (up_allergies p).
Proof.
  intros Hne. unfold initialPage, initialFields. cbn [formData allergyFields].
  rewrite !or_empty. split; [reflexivity|].
  destruct (up_allergies p); [now elim Hne | reflexivity].
Qed.

(** X6: saving again what was saved.  Take the profile an accepted
    submission has stored and open the form with it.  If every stored
    allergy has at least two characters, submitting the form untouched is
    accepted and stores the same name, address, emergency contact and
    allergies (under the new time stamp).  If some stored allergy has
    fewer than two characters (an entry such as space-a is accepted with
    its two characters and stored as one), the untouched form is refused:
    the profile in the context stays as it is and the page does not move
    on. *)
Theorem stored_profile_resubmitted
    (now now' : jsstring) (st : Page) (p : UserProfile) :
  errors_in_step st ->
  fst (validateAllFields (set_isSubmitting true st)) = true ->
  userProfile (handleSubmit now st) = Some p ->
  (Forall (fun a => 2 <= List.length a) (up_allergies p) ->
   userProfile (handleSubmit now' (initialPage (Some p))) =
     Some (mkProfile (up_name p) (up_email p) (up_emergencyContact p)
                     (up_allergies p) (Some now')) /\
   pushed (handleSubmit now' (initialPage (Some p))) = [js "/menuInput"]) /\
  (Exists (fun a => List.length a < 2) (up_allergies p) ->
   userProfile (handleSubmit now' (initialPage (Some p))) = Some p /\
   pushed (handleSubmit now' (initialPage (Some p))) = []).
Proof.
  intros Hstep V Hp.
  rewrite (handleSubmit_accepted now Hstep V) in Hp.
  cbn [userProfile set_isSubmitting router_push AllergyFormPage.setUserProfile] in Hp.
  injection Hp as <-.
  destruct (validateAllFields_true _ V) as (Hne & Hname & Hemail & Hall).
  simpl in Hne, Hname, Hemail, Hall.
  set (p := mkProfile (trim (fd_name (formData st)))
                      (trim (fd_email (formData st)))
                      (trim (fd_emergencyContact (formData st)))
                      (map (fun f => trim (value f)) (allergyFields st))
                      (Some now)).
  assert (Pne : up_allergies p <> []).
  { subst p. cbn. destruct (allergyFields st); [now elim Hne | discriminate]. }
  destruct (initialPage_reopened p Pne) as (Ed & Ef).
  split.
  - intros Hlen.
    assert (V' : fst (validateAllFields
                        (set_isSubmitting true (initialPage (Some p)))) = true).
    { apply validateAllFields_accepts.
      - cbn [allergyFields set_isSubmitting]. rewrite Ef.
        destruct (up_allergies p); [now elim Pne | discriminate].
      - cbn [formData set_isSubmitting]. rewrite Ed. cbn.
        now apply valid_name_trimmed.
      - cbn [formData set_isSubmitting]. rewrite Ed. cbn.
        rewrite trim_id; [exact Hemail | now apply valid_email_no_space].
      - cbn [allergyFields set_isSubmitting]. rewrite Ef. intros f Hf.
        assert (Hv : In (value f) (up_allergies p)).
        { rewrite <- (fields_from_values (up_allergies p) 0).
          now apply in_map. }
        rewrite Forall_forall in Hlen. pose proof (Hlen _ Hv) as L2.
        subst p. cbn [up_allergies] in Hv. apply in_map_iff in Hv.
        destruct Hv as (g & Eg & Hg).
        destruct (valid_entry_trimmed _ (Hall g Hg)) as (T1 & T2 & T3).
        apply validateAllergyInput_ok_iff. rewrite <- Eg in *.
        repeat split; auto.
        rewrite <- truthy_trim, T3.
        destruct (trim (value g)); [now elim T1 | reflexivity]. }
    rewrite (handleSubmit_accepted now' (initialPage_errors_in_step (Some p)) V').
    cbn [userProfile pushed set_isSubmitting router_push AllergyFormPage.setUserProfile
         validateAllFields snd set_formErrors set_allergyFields].
    rewrite Ed, Ef. cbn [fd_name fd_email fd_emergencyContact].
    split; [|reflexivity].
    do 2 f_equal.
    + subst p. cbn. apply trim_idempotent.
    + subst p. cbn. apply trim_idempotent.
    + subst p. cbn. apply trim_idempotent.
    + rewrite <- (map_map value trim), fields_from_values.
      subst p. cbn [up_allergies]. rewrite map_map.
      apply map_ext. intros f. apply trim_idempotent.
  - intros Hshort. apply Exists_exists in Hshort.
    destruct Hshort as (a & Ha & La).
    assert (Hin : exists f, In f (allergyFields (initialPage (Some p))) /\
                            value f = a).
    { rewrite Ef. rewrite <- (fields_from_values (up_allergies p) 0) in Ha.
      apply in_map_iff in Ha. destruct Ha as (f & E & Hf). eauto. }
    destruct Hin as (f & Hf & Ev).
    assert (R : fst (validateAllFields
                       (set_isSubmitting true (initialPage (Some p)))) = false).
    { apply (@validateAllFields_refused_entry
               (set_isSubmitting true (initialPage (Some p))) f Hf).
      intros Hok. apply validateAllergyInput_ok_iff in Hok.
      rewrite Ev in Hok. lia. }
    destruct (handleSubmit_rejected_effects now' _ R) as (A & B & _).
    rewrite A, B. split; reflexivity.
Qed.

End Stored.

Lemma accepted_submission_stores_complete_profile_witness :
  let st := AllergyFormPage.mkPage
              (AllergyFormPage.mkFormData (js "Al") (js "a@b.com") (js ""))
              [AllergyFormPage.mkField (js "1") (js " Peanuts ") (js "")]
              (AllergyFormPage.mkFormErrors (js "") (js "") (js "") (js ""))
              false None [] in
  exists p,
    AllergyFormPage.userProfile
      (AllergyFormPage.handleSubmit (js "2025-01-01T00:00:00.000Z") st) = Some p /\
    AllergyContext.isProfileComplete (Some p) = true /\
    AllergyFormPage.up_allergies p = [js "Peanuts"].
Proof.
  intros st.
  destruct (@accepted_submission_stores_complete_profile
              (js "2025-01-01T00:00:00.000Z") st) as (p & H1 & H2 & H3 & _).
  - intros f [<-|[]]. left. reflexivity.
  - vm_compute. reflexivity.
  - exists p. repeat split; auto.
Defined.

Lemma stored_profile_resubmitted_witness :
  let st := AllergyFormPage.mkPage
              (AllergyFormPage.mkFormData (js "Al") (js "a@b.com") (js ""))
              [AllergyFormPage.mkField (js "1") (js " Peanuts ") (js "")]
              (AllergyFormPage.mkFormErrors (js "") (js "") (js "") (js ""))
              false None [] in
  let p := AllergyFormPage.mkProfile (js "Al") (js "a@b.com") (js "")
             [js "Peanuts"] (Some (js "Monday")) in
  AllergyFormPage.userProfile
    (AllergyFormPage.handleSubmit (js "Tuesday")
       (AllergyFormPage.initialPage (Some p))) =
    Some (AllergyFormPage.mkProfile (js "Al") (js "a@b.com") (js "")
            [js "Peanuts"] (Some (js "Tuesday"))).
Proof.
  intros st p.
  refine (proj1 (proj1 (@stored_profile_resubmitted
                          (js "Monday") (js "Tuesday") st p _ _ _) _)).
  - intros f [<-|[]]. left. reflexivity.
  - vm_compute. reflexivity.
  - vm_compute. reflexivity.
  - repeat constructor.
Defined.

(** ** The earlier form and its options page *)

Section EarlierForm.

Import AllergyFormJs AllergyFormJsInput.

Lemma test_star_class (p : N -> bool) (s : jsstring) :
  test (Star (Class p)) s = forallb p s.
Proof.
  destruct (forallb p s) eqn:E.
  - apply test_matches. now apply matches_star_class.
  - destruct (test (Star (Class p)) s) eqn:T; [|reflexivity].
    apply test_matches, matches_star_class in T. congruence.
Qed.

Lemma set_index_spec {A : Type} (x : A) (l : list A) :
  forall index, index <= List.length l ->
  exists l', set_index index x l = Some l' /\
             List.length l' = Nat.max (List.length l) (S index) /\
             In x l' /\
             forall P : A -> Prop, P x -> Forall P l -> Forall P l'.
Proof.
  induction l as [|y l IH]; intros [|k] Hk; simpl in *; try lia.
  - exists [x]. repeat split; auto. now left.
  - exists (x :: l). repeat split; [simpl; lia | now left |].
    intros P Px Hl. inversion Hl; subst. now constructor.
  - destruct (IH k ltac:(lia)) as (l' & -> & Hlen & Hin & HP).
    exists (y :: l'). repeat split; [simpl; lia | now right |].
    intros P Px Hl. inversion Hl; subst. constructor; auto.
Qed.

Lemma remove_at_length_exact {A : Type} (l : list A) :
  forall index,
    List.length (remove_at index l) =
      if (index <? List.length l)%nat then List.length l - 1
      else List.length l.
Proof.
  induction l as [|x l IH]; intros [|k]; simpl; try lia.
  rewrite IH. change (S k <? S (List.length l))%nat with (k <? List.length l)%nat.
  destruct (Nat.ltb_spec k (List.length l)); lia.
Qed.

Lemma remove_at_Forall {A : Type} (P : A -> Prop) (l : list A) :
  forall index, Forall P l -> Forall P (remove_at index l).
Proof.
  induction l as [|x l IH]; intros [|k] H; simpl; auto;
    inversion H; subst; auto.
Qed.

Lemma handle_form_ok (ev : event) (st : Form) :
  form_ok st -> drawn ev st = true ->
  exists st', handle ev st = Some st' /\ form_ok st'.
Proof.
  intros (H1 & H2 & H3 & H4) Hd. destruct ev as [index v| |index]; simpl in *.
  - apply Nat.ltb_lt in Hd. unfold handleAllergyChange, lettersOnlyRegex.
    rewrite test_star_class.
    change (fun c : N => isAsciiLetter c || isWhiteSpace c) with isLetterOrSpace.
    destruct (forallb isLetterOrSpace v) eqn:Ev.
    + destruct (set_index_spec v (allergies st) (index := index) ltac:(lia))
        as (la & -> & La & _ & Pa).
      destruct (set_index_spec (js "") (errors st) (index := index) ltac:(lia))
        as (le & -> & Le & _ & _).
      eexists. split; [reflexivity|]. unfold form_ok. cbn [allergies errors].
      repeat split; try lia. now apply Pa.
    + destruct (set_index_spec (js "Only letters and spaces are allowed")
                  (errors st) (index := index) ltac:(lia))
        as (le & -> & Le & _ & _).
      eexists. split; [reflexivity|]. unfold form_ok. cbn [allergies errors].
      repeat split; auto; lia.
  - eexists. split; [reflexivity|]. unfold form_ok, addAllergyField.
    cbn [allergies errors]. rewrite !length_app. simpl.
    repeat split; try lia.
    apply Forall_app. split; [exact H4 | now constructor].
  - apply Nat.ltb_lt in Hd.
    eexists. split; [reflexivity|]. unfold form_ok, removeAllergyField.
    destruct (Nat.ltb_spec 1 (List.length (allergies st)));
      [|repeat split; auto].
    cbn [allergies errors]. rewrite !remove_at_length_exact.
    destruct (Nat.ltb_spec index (List.length (allergies st))); [|lia].
    destruct (Nat.ltb_spec index (List.length (errors st)));
      repeat split; try lia.
    all: now apply remove_at_Forall.
Qed.

Lemma run_form_ok (evs : list event) :
  forall st, form_ok st -> all_drawn evs st = true ->
             exists st', run evs st = Some st' /\ form_ok st'.
Proof.
  induction evs as [|ev evs IH]; intros st Hok Hd; simpl in *.
  - eauto.
  - apply andb_true_iff in Hd. destruct Hd as [Hd Hrest].
    destruct (handle_form_ok ev Hok Hd) as (st1 & E & Hok1).
    rewrite E in *. now apply IH.
Qed.

Lemma handle_keeps_stored (ev : event) (s0 s1 : Form) :
  handle ev s0 = Some s1 -> stored s1 = stored s0.
Proof.
  destruct ev as [index v| |index]; simpl; intros E1.
  - unfold handleAllergyChange in E1.
    destruct (test lettersOnlyRegex v).
    + destruct (set_index index v (allergies s0)); [|discriminate].
      destruct (set_index index (js "") (errors s0)); [|discriminate].
      now injection E1 as <-.
    + destruct (set_index index _ (errors s0)); [|discriminate].
      now injection E1 as <-.
  - now injection E1 as <-.
  - injection E1 as <-. unfold removeAllergyField.
    now destruct (1 <? List.length (allergies s0))%nat.
Qed.

Lemma run_keeps_stored (evs : list event) :
  forall s0 st, run evs s0 = Some st -> stored st = stored s0.
Proof.
  induction evs as [|ev evs IH]; intros s0 st E; simpl in E.
  - now injection E as <-.
  - destruct (handle ev s0) as [s1|] eqn:E1; [|discriminate].
    rewrite (IH _ _ E). now apply handle_keeps_stored with ev.
Qed.

Lemma initialForm_ok : form_ok initialForm.
Proof.
  unfold form_ok, initialForm. simpl. repeat split; auto.
Qed.

(** X7: in the earlier form, whatever the user types into, adds to or
    removes from the entries drawn, starting from the form as it opens,
    every handler succeeds (no assignment falls outside the arrays), at
    least one entry is left, and every entry holds letters and white space
    only: a value with any other character never reaches the entries.  So
    whatever a submission then stores is a non-empty list of entries that
    are not blank and hold letters and white space only. *)
Theorem earlier_form_holds_letters_only (evs : list event) :
  all_drawn evs initialForm = true ->
  exists st,
    run evs initialForm = Some st /\
    1 <= List.length (allergies st) /\
    Forall (fun a => forallb isLetterOrSpace a = true) (allergies st) /\
    forall l, stored (handleSubmit st) = Some l ->
              l <> [] /\
              Forall (fun a => trim a <> [] /\
                               forallb isLetterOrSpace a = true) l.
Proof.
  intros Hd.
  destruct (run_form_ok evs initialForm_ok Hd) as (st & E & Hok).
  pose proof (run_keeps_stored evs _ E) as S0. cbn in S0.
  exists st. destruct Hok as (H1 & _ & _ & H4). repeat split; auto.
  - unfold handleSubmit in H.
    destruct (filter _ (allergies st)) as [|a l'] eqn:F;
      [simpl in H; congruence|].
    destruct (existsb _ (errors st)); simpl in H; [congruence|].
    injection H as <-. discriminate.
  - unfold handleSubmit in H.
    destruct (filter _ (allergies st)) as [|a l'] eqn:F;
      [simpl in H; congruence|].
    destruct (existsb _ (errors st)); simpl in H; [congruence|].
    injection H as <-. rewrite <- F. apply Forall_forall. intros x Hx.
    apply filter_In in Hx. destruct Hx as [Hx Hb].
    rewrite Forall_forall in H4. split; [|now apply H4].
    apply negb_true_iff, str_eqb_neq in Hb. exact Hb.
Qed.

Lemma set_index_nth {A : Type} (x : A) (l : list A) :
  forall index l', set_index index x l = Some l' ->
    nth_error l' index = Some x /\
    forall i, i <> index -> nth_error l' i = nth_error l i.
Proof.
  induction l as [|y l IH]; intros [|k] l' H; simpl in H.
  - injection H as <-. split; [reflexivity|].
    intros [|[|i]] Hi; try reflexivity. now elim Hi.
  - discriminate.
  - injection H as <-. split; [reflexivity|].
    intros [|i] Hi; [now elim Hi | reflexivity].
  - destruct (set_index k x l) as [r'|] eqn:E; [|discriminate].
    injection H as <-. destruct (IH k r' E) as [H1 H2].
    split; [exact H1|].
    intros [|i] Hi; [reflexivity|]. cbn [nth_error]. apply H2. congruence.
Qed.

(** X8: a keystroke the earlier form refuses.  In a form as the handlers
    leave it, typing a value that holds a digit or a symbol into an entry
    that is drawn leaves every entry as it is (so every entry still holds
    letters and white space only), marks that entry, and no other, with
    the error Only letters and spaces are allowed, and blocks the
    submission: while the error stands a submission stores nothing, does
    not move on and raises an alert. *)
Theorem refused_keystroke_blocks_submission
    (index : nat) (value : jsstring) (st : Form) :
  form_ok st ->
  index < List.length (allergies st) ->
  existsb isDigitOrSymbol value = true ->
  exists st',
    handleAllergyChange index value st = Some st' /\
    allergies st' = allergies st /\
    Forall (fun a => forallb isLetterOrSpace a = true) (allergies st') /\
    nth_error (errors st') index =
      Some (js "Only letters and spaces are allowed") /\
    (forall i, i <> index ->
               nth_error (errors st') i = nth_error (errors st) i) /\
    stored (handleSubmit st') = stored st /\
    navigated (handleSubmit st') = navigated st /\
    (alerts (handleSubmit st') =
       alerts st ++ [js "Please enter at least one food allergy."] \/
     alerts (handleSubmit st') =
       alerts st ++ [js "Please fix the validation errors before continuing."]).
Proof.
  intros (H1 & H2 & H3 & H4) Hdrawn Hbad.
  assert (Hi : index <= List.length (errors st)) by lia.
  unfold handleAllergyChange, lettersOnlyRegex.
  rewrite test_star_class.
  change (fun c : N => isAsciiLetter c || isWhiteSpace c) with isLetterOrSpace.
  assert (F : forallb isLetterOrSpace value = false).
  { destruct (forallb isLetterOrSpace value) eqn:E; [|reflexivity].
    apply existsb_exists in Hbad. destruct Hbad as (c & Hc & Hb).
    rewrite forallb_forall in E. unfold isDigitOrSymbol in Hb.
    rewrite (E c Hc) in Hb. discriminate. }
  rewrite F.
  destruct (set_index_spec (js "Only letters and spaces are allowed")
              (errors st) Hi) as (le & E & _ & Hin & _).
  rewrite E. destruct (set_index_nth _ _ _ E) as [N1 N2].
  eexists. split; [reflexivity|]. split; [reflexivity|].
  cbn [allergies errors]. split; [exact H4|]. split; [exact N1|].
  split; [exact N2|].
  unfold handleSubmit. cbn [allergies errors stored navigated alerts].
  destruct (filter _ (allergies st)); [repeat split; now left|].
  assert (Ex : existsb (fun error => negb (str_eqb error (js ""))) le = true).
  { apply existsb_exists. eexists. split; [exact Hin|]. reflexivity. }
  rewrite Ex. repeat split. now right.
Qed.

End EarlierForm.

Lemma earlier_form_holds_letters_only_witness :
  exists st,
    AllergyFormJsInput.run
      [AllergyFormJsInput.Typed 0 (js "Peanuts"); AllergyFormJsInput.Added;
       AllergyFormJsInput.Typed 1 (js "Soy 1"); AllergyFormJsInput.Removed 1]
      AllergyFormJsInput.initialForm = Some st /\
    1 <= List.length (AllergyFormJs.allergies st).
Proof.
  destruct (@earlier_form_holds_letters_only
              [AllergyFormJsInput.Typed 0 (js "Peanuts"); AllergyFormJsInput.Added;
               AllergyFormJsInput.Typed 1 (js "Soy 1"); AllergyFormJsInput.Removed 1])
    as (st & H1 & H2 & _).
  - vm_compute. reflexivity.
  - exists st. split; assumption.
Defined.

Lemma refused_keystroke_blocks_submission_witness :
  exists st',
    AllergyFormJsInput.handleAllergyChange 0 (js "Peanuts1")
      (AllergyFormJs.mkForm [js "Peanuts"] [js ""] None [] []) = Some st' /\
    nth_error (AllergyFormJs.errors st') 0 =
      Some (js "Only letters and spaces are allowed") /\
    AllergyFormJs.stored (AllergyFormJs.handleSubmit st') = None.
Proof.
  destruct (@refused_keystroke_blocks_submission 0 (js "Peanuts1")
              (AllergyFormJs.mkForm [js "Peanuts"] [js ""] None [] []))
    as (st' & H1 & _ & _ & H4 & _ & H6 & _).
  - unfold AllergyFormJsInput.form_ok. simpl. repeat split; auto.
  - simpl. lia.
  - vm_compute. reflexivity.
  - exists st'. repeat split; assumption.
Defined.

Section Options.

Import AllergyFormJs OptionsPage Stringify.

Variable show_number : bool -> N -> Z -> jsstring.

Lemma strings_are_number_free (l : list jsstring) :
  number_free (VArray (map VString l)) = true.
Proof. simpl. induction l as [|a l IH]; simpl; auto. Qed.

Lemma strings_are_renderable (l : list jsstring) :
  forallb React.renderable (map VString l) = true.
Proof. induction l as [|a l IH]; simpl; auto. Qed.

Lemma mount_stored_text (l : list jsstring) :
  mount (Some (stored_text show_number l)) =
    inr (Shows (VArray (map VString l))).
Proof.
  unfold mount, stored_text.
  rewrite (JSON_parse_stringify show_number _ (strings_are_number_free l)).
  reflexivity.
Qed.

(** X9: the options page lists what the earlier form stored.  A
    submission of the form either stores nothing and stays (the stored
    entry and the route are as before), or stores a non-empty list of
    entries and moves to the options page; mounted on the text written,
    that page shows exactly this list, entry for entry, whatever characters
    the entries hold.  Mounted without an entry, or on an empty one, it
    goes back to the form. *)
Theorem options_page_lists_stored_entries (st : Form) :
  ((stored (handleSubmit st) = stored st /\
    navigated (handleSubmit st) = navigated st) \/
   (exists l,
      l <> [] /\
      l = filter (fun allergy => negb (str_eqb (trim allergy) (js "")))
                 (allergies st) /\
      stored (handleSubmit st) = Some l /\
      navigated (handleSubmit st) = navigated st ++ [js "/options"] /\
      mount (Some (stored_text show_number l)) =
        inr (Shows (VArray (map VString l))) /\
      listed (map VString l) = inr (map VString l))) /\
  mount None = inr (NavigatesTo (js "/")) /\
  mount (Some (js "")) = inr (NavigatesTo (js "/")).
Proof.
  split; [|split; reflexivity].
  unfold handleSubmit.
  destruct (filter _ (allergies st)) as [|a l] eqn:F; [left; split; reflexivity|].
  destruct (existsb _ (errors st)); [left; split; reflexivity|].
  right. exists (a :: l). cbn [stored navigated].
  split; [discriminate|]. split; [reflexivity|].
  split; [reflexivity|]. split; [reflexivity|].
  split; [apply mount_stored_text|].
  unfold listed. cbn [map List.length Nat.ltb Nat.leb].
  now rewrite <- (map_cons VString a l), strings_are_renderable.
Qed.

End Options.

(** ** The lookup, from the button to the request *)

Section LookupMore.

Import Ai MenuInput.

Local Arguments js : simpl never.


(** The handler leaves the selected file alone. *)
Lemma validateAndProceed_keeps_file (env : Env) (service : Service)
    (userAllergies : list jsstring) (st : State) :
  selectedFile (fst (validateAndProceed env service userAllergies st)) =
    selectedFile st.
Proof.
  unfold validateAndProceed.
  destruct (str_eqb (selectedOption st) (js "text")).
  - destruct (truthy_str (trim (restaurantName st))); cbn [negb];
      [|reflexivity].
    destruct (AiFunctions.getSafeFoodsByRestaurantName env service
                (trim (restaurantName st)) (Some userAllergies) [])
      as [[e|r] sent]; [reflexivity|].
    destruct (JSON_parse _); reflexivity.
  - destruct (str_eqb (selectedOption st) (js "picture"));
      [destruct (selectedFile st) eqn:Ef|]; cbn; auto.
Qed.



(** X11: no failure of the lookup is told apart.  With the text option
    chosen and a restaurant named, the page ends with the same message,
    without a result and not processing, whether the key or the endpoint
    is missing from the configuration, the service rejects the request, or
    it answers without a choice; the three cases differ only in that the
    first sends no request. *)
Theorem lookup_failures_share_one_message (env : Env) (service : Service)
    (userAllergies : list jsstring) (st : State) :
  selectedOption st = js "text" ->
  truthy_str (trim (restaurantName st)) = true ->
  (falsy_opt (or_else (AZURE_OPENAI_API_KEY env)
                      (NEXT_PUBLIC_AZURE_OPENAI_API_KEY env)) = true \/
   falsy_opt (or_else (AZURE_OPENAI_ENDPOINT env)
                      (NEXT_PUBLIC_AZURE_OPENAI_ENDPOINT env)) = true \/
   forall req, match service req with
               | inr (_ :: _) => False
               | _ => True
               end) ->
  fst (validateAndProceed env service userAllergies st) =
    mkState (selectedOption st) (restaurantName st) (foodName st)
            (selectedFile st) false
            (js "An error occurred while analyzing the menu. Please try again.")
            None false.
Proof.
  intros Ho Hn Hcause.
  assert (Eo : str_eqb (selectedOption st) (js "text") = true)
    by (rewrite Ho; apply str_eqb_refl).
  assert (F : exists e sent,
             AiFunctions.getSafeFoodsByRestaurantName env service
               (trim (restaurantName st)) (Some userAllergies) [] =
             (inl e, sent)).
  { destruct (falsy_opt (or_else (AZURE_OPENAI_API_KEY env)
                      (NEXT_PUBLIC_AZURE_OPENAI_API_KEY env))) eqn:K.
    { destruct (AiFunctions_missing_config env service
                  (trim (restaurantName st)) (Some userAllergies) []
                  (or_introl K)) as (m & -> & _). eauto. }
    destruct (falsy_opt (or_else (AZURE_OPENAI_ENDPOINT env)
                      (NEXT_PUBLIC_AZURE_OPENAI_ENDPOINT env))) eqn:E.
    { destruct (AiFunctions_missing_config env service
                  (trim (restaurantName st)) (Some userAllergies) []
                  (or_intror E)) as (m & -> & _). eauto. }
    destruct Hcause as [H|[H|H]]; try discriminate.
    destruct (getSafeFoods_sends env service (trim (restaurantName st))
                (Some userAllergies) K E) as (opts & modelName & ->).
    pose proof (complete_result service opts modelName
                  (trim (restaurantName st)) (Some userAllergies) []) as R.
    specialize (H (request_of opts modelName (trim (restaurantName st))
                              (Some userAllergies))).
    destruct (complete service opts modelName (trim (restaurantName st))
                (Some userAllergies) []) as [[e|r] sent]; [eauto|].
    cbn [fst] in R.
    destruct (service _) as [e|[|c cs]]; try discriminate. now elim H. }
  destruct F as (e & sent & F).
  unfold validateAndProceed. rewrite Eo, Hn, F. reflexivity.
Qed.

(** X12: the lookup of the dashboard is the lookup of the lookup page.
    On a dashboard state and on the page state with the text option and
    the same cells, the two handlers send the same requests and end with
    the same message, result, flags and inputs. *)
Theorem dashboard_lookup_agrees (env : Env) (service : Service)
    (userAllergies : list jsstring) (d : Dashboard.State) :
  let m := mkState (js "text") (Dashboard.restaurantName d)
             (Dashboard.foodName d) (Dashboard.selectedFile d)
             (Dashboard.isProcessing d) (Dashboard.error d)
             (Dashboard.menuData d) (Dashboard.showResults d) in
  let d' := fst (Dashboard.validateAndProceed env service userAllergies d) in
  let m' := fst (validateAndProceed env service userAllergies m) in
  snd (Dashboard.validateAndProceed env service userAllergies d) =
    snd (validateAndProceed env service userAllergies m) /\
  m' = mkState (js "text") (Dashboard.restaurantName d')
         (Dashboard.foodName d') (Dashboard.selectedFile d')
         (Dashboard.isProcessing d') (Dashboard.error d')
         (Dashboard.menuData d') (Dashboard.showResults d') /\
  Dashboard.showRestaurantLookup d' = Dashboard.showRestaurantLookup d /\
  Dashboard.showPictureUpload d' = Dashboard.showPictureUpload d /\
  Dashboard.previewUrl d' = Dashboard.previewUrl d /\
  Dashboard.live d' = Dashboard.live d /\
  Dashboard.location d' = Dashboard.location d.
Proof.
  unfold Dashboard.validateAndProceed, validateAndProceed.
  cbn [selectedOption restaurantName].
  change (str_eqb (js "text") (js "text")) with true. cbv iota.
  destruct (truthy_str (trim (Dashboard.restaurantName d))); cbn [negb].
  2:{ cbn. repeat split. }
  destruct (AiFunctions.getSafeFoodsByRestaurantName env service
              (trim (Dashboard.restaurantName d)) (Some userAllergies) [])
    as [[e|r] sent].
  - cbn. repeat split.
  - destruct (JSON_parse _) as [e|v]; cbn; repeat split.
Qed.

Lemma or_else_server (a b : option jsstring) (k : jsstring) :
  a = Some k -> k <> [] -> or_else a b = Some k.
Proof. intros -> Hk. destruct k; [now elim Hk | reflexivity]. Qed.

Lemma or_else_fallback (a b : option jsstring) :
  falsy_opt a = true -> or_else a b = b.
Proof. destruct a as [[|c s]|]; simpl; intros H; try discriminate; auto. Qed.

(** X13: the request a configured lookup sends, and what it returns.
    With a key and an endpoint configured the function sends exactly one
    request and returns the content of the first choice of the answer; a
    rejection of the service is thrown on, and an answer without choices
    throws a TypeError.  For each of the five settings (API key, endpoint,
    API version, model, deployment) a server-side variable that is set and
    not empty wins over its NEXT_PUBLIC_ twin, and the twin is used when
    the server-side one is missing or empty; the API version, the model
    and the deployment fall back on 2024-08-01-preview, gpt-4o and gpt-4o
    when neither is set. *)
Theorem configured_lookup_request (env : Env) (service : Service)
    (restaurantName : jsstring) (allergies : option (list jsstring)) :
  falsy_opt (or_else (AZURE_OPENAI_API_KEY env)
                     (NEXT_PUBLIC_AZURE_OPENAI_API_KEY env)) = false ->
  falsy_opt (or_else (AZURE_OPENAI_ENDPOINT env)
                     (NEXT_PUBLIC_AZURE_OPENAI_ENDPOINT env)) = false ->
  exists req,
    AiFunctions.getSafeFoodsByRestaurantName
      env service restaurantName allergies [] =
      (match service req with
       | inl e => inl e
       | inr [] => inl EngineTypeError
       | inr (responseText :: _) => inr responseText
       end, [req]) /\
    (* the API key *)
    (forall k, AZURE_OPENAI_API_KEY env = Some k -> k <> [] ->
               apiKey (options req) = k) /\
    (falsy_opt (AZURE_OPENAI_API_KEY env) = true ->
     NEXT_PUBLIC_AZURE_OPENAI_API_KEY env = Some (apiKey (options req))) /\
    (* the endpoint *)
    (forall e, AZURE_OPENAI_ENDPOINT env = Some e -> e <> [] ->
               endpoint (options req) = e) /\
    (falsy_opt (AZURE_OPENAI_ENDPOINT env) = true ->
     NEXT_PUBLIC_AZURE_OPENAI_ENDPOINT env = Some (endpoint (options req))) /\
    (* the API version *)
    (forall v, AZURE_OPENAI_API_VERSION env = Some v -> v <> [] ->
               apiVersion (options req) = Some v) /\
    (falsy_opt (AZURE_OPENAI_API_VERSION env) = true ->
     forall v, NEXT_PUBLIC_AZURE_OPENAI_API_VERSION env = Some v -> v <> [] ->
               apiVersion (options req) = Some v) /\
    (falsy_opt (AZURE_OPENAI_API_VERSION env) = true ->
     falsy_opt (NEXT_PUBLIC_AZURE_OPENAI_API_VERSION env) = true ->
     apiVersion (options req) = Some (js "2024-08-01-preview")) /\
    (* the model *)
    (forall m, AZURE_OPENAI_MODEL_NAME env = Some m -> m <> [] ->
               model req = Some m) /\
    (falsy_opt (AZURE_OPENAI_MODEL_NAME env) = true ->
     forall m, NEXT_PUBLIC_AZURE_OPENAI_MODEL_NAME env = Some m -> m <> [] ->
               model req = Some m) /\
    (falsy_opt (AZURE_OPENAI_MODEL_NAME env) = true ->
     falsy_opt (NEXT_PUBLIC_AZURE_OPENAI_MODEL_NAME env) = true ->
     model req = Some (js "gpt-4o")) /\
    (* the deployment *)
    (forall d, AZURE_OPENAI_DEPLOYMENT env = Some d -> d <> [] ->
               deployment (options req) = Some d) /\
    (falsy_opt (AZURE_OPENAI_DEPLOYMENT env) = true ->
     forall d, NEXT_PUBLIC_AZURE_OPENAI_DEPLOYMENT env = Some d -> d <> [] ->
               deployment (options req) = Some d) /\
    (falsy_opt (AZURE_OPENAI_DEPLOYMENT env) = true ->
     falsy_opt (NEXT_PUBLIC_AZURE_OPENAI_DEPLOYMENT env) = true ->
     deployment (options req) = Some (js "gpt-4o")) /\
    dangerouslyAllowBrowser (options req) = true /\
    max_tokens req = 16384%N /\
    response_format req = (MenuSchema, js "menuSchema") /\
    map role (messages req) = [js "system"; js "user"].
Proof.
  intros K E. unfold AiFunctions.getSafeFoodsByRestaurantName.
  set (key := or_else (AZURE_OPENAI_API_KEY env) _) in *.
  set (ep := or_else (AZURE_OPENAI_ENDPOINT env) _) in *.
  destruct (required_present key
      (js "Missing required environment variable: AZURE_OPENAI_API_KEY")
      (@nil Request) K) as (k & Ek & Hk).
  destruct (required_present ep
      (js "Missing required environment variable: AZURE_OPENAI_ENDPOINT")
      (@nil Request) E) as (e & Ee & He).
  unfold bind at 1. rewrite Hk. unfold bind at 1. rewrite He.
  match goal with
  | |- context [complete service ?o ?m restaurantName allergies []] =>
      exists (request_of o m restaurantName allergies);
      pose proof (complete_result service o m restaurantName allergies [])
        as R;
      pose proof (complete_sends_one service o m restaurantName allergies [])
        as S1;
      destruct (complete service o m restaurantName allergies [])
        as [res log]
  end.
  cbn [fst snd app] in R, S1. subst res log.
  split; [reflexivity|].
  cbn [options request_of apiKey endpoint apiVersion deployment model
       dangerouslyAllowBrowser max_tokens response_format messages map role].
  assert (W : forall a b d v, a = Some v -> v <> [] ->
                or_else (or_else a b) (Some d) = Some v).
  { intros a b d v Ha Hv.
    rewrite (or_else_server b Ha Hv). now apply or_else_server. }
  assert (P : forall a b d v, falsy_opt a = true -> b = Some v -> v <> [] ->
                or_else (or_else a b) (Some d) = Some v).
  { intros a b d v Fa Hb Hv.
    rewrite (@or_else_fallback a b Fa). now apply or_else_server. }
  assert (D : forall a b d, falsy_opt a = true -> falsy_opt b = true ->
                or_else (or_else a b) (Some d) = Some d).
  { intros a b d Fa Fb. rewrite (@or_else_fallback a b Fa).
    now rewrite (@or_else_fallback b (Some d) Fb). }
  repeat split.
  - intros k0 H0 N0. subst key.
    rewrite (or_else_server _ H0 N0) in Ek. congruence.
  - intros F. subst key. rewrite (@or_else_fallback _ _ F) in Ek. exact Ek.
  - intros e0 H0 N0. subst ep.
    rewrite (or_else_server _ H0 N0) in Ee. congruence.
  - intros F. subst ep. rewrite (@or_else_fallback _ _ F) in Ee. exact Ee.
  - intros v Hv Nv. now apply W.
  - intros F v Hv Nv. now apply P.
  - intros F1 F2. now apply D.
  - intros m Hm Nm. now apply W.
  - intros F m Hm Nm. now apply P.
  - intros F1 F2. now apply D.
  - intros d Hd Nd. now apply W.
  - intros F d Hd Nd. now apply P.
  - intros F1 F2. now apply D.
Qed.

End LookupMore.

Lemma lookup_failures_share_one_message_witness :
  fst (MenuInput.validateAndProceed Samples.env (fun _ => inr [])
         [js "shellfish"] Samples.asking) =
    MenuInput.mkState (js "text") (js "Olive Garden") (js "") None false
      (js "An error occurred while analyzing the menu. Please try again.")
      None false.
Proof.
  apply (@lookup_failures_share_one_message Samples.env (fun _ => inr [])
           [js "shellfish"] Samples.asking).
  - reflexivity.
  - vm_compute. reflexivity.
  - right. right. intros req. exact I.
Defined.

Lemma configured_lookup_request_witness :
  let env := Ai.mkEnv (Some (js "key")) None (Some (js "https://example.test/"))
               None (Some (js "menus")) None None None None (Some (js "public")) in
  exists req,
    AiFunctions.getSafeFoodsByRestaurantName env
      (Samples.answering (Some (js "{}"))) (js "Olive Garden")
      (Some [js "shellfish"]) [] = (inr (Some (js "{}")), [req]) /\
    Ai.apiKey (Ai.options req) = js "key" /\
    Ai.deployment (Ai.options req) = Some (js "menus") /\
    Ai.model req = Some (js "gpt-4o").
Proof.
  intros env.
  destruct (@configured_lookup_request env
              (Samples.answering (Some (js "{}"))) (js "Olive Garden")
              (Some [js "shellfish"]))
    as (req & H1 & H2 & _ & _ & _ & _ & _ & _ & _ & _ & H11 & H12 & _).
  - vm_compute. reflexivity.
  - vm_compute. reflexivity.
  - exists req. split; [exact H1|]. split; [|split].
    + apply H2; [reflexivity | discriminate].
    + apply H12; [reflexivity | discriminate].
    + apply H11; reflexivity.
Defined.

(** ** Panels, previews and files *)

Section Previews.

Import Files.

Lemma revokePreview_only (u : jsstring) (live : Registry) :
  only_preview u live -> revokePreview u live = [].
Proof.
  unfold only_preview, revokePreview. intros ->.
  destruct u as [|c u]; cbn [truthy_str]; [reflexivity|].
  unfold revokeObjectURL. cbn [filter]. now rewrite str_eqb_refl.
Qed.

Lemma only_preview_created (url : jsstring) :
  truthy_str url = true -> only_preview url (createObjectURL url []).
Proof. unfold only_preview. now intros ->. Qed.

Lemma only_preview_none : only_preview (js "") [].
Proof. reflexivity. Qed.

(** The cleanup of the effect takes nothing away from the new preview. *)
Lemma cleanup_keeps_preview (old new : jsstring) (live : Registry) :
  str_eqb old new = false ->
  only_preview new live -> only_preview new (revokePreview old live).
Proof.
  unfold only_preview, revokePreview. intros Hne ->.
  destruct (truthy_str old); [|reflexivity].
  destruct (truthy_str new); [|reflexivity].
  unfold revokeObjectURL. cbn [filter].
  assert (E : str_eqb new old = false).
  { apply str_eqb_neq. apply str_eqb_neq in Hne. congruence. }
  now rewrite E.
Qed.

Lemma truthy_not_empty (url : jsstring) :
  truthy_str url = true -> (@None MenuInput.File = None <-> url = js "") -> False.
Proof. destruct url; [discriminate|]. intros _ [H _]. now specialize (H eq_refl). Qed.

End Previews.

Section LookupPagePreview.

Import Files MenuInput MenuInputEvents.

Lemma handle_page_ok (ev : event) (p : Page) :
  match ev with FileSelect _ url => truthy_str url = true | _ => True end ->
  page_ok p -> page_ok (handle ev p).
Proof.
  intros Hurl [Hlive Hsel].
  destruct ev as [option|file url|field value| |env service allergies];
    cbn [handle].
  - unfold handleOptionSelect, page_ok. cbn [previewUrl live state selectedFile].
    rewrite (revokePreview_only Hlive). split; [reflexivity | tauto].
  - unfold handleFileSelect. destruct file as [f|]; [|now split].
    destruct (negb (startsWith (js "image/") (file_type f))); [now split|].
    destruct (maxSize <? file_size f)%N; [now split|].
    unfold page_ok. cbn [previewUrl live state selectedFile].
    rewrite (revokePreview_only Hlive). split.
    + now apply only_preview_created.
    + destruct url; [discriminate|]. split; discriminate.
  - unfold handleTextInputChange, page_ok. cbn [previewUrl live state].
    split; [exact Hlive|].
    destruct (str_eqb field (js "restaurant")); exact Hsel.
  - unfold removePreview, page_ok. cbn [previewUrl live state selectedFile].
    rewrite (revokePreview_only Hlive). split; [reflexivity | tauto].
  - unfold page_ok. cbn [previewUrl live state]. split; [exact Hlive|].
    now rewrite validateAndProceed_keeps_file.
Qed.

Lemma step_page_ok (ev : event) (p : Page) :
  match ev with FileSelect _ url => truthy_str url = true | _ => True end ->
  page_ok p -> page_ok (step ev p).
Proof.
  intros Hurl Hok. pose proof (handle_page_ok ev Hurl Hok) as [H1 H2].
  unfold step. destruct (str_eqb (previewUrl p) (previewUrl (handle ev p))) eqn:E.
  - now split.
  - split; cbn [previewUrl live state]; [|exact H2].
    now apply cleanup_keeps_preview.
Qed.

(** X14: the lookup page leaks no object URL.  Whatever options are
    chosen, files picked, texts typed, previews removed and lookups
    started, from the page as it opens, the only object URL alive is the
    one of the preview drawn, a file is selected exactly when a preview is
    drawn, and nothing is alive once the page is unmounted.  (The platform
    hands out URLs that are not empty.) *)
Theorem lookup_page_keeps_one_preview (evs : list event) :
  named_urls evs = true ->
  let p := run evs initialPage in
  only_preview (previewUrl p) (live p) /\
  (selectedFile (state p) = None <-> previewUrl p = js "") /\
  unmount p = [].
Proof.
  intros Hn.
  assert (I : page_ok initialPage) by (split; [reflexivity | tauto]).
  assert (G : page_ok (run evs initialPage)).
  { revert Hn I. generalize initialPage.
    induction evs as [|ev evs IH]; intros p Hn I; [exact I|].
    unfold named_urls in Hn. cbn [forallb] in Hn.
    apply andb_true_iff in Hn. destruct Hn as [Hev Hn].
    unfold run. cbn [fold_left]. apply IH; [exact Hn|].
    apply step_page_ok; [|exact I]. destruct ev; auto. }
  destruct G as [G1 G2]. cbv zeta. repeat split; try tauto.
  now apply revokePreview_only.
Qed.

End LookupPagePreview.

Section DashboardPanels.

Import Files Dashboard.

Lemma handle_state_ok (userAllergies : list jsstring) (ev : event) (st : State) :
  match ev with FileSelect _ url => truthy_str url = true | _ => True end ->
  state_ok st -> state_ok (handle userAllergies ev st).
Proof.
  intros Hurl Hok. pose proof Hok as (Hp & Hlive & Hsel).
  pose proof (revokePreview_only Hlive) as R.
  destruct ev as [card|file url|field value|env service| | | | ];
    cbn [handle].
  - unfold handleCardClick.
    destruct (str_eqb (card_id card) (js "restaurant-lookup")).
    { destruct (List.length userAllergies =? 0)%nat; [exact Hok|].
      unfold state_ok.
      cbn [showRestaurantLookup showPictureUpload previewUrl live selectedFile].
      destruct (showPictureUpload st); [|rewrite andb_false_r; repeat split; tauto].
      rewrite R, andb_false_r. repeat split; auto. }
    destruct (str_eqb (card_id card) (js "take-upload-picture")).
    { destruct (List.length userAllergies =? 0)%nat; [exact Hok|].
      unfold state_ok.
      cbn [showRestaurantLookup showPictureUpload previewUrl live selectedFile].
      destruct (showRestaurantLookup st), (showPictureUpload st);
        cbn [negb andb]; try rewrite R; repeat split; auto; try tauto;
        discriminate. }
    destruct (href card) as [h|]; [|exact Hok].
    destruct (truthy_str h); exact Hok.
  - unfold handleFileSelect. destruct file as [f|]; [|exact Hok].
    destruct (negb (startsWith (js "image/") (MenuInput.file_type f)));
      [exact Hok|].
    destruct (maxSize <? MenuInput.file_size f)%N; [exact Hok|].
    unfold state_ok.
    cbn [showRestaurantLookup showPictureUpload previewUrl live selectedFile].
    rewrite R. repeat split; auto.
    + now apply only_preview_created.
    + discriminate.
    + destruct url; discriminate.
  - exact Hok.
  - unfold validateAndProceed.
    destruct (negb (truthy_str (trim (restaurantName st)))); [exact Hok|].
    destruct (AiFunctions.getSafeFoodsByRestaurantName _ _ _ _ _) as [[e|r] sent];
      [exact Hok|].
    destruct (JSON_parse _); exact Hok.
  - unfold goBackToDashboard, state_ok.
    cbn [showRestaurantLookup showPictureUpload previewUrl live selectedFile].
    repeat split; tauto.
  - unfold goBackFromPictureUpload, state_ok.
    cbn [showRestaurantLookup showPictureUpload previewUrl live selectedFile].
    rewrite R, andb_false_r. repeat split; auto.
  - unfold removePreview, state_ok.
    cbn [showRestaurantLookup showPictureUpload previewUrl live selectedFile].
    rewrite R. repeat split; auto.
  - exact Hok.
Qed.

Lemma step_state_ok (userAllergies : list jsstring) (ev : event) (st : State) :
  match ev with FileSelect _ url => truthy_str url = true | _ => True end ->
  state_ok st -> state_ok (step userAllergies ev st).
Proof.
  intros Hurl Hok.
  pose proof (handle_state_ok userAllergies ev Hurl Hok) as Hok'.
  pose proof Hok' as (H1 & H2 & H3).
  unfold step.
  destruct (str_eqb (previewUrl st)
              (previewUrl (handle userAllergies ev st))) eqn:E.
  - exact Hok'.
  - unfold state_ok.
    cbn [showRestaurantLookup showPictureUpload previewUrl live selectedFile].
    split; [exact H1|]. split; [|exact H3].
    now apply cleanup_keeps_preview.
Qed.

Lemma handle_panels_closed (ev : event) (st : State) :
  showRestaurantLookup st = false /\ showPictureUpload st = false ->
  showRestaurantLookup (handle [] ev st) = false /\
  showPictureUpload (handle [] ev st) = false.
Proof.
  intros [H1 H2].
  destruct ev as [card|file url|field value|env service| | | | ];
    cbn [handle]; auto.
  - unfold handleCardClick. cbn [List.length Nat.eqb].
    destruct (str_eqb (card_id card) (js "restaurant-lookup")); [now split|].
    destruct (str_eqb (card_id card) (js "take-upload-picture")); [now split|].
    destruct (href card) as [h|]; [|now split].
    destruct (truthy_str h); now split.
  - unfold handleFileSelect. destruct file as [f|]; [|now split].
    destruct (negb (startsWith (js "image/") (MenuInput.file_type f)));
      [now split|].
    destruct (maxSize <? MenuInput.file_size f)%N; now split.
  - unfold validateAndProceed.
    destruct (negb (truthy_str (trim (restaurantName st)))); [now split|].
    destruct (AiFunctions.getSafeFoodsByRestaurantName _ _ _ _ _) as [[e|r] sent];
      [now split|].
    destruct (JSON_parse _); now split.
Qed.

(** X15: the panels and the object URLs of the dashboard.  Whatever cards
    are clicked, files picked, texts typed, lookups started and panels
    closed, from the dashboard as it opens: the lookup panel and the
    picture panel are not open together; at most one object URL is alive,
    the one held in [previewUrl], so a preview that is drawn is backed by
    the one URL alive; a file is selected exactly when [previewUrl] is
    set; nothing is alive once the dashboard is unmounted; and for a
    visitor without allergies neither panel ever opens.  The URL can
    outlive its preview: closing the picture panel by its own card
    releases nothing, the file and the URL stay as they are, alive and
    not drawn.  (The platform hands out URLs that are not empty.) *)
Theorem dashboard_panels_and_preview
    (userAllergies : list jsstring) (evs : list event) :
  named_urls evs = true ->
  let st := run userAllergies evs initialState in
  showRestaurantLookup st && showPictureUpload st = false /\
  only_preview (previewUrl st) (live st) /\
  (previewDrawn st = true -> live st = [previewUrl st]) /\
  (selectedFile st = None <-> previewUrl st = js "") /\
  unmount st = [] /\
  (userAllergies = [] ->
   showRestaurantLookup st = false /\ showPictureUpload st = false) /\
  (forall card,
     card_id card = js "take-upload-picture" ->
     userAllergies <> [] ->
     showPictureUpload st = true ->
     let st' := step userAllergies (CardClick card) st in
     showPictureUpload st' = false /\
     previewDrawn st' = false /\
     previewUrl st' = previewUrl st /\
     selectedFile st' = selectedFile st /\
     live st' = live st).
Proof.
  intros Hn.
  assert (I : state_ok initialState).
  { repeat split; auto. }
  assert (G : state_ok (run userAllergies evs initialState)).
  { revert Hn I. generalize initialState.
    induction evs as [|ev evs IH]; intros st Hn I; [exact I|].
    unfold named_urls in Hn. cbn [forallb] in Hn.
    apply andb_true_iff in Hn. destruct Hn as [Hev Hn].
    unfold run. cbn [fold_left]. apply IH; [exact Hn|].
    apply step_state_ok; [|exact I]. destruct ev; auto. }
  destruct G as (G1 & G2 & G3). cbv zeta.
  split; [exact G1|]. split; [exact G2|].
  split.
  { unfold previewDrawn. intros Hd. apply andb_true_iff in Hd.
    destruct Hd as [_ Hd]. unfold only_preview in G2. now rewrite Hd in G2. }
  split; [exact G3|].
  split; [now apply revokePreview_only|].
  split.
  { intros ->. clear.
    assert (I : showRestaurantLookup initialState = false /\
                showPictureUpload initialState = false) by (split; reflexivity).
    revert I. generalize initialState.
    induction evs as [|ev evs IH]; intros st I; [exact I|].
    unfold run. cbn [fold_left]. apply IH.
    pose proof (@handle_panels_closed ev st I) as [C1 C2].
    unfold step. destruct (str_eqb _ _); [now split|].
    cbn [showRestaurantLookup showPictureUpload]. now split. }
  generalize (run userAllergies evs initialState). clear.
  intros st card Hid Hne Hopen.
  unfold step. cbn [handle]. unfold handleCardClick. rewrite Hid.
  change (str_eqb (js "take-upload-picture") (js "restaurant-lookup"))
    with false.
  change (str_eqb (js "take-upload-picture") (js "take-upload-picture"))
    with true.
  cbv iota.
  destruct userAllergies as [|a l]; [now elim Hne|].
  cbn [List.length Nat.eqb]. rewrite Hopen. cbn [negb].
  unfold previewDrawn.
  destruct (showRestaurantLookup st);
    cbn [previewUrl showPictureUpload selectedFile live];
    rewrite str_eqb_refl;
    cbn [previewUrl showPictureUpload selectedFile live andb];
    repeat split.
Qed.

End DashboardPanels.

Section PickedFiles.

Import Files MenuInput ApiUtils.

Lemma allowed_type_is_image (t : jsstring) :
  existsb (str_eqb t) allowedTypes = true -> startsWith (js "image/") t = true.
Proof.
  unfold allowedTypes. cbn [existsb]. rewrite !orb_true_iff.
  intros [H|[H|[H|[H|H]]]]; try discriminate;
    apply str_eqb_eq in H; subst t; reflexivity.
Qed.

(** X16: a file [apiUtils.validateImageFile] accepts is a file the pages
    accept.  For such a file (of one of the four listed types and of at
    most 10 MB, the limit included) [handleFileSelect] of the lookup page
    and of the dashboard select it, clear the message and draw its
    preview.  The pages ask less of the type (any type that starts with
    image/ will do), so the converse does not hold. *)
Theorem valid_image_is_selected (f : File) (url : jsstring)
    (p : MenuInputEvents.Page) (d : Dashboard.State) :
  isValid (validateImageFile f) = true ->
  (selectedFile (MenuInputEvents.state
                   (MenuInputEvents.handleFileSelect (Some f) url p)) = Some f /\
   error (MenuInputEvents.state
            (MenuInputEvents.handleFileSelect (Some f) url p)) = js "" /\
   MenuInputEvents.previewUrl
     (MenuInputEvents.handleFileSelect (Some f) url p) = url) /\
  (Dashboard.selectedFile (Dashboard.handleFileSelect (Some f) url d) = Some f /\
   Dashboard.error (Dashboard.handleFileSelect (Some f) url d) = js "" /\
   Dashboard.previewUrl (Dashboard.handleFileSelect (Some f) url d) = url) /\
  (file_size f <= 10485760)%N.
Proof.
  unfold validateImageFile. intros H.
  destruct (existsb (str_eqb (file_type f)) allowedTypes) eqn:T;
    [|discriminate].
  destruct (maxSize <? file_size f)%N eqn:S; [discriminate|].
  apply allowed_type_is_image in T.
  unfold MenuInputEvents.handleFileSelect, Dashboard.handleFileSelect.
  rewrite T, S. cbn. repeat split.
  apply N.ltb_ge in S. exact S.
Qed.

End PickedFiles.

Lemma lookup_page_keeps_one_preview_witness :
  MenuInputEvents.unmount
    (MenuInputEvents.run
       [MenuInputEvents.OptionSelect (js "picture");
        MenuInputEvents.FileSelect
          (Some (MenuInput.mkFile (js "menu.png") 2048 (js "image/png")))
          (js "blob:1");
        MenuInputEvents.FileSelect
          (Some (MenuInput.mkFile (js "dish.png") 4096 (js "image/png")))
          (js "blob:2");
        MenuInputEvents.OptionSelect (js "text")]
       MenuInputEvents.initialPage) = [].
Proof.
  apply (@lookup_page_keeps_one_preview
           [MenuInputEvents.OptionSelect (js "picture");
            MenuInputEvents.FileSelect
              (Some (MenuInput.mkFile (js "menu.png") 2048 (js "image/png")))
              (js "blob:1");
            MenuInputEvents.FileSelect
              (Some (MenuInput.mkFile (js "dish.png") 4096 (js "image/png")))
              (js "blob:2");
            MenuInputEvents.OptionSelect (js "text")]).
  vm_compute. reflexivity.
Defined.

Lemma dashboard_panels_and_preview_witness :
  let st := Dashboard.run [js "shellfish"]
              [Dashboard.CardClick
                 (Dashboard.mkCard (js "restaurant-lookup")
                                   (Some (js "/restaurant-lookup")));
               Dashboard.CardClick
                 (Dashboard.mkCard (js "take-upload-picture")
                                   (Some (js "/take-upload-picture")));
               Dashboard.FileSelect
                 (Some (MenuInput.mkFile (js "menu.png") 2048 (js "image/png")))
                 (js "blob:1");
               Dashboard.CardClick
                 (Dashboard.mkCard (js "take-upload-picture")
                                   (Some (js "/take-upload-picture")))]
              Dashboard.initialState in
  Dashboard.showRestaurantLookup st && Dashboard.showPictureUpload st = false /\
  Files.only_preview (Dashboard.previewUrl st) (Dashboard.live st) /\
  Dashboard.previewDrawn st = false /\
  Dashboard.live st = [js "blob:1"] /\
  Dashboard.unmount st = [].
Proof.
  intros st.
  destruct (@dashboard_panels_and_preview [js "shellfish"]
           [Dashboard.CardClick
              (Dashboard.mkCard (js "restaurant-lookup")
                                (Some (js "/restaurant-lookup")));
            Dashboard.CardClick
              (Dashboard.mkCard (js "take-upload-picture")
                                (Some (js "/take-upload-picture")));
            Dashboard.FileSelect
              (Some (MenuInput.mkFile (js "menu.png") 2048 (js "image/png")))
              (js "blob:1");
            Dashboard.CardClick
              (Dashboard.mkCard (js "take-upload-picture")
                                (Some (js "/take-upload-picture")))])
    as (H1 & H2 & _ & _ & H5 & _).
  - vm_compute. reflexivity.
  - split; [exact H1|]. split; [exact H2|].
    split; [reflexivity|]. split; [reflexivity|]. exact H5.
Defined.

Lemma valid_image_is_selected_witness :
  MenuInput.selectedFile
    (MenuInputEvents.state
       (MenuInputEvents.handleFileSelect
          (Some (MenuInput.mkFile (js "menu.png") 10485760 (js "image/png")))
          (js "blob:1") MenuInputEvents.initialPage)) =
    Some (MenuInput.mkFile (js "menu.png") 10485760 (js "image/png")).
Proof.
  apply (@valid_image_is_selected
           (MenuInput.mkFile (js "menu.png") 10485760 (js "image/png"))
           (js "blob:1") MenuInputEvents.initialPage Dashboard.initialState).
  vm_compute. reflexivity.
Defined.

(** ** The client: uploads, bodies and messages *)

Section ClientMore.

Import Client ClientApi ApiUtils Stringify.

Local Arguments js : simpl never.


Lemma formatErrorMessage_filled (e : ApiError) :
  truthy_str (formatErrorMessage e) = true.
Proof.
  unfold formatErrorMessage.
  repeat match goal with
         | |- context [if ?b then _ else _] => destruct b eqn:?
         end; auto.
Qed.

(** X18: what the user is told when a call fails.  The text of
    [formatErrorMessage] is never empty, whatever the error.  For the
    failures [request] itself answers with it is one of five fixed texts
    or the line with the status of the response: a network failure is
    reported by the fixed text about the connection (the message of the
    underlying error is not shown), a timeout by the text about timing
    out, the statuses 404, 500 and 429 by their own texts and every other
    status by Request failed with status followed by the status.  The
    PARSE_ERROR of an upload falls to the default branch and is reported
    by its own message, Failed to parse response. *)
Theorem request_failure_message :
  (forall e : ApiError, truthy_str (formatErrorMessage e) = true) /\
  (forall (client : ApiClient) (net : Network) (endpoint : jsstring)
          (options : RequestInit) (log : list FetchCall) (err : ApiError),
     fst (request client net endpoint options log) = inr (Failure err) ->
     error err = js "NETWORK_ERROR" /\
     formatErrorMessage err =
       js "Unable to connect to the server. Please check your internet connection."
     \/
     error err = js "TIMEOUT" /\
     formatErrorMessage err = js "Request timed out. Please try again."
     \/
     error err = js "HTTP_ERROR" /\
     exists status,
       code err = Some status /\
       formatErrorMessage err =
         if (status =? 404)%N then js "The requested resource was not found."
         else if (status =? 500)%N
              then js "Server error. Please try again later."
         else if (status =? 429)%N
              then js "Too many requests. Please wait and try again."
         else js "Request failed with status " ++ toString status) /\
  (forall (event : XhrEvent) (err : ApiError),
     uploadFile event = inr (Failure err) ->
     error err = js "PARSE_ERROR" ->
     formatErrorMessage err = js "Failed to parse response").
Proof.
  split; [exact formatErrorMessage_filled|]. split.
  2:{ intros event err H K.
      destruct event as [status text| |]; cbn [uploadFile] in H.
      - unfold onLoad, try_catch, bind, lift, ret in H.
        destruct ((200 <=? status)%N && (status <? 300)%N).
        + destruct (JSON_parse text); cbn [fst] in H;
            first [discriminate H | injection H as <-; reflexivity].
        + destruct (JSON_parse text) as [e|v]; cbn [fst] in H.
          * injection H as <-. reflexivity.
          * unfold call_catch, call_property in H.
            destruct (getProp v (js "catch")); cbn [fst] in H;
              injection H as <-; reflexivity.
      - injection H as <-. discriminate K.
      - injection H as <-. discriminate K. }
  intros client net endpoint options log err H.
  rewrite request_outcome in H. cbv zeta in H. cbn [fst] in H.
  injection H as H.
  assert (T : forall m c d,
             formatErrorMessage (mkApiError (js "TIMEOUT") m c d) =
               js "Request timed out. Please try again.") by reflexivity.
  assert (N : forall m c d,
             formatErrorMessage (mkApiError (js "NETWORK_ERROR") m c d) =
               js "Unable to connect to the server. Please check your internet connection.")
    by reflexivity.
  assert (C : forall e : JsError,
             (if str_eqb (errName e) (js "AbortError")
              then Failure (mkApiError (js "TIMEOUT") (js "Request timed out")
                                       None NoDetails)
              else Failure (mkApiError (js "NETWORK_ERROR")
                              (if truthy_str (errMessage e) then errMessage e
                               else js "Network request failed")
                              None (DetailsError e))) = (Failure err : ApiResponse value) ->
             error err = js "NETWORK_ERROR" /\
             formatErrorMessage err =
               js "Unable to connect to the server. Please check your internet connection."
             \/
             error err = js "TIMEOUT" /\
             formatErrorMessage err = js "Request timed out. Please try again.").
  { intros e. destruct (str_eqb (errName e) (js "AbortError"));
      intros Q; injection Q as <-; [right | left]; split; auto. }
  destruct (latency _ <? timeout client)%N.
  2:{ injection H as <-. right. left. split; auto. }
  destruct (outcome _) as [e|r].
  { destruct (C e H) as [Q|Q]; [left | right; left]; exact Q. }
  destruct (ok r).
  { destruct (json r) as [e|data]; [|discriminate].
    destruct (C e H) as [Q|Q]; [left | right; left]; exact Q. }
  injection H as <-. right. right. split; [reflexivity|].
  exists (status r). split; [reflexivity|].
  unfold formatErrorMessage, code_is. cbn [error code message].
  change (str_eqb (js "HTTP_ERROR") (js "NETWORK_ERROR")) with false.
  change (str_eqb (js "HTTP_ERROR") (js "TIMEOUT")) with false.
  change (str_eqb (js "HTTP_ERROR") (js "HTTP_ERROR")) with true.
  cbv iota.
  destruct (status r =? 404)%N; [reflexivity|].
  destruct (status r =? 500)%N; [reflexivity|].
  destruct (status r =? 429)%N; reflexivity.
Qed.

Lemma split_comma_plain (s : jsstring) :
  (forall c, In c s -> c <> 44%N) -> split_comma s = [s].
Proof.
  induction s as [|c s IH]; intros H; [reflexivity|].
  cbn [split_comma].
  destruct (N.eqb_spec c 44) as [E|E];
    [elim (H c (or_introl eq_refl) E)|].
  rewrite IH; [reflexivity|]. intros d Hd. apply H. now right.
Qed.

Lemma split_comma_first (s t : jsstring) :
  (forall c, In c s -> c <> 44%N) ->
  split_comma (s ++ 44%N :: t) = s :: split_comma t.
Proof.
  induction s as [|c s IH]; intros H; [reflexivity|].
  cbn [app split_comma].
  destruct (N.eqb_spec c 44) as [E|E];
    [elim (H c (or_introl eq_refl) E)|].
  rewrite IH; [reflexivity|]. intros d Hd. apply H. now right.
Qed.

(** X19: [fileToBase64] on a data URL.  When the reader ends with the
    text data: followed by the type of the file, ;base64, and the payload,
    the promise resolves with the payload alone, provided the type holds
    no comma (the payload, being base64, holds none); when the reader
    fails, the promise rejects with the event of the failure. *)
Theorem fileToBase64_payload (E : Type) (mime payload : jsstring) :
  (forall c, In c mime -> c <> 44%N) ->
  forallb isBase64 payload = true ->
  fileToBase64 (E := E)
    (inr (js "data:" ++ mime ++ js ";base64," ++ payload)) =
    inr (Some payload) /\
  forall event : E, fileToBase64 (inl event) = inl event.
Proof.
  intros Hm Hp. split; [|reflexivity].
  unfold fileToBase64.
  change (js ";base64," ++ payload)
    with (js ";base64" ++ 44%N :: payload).
  rewrite !app_assoc.
  rewrite split_comma_first.
  - rewrite split_comma_plain; [reflexivity|].
    intros c Hc ->. rewrite forallb_forall in Hp.
    specialize (Hp _ Hc). discriminate.
  - intros c Hc. apply in_app_iff in Hc. destruct Hc as [Hc|Hc].
    + apply in_app_iff in Hc. destruct Hc as [Hc|Hc]; [|now apply Hm].
      cbv in Hc. intuition (subst; discriminate).
    + cbv in Hc. intuition (subst; discriminate).
Qed.

Variable show_number : bool -> N -> Z -> jsstring.


End ClientMore.

Lemma request_failure_message_witness :
  let client := Client.new_ApiClient (Client.mkEnv None) None None in
  let net := fun _ : Client.FetchCall =>
               Client.mkExchange 120
                 (inr (Client.mkResponse 503 (inr VNull))) (js "aborted") in
  let err := Client.mkApiError (js "HTTP_ERROR")
               (js "Request failed with status 503") (Some 503%N)
               (Client.DetailsValue VNull) in
  ApiUtils.formatErrorMessage err = js "Request failed with status 503" /\
  truthy_str (ApiUtils.formatErrorMessage err) = true.
Proof.
  intros client net err.
  destruct request_failure_message as (H1 & H2 & _).
  split; [|apply H1].
  destruct (H2 client net (js "/menu/history/7")
              (Client.mkInit (Some (js "GET")) None []) [] err)
    as [[K _]|[[K _]|(_ & status & Hc & Hm)]].
  - vm_compute. reflexivity.
  - discriminate K.
  - discriminate K.
  - injection Hc as <-. exact Hm.
Defined.

Lemma fileToBase64_payload_witness :
  ApiUtils.fileToBase64 (E := unit)
    (inr (js "data:" ++ js "image/png" ++ js ";base64," ++ js "iVBORw0KGgo=")) =
    inr (Some (js "iVBORw0KGgo=")).
Proof.
  apply (@fileToBase64_payload unit (js "image/png") (js "iVBORw0KGgo=")).
  - intros c Hc. vm_compute in Hc. intuition (subst; discriminate).
  - vm_compute. reflexivity.
Defined.

(** ** An answer of the declared shape *)

Section DeclaredShape.

Import Ai MenuInput.

Local Arguments js : simpl never.

Lemma conforming_food (food : value) :
  conforms FoodItemSchema food = true ->
  food <> VNull /\
  food_ok food = true /\
  exists s, safetyClassification food = Some (VString s) /\
            In s categories.
Proof.
  destruct food as [| | | | |ms]; try discriminate.
  unfold FoodItemSchema. cbn [conforms]. intros H.
  split; [discriminate|].
  unfold food_ok, child_ok, safetyClassification, getProp.
  destruct (lookup (js "name") ms) as [w1|]; [|discriminate].
  apply andb_true_iff in H. destruct H as [H1 H].
  destruct (lookup (js "safetyClassification") ms) as [w2|]; [|discriminate].
  apply andb_true_iff in H. destruct H as [H2 H].
  destruct (lookup (js "reasoning") ms) as [w3|]; [|discriminate].
  apply andb_true_iff in H. destruct H as [H3 H].
  destruct (lookup (js "questions") ms) as [w4|]; [|discriminate].
  apply andb_true_iff in H. destruct H as [H4 _].
  destruct w1 as [| | |n1| |]; try discriminate.
  destruct w3 as [| | |n3| |]; try discriminate.
  destruct w4 as [| | |n4| |]; try discriminate.
  split; [reflexivity|].
  destruct w2 as [| | |s| |]; try discriminate.
  exists s. split; [reflexivity|].
  cbn [existsb] in H2. rewrite !orb_true_iff in H2. unfold categories.
  destruct H2 as [H|[H|[H|H]]]; try discriminate;
    apply str_eqb_eq in H; subst s; cbn; auto.
Qed.

Lemma conforming_menu (v : value) :
  conforms MenuSchema v = true ->
  truthy v = true /\
  child_ok v (js "restaurantName") = true /\
  child_ok v (js "restaurantInfo") = true /\
  exists foods,
    getProp v (js "foods") = inr (Some (VArray foods)) /\
    forallb (conforms FoodItemSchema) foods = true.
Proof.
  destruct v as [| | | | |ms]; try discriminate.
  unfold MenuSchema. cbn [conforms]. intros H.
  split; [reflexivity|].
  unfold child_ok, getProp.
  destruct (lookup (js "restaurantName") ms) as [w1|]; [|discriminate].
  apply andb_true_iff in H. destruct H as [H1 H].
  destruct (lookup (js "restaurantInfo") ms) as [w2|]; [|discriminate].
  apply andb_true_iff in H. destruct H as [H2 H].
  destruct (lookup (js "foods") ms) as [w3|]; [|discriminate].
  apply andb_true_iff in H. destruct H as [H _].
  destruct w1; try discriminate. destruct w2; try discriminate.
  split; [reflexivity|]. split; [reflexivity|].
  destruct w3 as [| | | |foods|]; try discriminate.
  exists foods. split; [reflexivity | exact H].
Qed.

Lemma sections_ok (expandedCategories : Expanded) (foods : list value) :
  forallb food_ok foods = true ->
  forallb (section_ok expandedCategories) (tagged_sections foods) = true.
Proof.
  intros H. apply forallb_forall. intros sec Hin.
  unfold tagged_sections in Hin. apply in_flat_map in Hin.
  destruct Hin as (c & _ & Hin).
  destruct (tagged c foods) as [|f fs] eqn:E; [destruct Hin|].
  destruct Hin as [<-|[]]. unfold section_ok. cbn [heading items].
  destruct (expandedCategories c); [|reflexivity].
  rewrite <- E. apply forallb_forall. intros food Hf.
  unfold tagged in Hf. apply filter_In in Hf.
  rewrite forallb_forall in H. now apply H.
Qed.

Lemma sections_items (foods : list value) :
  List.concat (map items (tagged_sections foods)) =
    tagged (js "More Safe") foods ++ tagged (js "Questionable") foods ++
    tagged (js "Avoid") foods.
Proof.
  unfold tagged_sections, categories. cbn [flat_map].
  destruct (tagged (js "More Safe") foods);
    destruct (tagged (js "Questionable") foods);
    destruct (tagged (js "Avoid") foods);
    cbn [app map List.concat items]; rewrite ?app_nil_r; reflexivity.
Qed.

Lemma tagged_partition (foods : list value) :
  Forall (fun food => exists s, safetyClassification food = Some (VString s) /\
                                In s categories) foods ->
  List.length (tagged (js "More Safe") foods) +
  List.length (tagged (js "Questionable") foods) +
  List.length (tagged (js "Avoid") foods) = List.length foods.
Proof.
  induction 1 as [|food rest (s & Hs & Hin) _ IH]; [reflexivity|].
  unfold tagged in *. cbn [filter]. rewrite Hs. cbn [strictEqStr].
  unfold categories in Hin.
  destruct Hin as [<-|[<-|[<-|[]]]];
    match goal with
    | |- context [str_eqb ?a (js "More Safe")] =>
        let b := eval vm_compute in (str_eqb a (js "More Safe")) in
        change (str_eqb a (js "More Safe")) with b
    end;
    match goal with
    | |- context [str_eqb ?a (js "Questionable")] =>
        let b := eval vm_compute in (str_eqb a (js "Questionable")) in
        change (str_eqb a (js "Questionable")) with b
    end;
    match goal with
    | |- context [str_eqb ?a (js "Avoid")] =>
        let b := eval vm_compute in (str_eqb a (js "Avoid")) in
        change (str_eqb a (js "Avoid")) with b
    end;
    cbn [List.length]; lia.
Qed.

(** X21: an answer of the declared shape is drawn in full.  When the
    value stored as the result has the shape of MenuSchema, drawing the
    results throws nothing and React refuses no child, whichever sections
    are open; every heading drawn is one of the three tags, every food of
    the answer is listed under the heading of its own tag, and the
    sections together list as many items as the answer has foods: nothing
    is dropped and nothing is listed twice. *)
Theorem conforming_answer_is_drawn_in_full (st : State) (v : value) :
  conforms MenuSchema v = true ->
  showResults st = true ->
  menuData st = Some v ->
  exists foods secs,
    getProp v (js "foods") = inr (Some (VArray foods)) /\
    (forall expandedCategories,
       resultsPanel expandedCategories st = Some (inr secs)) /\
    (forall sec, In sec secs -> In (heading sec) categories) /\
    (forall food, In food foods ->
       exists sec, In sec secs /\ In food (items sec) /\
                   strictEqStr (safetyClassification food) (heading sec) = true) /\
    List.length (List.concat (map items secs)) = List.length foods.
Proof.
  intros Hv Hshow Hdata.
  destruct (conforming_menu v Hv) as (Tv & Cn & Ci & foods & Hfoods & Hall).
  assert (Hitems : Forall (fun food =>
                     food <> VNull /\
                     food_ok food = true /\
                     exists s, safetyClassification food = Some (VString s) /\
                               In s categories) foods).
  { apply Forall_forall. intros food Hin. apply conforming_food.
    rewrite forallb_forall in Hall. now apply Hall. }
  assert (Hnn : Forall (fun food => food <> VNull) foods).
  { eapply Forall_impl; [|exact Hitems]. now intros food [H _]. }
  assert (Hok : forallb food_ok foods = true).
  { apply forallb_forall. intros food Hin. rewrite Forall_forall in Hitems.
    now destruct (Hitems food Hin) as (_ & H & _). }
  assert (Htag : Forall (fun food =>
                     exists s, safetyClassification food = Some (VString s) /\
                               In s categories) foods).
  { eapply Forall_impl; [|exact Hitems]. now intros food (_ & _ & H). }
  exists foods, (tagged_sections foods).
  split; [exact Hfoods|]. split.
  { intros expandedCategories.
    unfold resultsPanel. rewrite Hshow, Hdata, Tv.
    unfold categorySections. rewrite Hfoods.
    rewrite (sections_of_tagged Hnn). fold (tagged_sections foods).
    cbv iota.
    now rewrite Cn, Ci, (sections_ok expandedCategories foods Hok). }
  split.
  { intros sec Hin. unfold tagged_sections in Hin.
    apply in_flat_map in Hin. destruct Hin as (c & Hc & Hin).
    destruct (tagged c foods); [destruct Hin|].
    destruct Hin as [<-|[]]. exact Hc. }
  split.
  { intros food Hin. rewrite Forall_forall in Htag.
    destruct (Htag food Hin) as (s & Hs & Hc).
    assert (Ht : In food (tagged s foods)).
    { unfold tagged. apply filter_In. split; [exact Hin|].
      rewrite Hs. cbn. apply str_eqb_refl. }
    destruct (tagged s foods) as [|f fs] eqn:E; [destruct Ht|].
    exists (mkSection s (f :: fs)). split.
    - unfold tagged_sections. apply in_flat_map. exists s.
      split; [exact Hc|]. rewrite E. now left.
    - split; [exact Ht|]. cbn [heading]. rewrite Hs. cbn.
      apply str_eqb_refl. }
  rewrite sections_items, !length_app.
  pose proof (tagged_partition Htag). lia.
Qed.

End DeclaredShape.

Lemma conforming_answer_is_drawn_in_full_witness :
  let v := VObject [ (js "restaurantName", VString (js "Olive Garden"));
                     (js "restaurantInfo", VString (js "Shellfish is served."));
                     (js "foods", VArray [Samples.shrimp_scampi]) ] in
  let st := MenuInput.mkState (js "text") (js "Olive Garden") (js "") None
              false (js "") (Some v) true in
  exists foods secs,
    getProp v (js "foods") = inr (Some (VArray foods)) /\
    MenuInput.resultsPanel MenuInput.initiallyExpanded st = Some (inr secs) /\
    List.length (List.concat (map MenuInput.items secs)) = List.length foods.
Proof.
  intros v st.
  destruct (@conforming_answer_is_drawn_in_full st v)
    as (foods & secs & H1 & H2 & _ & _ & H5).
  - vm_compute. reflexivity.
  - reflexivity.
  - reflexivity.
  - exists foods, secs. repeat split; auto.
Defined.

(** ** Endpoints, the profile in the context, and the cards *)

Section Endpoints.

Import Client ClientApi.

Local Arguments js : simpl never.

Variable show_number : bool -> N -> Z -> jsstring.



End Endpoints.

Section Lifecycle.

Import AllergyFormPage AllergyContext.

Variable show_number : bool -> N -> Z -> jsstring.

(** X23: the profile in the context.  [updateAllergies] does nothing
    while there is no profile; on a profile it replaces the allergies and
    the time stamp and keeps the name, the address and the emergency
    contact.  The profile it leaves is complete exactly when the name and
    the address are not empty and the new list is not empty, so emptying
    the allergies makes the lookup page send the visitor to the form.
    After [clearProfile] the save effect removes the stored entry, and a
    provider mounted on that storage has no profile. *)
Theorem profile_lifecycle (p : UserProfile) (l : list jsstring)
    (now : jsstring) (st : Storage) :
  updateAllergies l now None = None /\
  updateAllergies l now (Some p) =
    Some (mkProfile (up_name p) (up_email p) (up_emergencyContact p) l
                    (Some now)) /\
  (isProfileComplete (updateAllergies l now (Some p)) = true <->
   up_name p <> [] /\ up_email p <> [] /\ l <> []) /\
  (MenuInputEvents.redirectEffect (updateAllergies l now (Some p)) =
     Some (js "/allergyForm") <-> l = []) /\
  clearProfile (Some p) = None /\
  entry (saveEffect show_number VNull st) = None /\
  mount show_number (saveEffect show_number VNull st) =
    (VNull, saveEffect show_number VNull st).
Proof.
  split; [reflexivity|]. split; [reflexivity|]. split; [|split].
  - unfold isProfileComplete, updateAllergies.
    cbn [up_name up_email up_allergies].
    destruct (up_name p), (up_email p), l; cbn; split; intros H;
      try discriminate; try reflexivity;
      try (destruct H as (H1 & H2 & H3); congruence).
    repeat split; discriminate.
  - unfold MenuInputEvents.redirectEffect, MenuInputEvents.userAllergies,
      updateAllergies. cbn [up_allergies].
    destruct l; cbn; split; intros H; try discriminate; reflexivity.
  - repeat split.
Qed.

End Lifecycle.

Section Cards.

Import Dashboard.

(** X24: where the cards of the dashboard lead.  A click on one of the
    four cards assigns at most one address, and that address is the form
    or the guide: for a visitor without allergies the lookup card and the
    picture card lead to the form and open nothing; for a visitor with
    allergies they assign no address (they open or close their panel), so
    the addresses /restaurant-lookup and /take-upload-picture the two
    cards carry are never visited. *)
Theorem dashboard_cards_destinations
    (userAllergies : list jsstring) (card : DashboardCard) (st : State) :
  In card dashboardCards ->
  let st' := handleCardClick userAllergies card st in
  (location st' = location st \/
   location st' = location st ++ [js "/allergyForm"] \/
   location st' = location st ++ [js "/how-to-use"]) /\
  (card_id card = js "restaurant-lookup" \/
   card_id card = js "take-upload-picture" ->
   (userAllergies = [] ->
    location st' = location st ++ [js "/allergyForm"] /\
    showRestaurantLookup st' = showRestaurantLookup st /\
    showPictureUpload st' = showPictureUpload st) /\
   (userAllergies <> [] -> location st' = location st)).
Proof.
  unfold dashboardCards. intros [<-|[<-|[<-|[<-|[]]]]]; cbv zeta;
    unfold handleCardClick; cbn [card_id href].
  - change (str_eqb (js "update-allergies") (js "restaurant-lookup")) with false.
    change (str_eqb (js "update-allergies") (js "take-upload-picture")) with false.
    cbn. split; [auto|]. intros [H|H]; discriminate.
  - change (str_eqb (js "take-upload-picture") (js "restaurant-lookup")) with false.
    change (str_eqb (js "take-upload-picture") (js "take-upload-picture")) with true.
    cbv iota. destruct userAllergies; cbn; split; auto; intros _; split;
      intros H; try discriminate; auto. now elim H.
  - change (str_eqb (js "restaurant-lookup") (js "restaurant-lookup")) with true.
    cbv iota. destruct userAllergies; cbn; split; auto; intros _; split;
      intros H; try discriminate; auto. now elim H.
  - change (str_eqb (js "how-to-use") (js "restaurant-lookup")) with false.
    change (str_eqb (js "how-to-use") (js "take-upload-picture")) with false.
    cbn. split; [auto|]. intros [H|H]; discriminate.
Qed.

End Cards.

Lemma dashboard_cards_destinations_witness :
  Dashboard.location
    (Dashboard.handleCardClick []
       (Dashboard.mkCard (js "restaurant-lookup") (Some (js "/restaurant-lookup")))
       Dashboard.initialState) = [js "/allergyForm"].
Proof.
  refine (proj1 (proj1 (proj2 (@dashboard_cards_destinations []
           (Dashboard.mkCard (js "restaurant-lookup")
                             (Some (js "/restaurant-lookup")))
           Dashboard.initialState _) _) _)).
  - right. right. left. reflexivity.
  - left. reflexivity.
  - reflexivity.
Defined.
